(** * CalTodo: a shallow embedding of [src/app.py]

    The application is a Textual program with three stateful objects: the
    [CalendarTable] (month grid), the [TodoPanel] (task list of the selected
    date) and the [CalTodoApp] that owns the task mapping and its JSON file.
    Python methods are embedded as computations of a state-and-exception
    monad over one record holding the three objects and the outside world
    (system date, the file [tasks.json]).

    What comes from Python's standard library and not from the repository is
    modelled separately and marked as such: [datetime.date], the [calendar]
    module, [str.strip], and the [json] codec (the latter two functions are
    section variables constrained by their round-trip contract only). *)

From Stdlib Require Import ZArith Ascii String Floats.PrimFloat.
From stdpp Require Import base tactics option list gmap fin_maps strings pretty.

#[global] Set Warnings "-register-all".
#[global] Open Scope Z_scope.

(** ** Exceptions and fallible pure code *)

Inductive exn :=
  | ValueError | TypeError | AttributeError | IndexError
  | IllegalMonthError | OSError | JSONDecodeError | OverflowError.

Inductive res (A : Type) :=
  | Ok (a : A)
  | Raise (e : exn).
Arguments Ok {A} a.
Arguments Raise {A} e.

#[global] Instance res_ret : MRet res := λ A a, Ok a.
#[global] Instance res_bind : MBind res := λ A B f r,
  match r with Ok a => f a | Raise e => Raise e end.
#[global] Instance res_fmap : FMap res := λ A B f r,
  match r with Ok a => Ok (f a) | Raise e => Raise e end.

Definition is_ok {A} (r : res A) : bool :=
  match r with Ok _ => true | Raise _ => false end.

(** [[f(x) for x in l]] where [f] may raise: left to right, first exception wins. *)
Fixpoint list_comp {A B} (f : A → res B) (l : list A) : res (list B) :=
  match l with
  | [] => Ok []
  | x :: l' => y ← f x; ys ← list_comp f l'; Ok (y :: ys)
  end.

(** [for x in l: acc = body(acc, x)] where the body may raise. *)
Fixpoint for_acc {A S} (body : S → A → res S) (l : list A) (acc : S) : res S :=
  match l with
  | [] => Ok acc
  | x :: l' => acc' ← body acc x; for_acc body l' acc'
  end.

(** [enumerate(l, start)] and [enumerate(l)] *)
Fixpoint enumerate_from {A} (start : nat) (l : list A) : list (nat * A) :=
  match l with
  | [] => []
  | x :: l' => (start, x) :: enumerate_from (S start) l'
  end.
Definition enumerate {A} (l : list A) : list (nat * A) := enumerate_from 0 l.

(** ** Python's [datetime.date] (standard library model) *)

Module PyDate.

Record date := Date { d_year : Z; d_month : Z; d_day : Z }.

#[global] Instance date_eq_dec : EqDecision date.
Proof. solve_decision. Defined.

Definition MINYEAR : Z := 1.
Definition MAXYEAR : Z := 9999.

Definition is_leap (y : Z) : bool :=
  (y mod 4 =? 0) && (negb (y mod 100 =? 0) || (y mod 400 =? 0)).

(** [_DAYS_IN_MONTH], indexed by month 1..12. *)
Definition days_in_month_table : list Z :=
  [31; 28; 31; 30; 31; 30; 31; 31; 30; 31; 30; 31].

Definition days_in_month (y m : Z) : Z :=
  if (m =? 2) && is_leap y then 29
  else default 0 (days_in_month_table !! Z.to_nat (m - 1)).

(** [_DAYS_BEFORE_MONTH], indexed by month 1..12. *)
Definition days_before_month_table : list Z :=
  [0; 31; 59; 90; 120; 151; 181; 212; 243; 273; 304; 334].

Definition days_before_month (y m : Z) : Z :=
  default 0 (days_before_month_table !! Z.to_nat (m - 1))
  + (if (2 <? m) && is_leap y then 1 else 0).

Definition days_before_year (year : Z) : Z :=
  let y := year - 1 in y * 365 + y / 4 - y / 100 + y / 400.

Definition ymd2ord (y m d : Z) : Z :=
  days_before_year y + days_before_month y m + d.

(** [_check_date_fields] *)
Definition check_date_fields (y m d : Z) : bool :=
  (MINYEAR <=? y) && (y <=? MAXYEAR) && (1 <=? m) && (m <=? 12)
  && (1 <=? d) && (d <=? days_in_month y m).

(** An argument the C constructor can read as a C [int]. *)
Definition fits_c_int (z : Z) : bool := (-2147483648 <=? z) && (z <=? 2147483647).

(** The constructor [dt.date(y, m, d)]: [OverflowError] for an argument
    that is not a C [int], [ValueError] outside the calendar. *)
Definition mk_date (y m d : Z) : res date :=
  if negb (fits_c_int y && fits_c_int m && fits_c_int d) then Raise OverflowError
  else if check_date_fields y m d then Ok (Date y m d) else Raise ValueError.

Definition valid_date (d : date) : Prop :=
  check_date_fields (d_year d) (d_month d) (d_day d) = true.

Definition toordinal (d : date) : Z := ymd2ord (d_year d) (d_month d) (d_day d).

(** Monday is 0. *)
Definition weekday (d : date) : Z := (toordinal d + 6) mod 7.

(** [str.zfill] on the decimal representation, as ["%04d"] and ["%02d"] do
    for non-negative numbers. *)
Definition zero_pad (width : nat) (z : Z) : string :=
  let s := pretty z in
  String.concat "" (replicate (width - String.length s)%nat "0"%string) +:+ s.

(** [date.isoformat()]: [YYYY-MM-DD]. *)
Definition isoformat (d : date) : string :=
  zero_pad 4 (d_year d) +:+ "-" +:+ zero_pad 2 (d_month d) +:+ "-" +:+ zero_pad 2 (d_day d).

End PyDate.
Export PyDate.

(** ** Python's [calendar] module (standard library model), with
    [setfirstweekday(MONDAY)] in force as [reload_month] sets it. *)

Module PyCalendar.

Definition MONDAY : Z := 0.
Definition FEBRUARY : Z := 2.

Definition day_abbr : list string :=
  ["Mon"; "Tue"; "Wed"; "Thu"; "Fri"; "Sat"; "Sun"]%string.

Definition month_name (m : Z) : string :=
  default ""%string
    (["January"; "February"; "March"; "April"; "May"; "June"; "July";
      "August"; "September"; "October"; "November"; "December"]%string
     !! Z.to_nat (m - 1)).

Definition mdays : list Z := [31; 28; 31; 30; 31; 30; 31; 31; 30; 31; 30; 31].

(** [calendar.weekday]: years outside [MINYEAR..MAXYEAR] are folded into the
    400-year cycle before the date is built. *)
Definition weekday (year month day : Z) : res Z :=
  let year := if (MINYEAR <=? year) && (year <=? MAXYEAR) then year
              else 2000 + year mod 400 in
  d ← mk_date year month day; Ok (PyDate.weekday d).

Definition monthrange (year month : Z) : res (Z * Z) :=
  if negb ((1 <=? month) && (month <=? 12)) then Raise IllegalMonthError
  else
    day1 ← weekday year month 1;
    let ndays := default 0 (mdays !! Z.to_nat (month - 1))
                 + (if (month =? FEBRUARY) && is_leap year then 1 else 0) in
    Ok (day1, ndays).

(** [Calendar.itermonthdays]: zeros before day 1 and after the last day so
    that the length is a multiple of 7. *)
Definition itermonthdays (firstweekday year month : Z) : res (list Z) :=
  '(day1, ndays) ← monthrange year month;
  let days_before := (day1 - firstweekday) mod 7 in
  let days_after := (firstweekday - day1 - ndays) mod 7 in
  Ok (replicate (Z.to_nat days_before) 0
      ++ seqZ 1 ndays
      ++ replicate (Z.to_nat days_after) 0).

(** [[days[i:i+7] for i in range(0, len(days), 7)]] *)
Definition weeks_of (days : list Z) : list (list Z) :=
  (λ k, take 7 (drop (7 * k) days)) <$> seq 0 ((length days + 6) / 7)%nat.

Definition monthcalendar (year month : Z) : res (list (list Z)) :=
  days ← itermonthdays MONDAY year month; Ok (weeks_of days).

End PyCalendar.

(** ** Python's [str.strip] (standard library model)

    Strings are sequences of characters with code points below 256; the
    white-space characters are those for which [str.isspace] holds there. *)

Module PyStr.

Definition isspace (a : ascii) : bool :=
  let n := N_of_ascii a in
  ((9 <=? n) && (n <=? 13) || (28 <=? n) && (n <=? 32) || (n =? 133) || (n =? 160))%N.

Fixpoint lstrip (s : string) : string :=
  match s with
  | EmptyString => EmptyString
  | String a s' => if isspace a then lstrip s' else s
  end.

Definition rstrip (s : string) : string :=
  String.rev (lstrip (String.rev s)).

Definition strip (s : string) : string := rstrip (lstrip s).

(** Truth value of a string: non-empty. *)
Definition nonempty (s : string) : bool :=
  match s with EmptyString => false | _ => true end.

End PyStr.

(** ** Values produced by [json.loads] (standard library model)

    A JSON object becomes a [dict] with string keys; equality of dicts does
    not depend on the order of the keys, so it is a finite map here. *)

Inductive json :=
  | JNull
  | JBool (b : bool)
  | JInt (z : Z)
  | JFloat (f : float)
  | JStr (s : string)
  | JArr (l : list json)
  | JObj (o : gmap string json).

Module PyValue.

(** [bool(x)] *)
Definition truthy (x : json) : bool :=
  match x with
  | JNull => false
  | JBool b => b
  | JInt z => negb (z =? 0)
  | JFloat f => negb (PrimFloat.eqb f 0%float)
  | JStr s => PyStr.nonempty s
  | JArr l => negb (length l =? 0)%nat
  | JObj o => negb (size o =? 0)%nat
  end.

(** [x.items()]: only a dict has the method. *)
Definition items (x : json) : res (list (string * json)) :=
  match x with
  | JObj o => Ok (map_to_list o)
  | _ => Raise AttributeError
  end.

(** [x.get(key, dflt)]: only a dict has the method. *)
Definition get (x : json) (key : string) (dflt : json) : res json :=
  match x with
  | JObj o => Ok (default dflt (o !! key))
  | _ => Raise AttributeError
  end.

(** [iter(x)]: the elements of a list, the characters of a string, the
    keys of a dict; anything else is not iterable. *)
Definition iter (x : json) : res (list json) :=
  match x with
  | JArr l => Ok l
  | JStr s => Ok ((λ a, JStr (String a EmptyString)) <$> list_ascii_of_string s)
  | JObj o => Ok (JStr <$> (map_to_list o).*1)
  | _ => Raise TypeError
  end.

End PyValue.

(** ** The data model of [src/app.py] *)

(** [@dataclass class Task]. The [text] field holds whatever object was put
    there: a [str] for tasks typed in, any JSON value for tasks read back
    from a hand-edited file. *)
Record Task := mkTask { text : json; done : bool }.

Inductive Message :=
  | DateSelected (date : PyDate.date)
  | MonthChanged (year month : Z).

(** The widgets that can hold the input focus. *)
Inductive Widget := CalendarW | TodoListW | TodoInputW.

(** [CalendarTable]: the reactive [year] and [month], the [_cell_to_date]
    dict (insertion ordered, hence an association list), and what the object
    keeps of its [DataTable] base: columns, rows, the cursor coordinate,
    the title. *)
Record CalendarTable := mkCalendarTable {
  year : Z;
  month : Z;
  _cell_to_date : list ((nat * nat) * option date);
  columns : list string;
  rows : list (list string);
  cursor : nat * nat;
  title : string
}.

(** [TodoPanel] with its [ListView] (one line per task: marker and the text
    object formatted after it; the index the panel assigned last) and its
    [Input]. *)
Record TodoPanel := mkTodoPanel {
  current_date : date;
  _highlight_index : Z;
  lv_items : list (string * json);
  lv_index : option Z;
  input_value : string
}.

(** Insertion-ordered dicts as association lists. *)
Module PyDict.
Section dict.
Context {K V : Type} `{EqDecision K}.

Fixpoint get (k : K) (d : list (K * V)) : option V :=
  match d with
  | [] => None
  | (k', v) :: d' => if decide (k = k') then Some v else get k d'
  end.

(** [d[k] = v]: overwrite in place, or append a new key. *)
Fixpoint set (k : K) (v : V) (d : list (K * V)) : list (K * V) :=
  match d with
  | [] => [(k, v)]
  | (k', v') :: d' => if decide (k = k') then (k, v) :: d' else (k', v') :: set k v d'
  end.
End dict.
End PyDict.

Definition with_year (v : Z) (c : CalendarTable) : CalendarTable :=
  mkCalendarTable v (month c) (_cell_to_date c) (columns c) (rows c) (cursor c) (title c).
Definition with_month (v : Z) (c : CalendarTable) : CalendarTable :=
  mkCalendarTable (year c) v (_cell_to_date c) (columns c) (rows c) (cursor c) (title c).
Definition with_cells (v : list ((nat * nat) * option date)) (c : CalendarTable) : CalendarTable :=
  mkCalendarTable (year c) (month c) v (columns c) (rows c) (cursor c) (title c).
Definition with_columns (v : list string) (c : CalendarTable) : CalendarTable :=
  mkCalendarTable (year c) (month c) (_cell_to_date c) v (rows c) (cursor c) (title c).
Definition with_rows (v : list (list string)) (c : CalendarTable) : CalendarTable :=
  mkCalendarTable (year c) (month c) (_cell_to_date c) (columns c) v (cursor c) (title c).
Definition with_cursor (v : nat * nat) (c : CalendarTable) : CalendarTable :=
  mkCalendarTable (year c) (month c) (_cell_to_date c) (columns c) (rows c) v (title c).
Definition with_title (v : string) (c : CalendarTable) : CalendarTable :=
  mkCalendarTable (year c) (month c) (_cell_to_date c) (columns c) (rows c) (cursor c) v.

Definition with_current_date (v : date) (p : TodoPanel) : TodoPanel :=
  mkTodoPanel v (_highlight_index p) (lv_items p) (lv_index p) (input_value p).
Definition with_highlight_index (v : Z) (p : TodoPanel) : TodoPanel :=
  mkTodoPanel (current_date p) v (lv_items p) (lv_index p) (input_value p).
Definition with_lv_items (v : list (string * json)) (p : TodoPanel) : TodoPanel :=
  mkTodoPanel (current_date p) (_highlight_index p) v (lv_index p) (input_value p).
Definition with_lv_index (v : option Z) (p : TodoPanel) : TodoPanel :=
  mkTodoPanel (current_date p) (_highlight_index p) (lv_items p) v (input_value p).
Definition with_input_value (v : string) (p : TodoPanel) : TodoPanel :=
  mkTodoPanel (current_date p) (_highlight_index p) (lv_items p) (lv_index p) v.

(** [max(0, min(i, n - 1))], the clamp every index use goes through. *)
Definition clamp_index (i : Z) (n : nat) : Z := Z.max 0 (Z.min i (Z.of_nat n - 1)).

(** [{"text": t.text, "done": t.done}] *)
Definition task_to_json (t : Task) : json :=
  JObj (<["text"%string := text t]> (<["done"%string := JBool (done t)]> ∅)).

(** [Task(text=i.get("text", ""), done=bool(i.get("done", False)))] *)
Definition task_of_json (i : json) : res Task :=
  t ← PyValue.get i "text" (JStr "");
  d ← PyValue.get i "done" (JBool false);
  Ok (mkTask t (PyValue.truthy d)).

(** [[Task(...) for i in items]] *)
Definition bucket_of_json (items : json) : res (list Task) :=
  elems ← PyValue.iter items;
  list_comp task_of_json elems.

(** The body of the loading loop: [loaded[k] = [Task(...) for i in items]]. *)
Definition load_bucket (loaded : gmap string (list Task)) (entry : string * json)
  : res (gmap string (list Task)) :=
  bucket ← bucket_of_json entry.2;
  Ok (<[entry.1 := bucket]> loaded).

(** From [data = json.loads(...)] to the mapping [loaded]. *)
Definition tasks_of_document (data : json) : res (gmap string (list Task)) :=
  entries ← PyValue.items data;
  for_acc load_bucket entries ∅.

(** Truth value of a list: non-empty. *)
Definition nonempty {A} (l : list A) : bool :=
  match l with [] => false | _ => true end.

(** The dict comprehension of [save_all_tasks]: buckets with no task are
    left out. *)
Definition serializable (m : gmap string (list Task)) : json :=
  JObj ((λ v, JArr (task_to_json <$> v)) <$> filter (λ kv, nonempty kv.2 = true) m).

(** A codec instance for running the model on concrete inputs: the parsed
    document stands for its own text. *)
Definition document_dumps (j : json) : json := j.
Definition document_loads (t : json) : res json := Ok t.

Section CalTodo.

(** The contents of a text file, and Python's [json.dumps] / [json.loads]
    on it ([loads] raises on text that is not JSON). *)
Variable file_text : Type.
Variable json_dumps : json → file_text.
Variable json_loads : file_text → res json.

(** The world outside the process: the system date [dt.date.today()], the
    file [tasks.json] ([None] when it does not exist), and the I/O faults
    in force: [read_text] raising, [write_text] raising and leaving the
    file in some state. *)
Record World := mkWorld {
  system_date : date;
  persist_file : option file_text;
  read_fault : bool;
  write_fault : option (option file_text)
}.

(** [CalTodoApp] with its two widgets, the [#calendar-title] label, the
    focus, the messages posted and not yet handled, and the world. *)
Record State := mkState {
  _tasks_by_date : gmap string (list Task);
  _last_date : date;
  calendar : CalendarTable;
  todo : TodoPanel;
  calendar_title : string;
  focused : Widget;
  posted : list Message;
  world : World
}.

Definition with_tasks (v : gmap string (list Task)) (s : State) : State :=
  mkState v (_last_date s) (calendar s) (todo s) (calendar_title s) (focused s) (posted s) (world s).
Definition with_last_date (v : date) (s : State) : State :=
  mkState (_tasks_by_date s) v (calendar s) (todo s) (calendar_title s) (focused s) (posted s) (world s).
Definition upd_calendar (f : CalendarTable → CalendarTable) (s : State) : State :=
  mkState (_tasks_by_date s) (_last_date s) (f (calendar s)) (todo s) (calendar_title s) (focused s) (posted s) (world s).
Definition upd_todo (f : TodoPanel → TodoPanel) (s : State) : State :=
  mkState (_tasks_by_date s) (_last_date s) (calendar s) (f (todo s)) (calendar_title s) (focused s) (posted s) (world s).
Definition with_calendar_title (v : string) (s : State) : State :=
  mkState (_tasks_by_date s) (_last_date s) (calendar s) (todo s) v (focused s) (posted s) (world s).
Definition with_focused (v : Widget) (s : State) : State :=
  mkState (_tasks_by_date s) (_last_date s) (calendar s) (todo s) (calendar_title s) v (posted s) (world s).
Definition with_posted (v : list Message) (s : State) : State :=
  mkState (_tasks_by_date s) (_last_date s) (calendar s) (todo s) (calendar_title s) (focused s) v (world s).
Definition with_world (v : World) (s : State) : State :=
  mkState (_tasks_by_date s) (_last_date s) (calendar s) (todo s) (calendar_title s) (focused s) (posted s) v.
Definition with_persist_file (v : option file_text) (w : World) : World :=
  mkWorld (system_date w) v (read_fault w) (write_fault w).

(** *** The monad: state passing, with exceptions that keep the state
    reached when they were raised. *)

Definition M (A : Type) : Type := State → res A * State.

#[global] Instance M_ret : MRet M := λ A a s, (Ok a, s).
#[global] Instance M_bind : MBind M := λ A B f m s,
  match m s with
  | (Ok a, s') => f a s'
  | (Raise e, s') => (Raise e, s')
  end.

Definition gets {A} (f : State → A) : M A := λ s, (Ok (f s), s).
Definition modify (f : State → State) : M unit := λ s, (Ok tt, f s).
Definition lift {A} (r : res A) : M A := λ s, (r, s).
Definition raise {A} (e : exn) : M A := λ s, (Raise e, s).
Definition pass : M unit := mret tt.

(** [try: body / except Exception: handler] *)
Definition try_except (body handler : M unit) : M unit := λ s,
  match body s with
  | (Ok a, s') => (Ok a, s')
  | (Raise _, s') => handler s'
  end.

(** [for x in l: body(x)] *)
Fixpoint for_each {A} (l : list A) (body : A → M unit) : M unit :=
  match l with
  | [] => mret tt
  | x :: l' => body x;; for_each l' body
  end.

(** A loop that also builds a local variable. *)
Fixpoint for_fold {A B} (l : list A) (acc : B) (body : B → A → M B) : M B :=
  match l with
  | [] => mret acc
  | x :: l' => acc' ← body acc x; for_fold l' acc' body
  end.

Definition run {A} (m : M A) (s : State) : res A * State := m s.
Definition exec {A} (m : M A) (s : State) : State := (m s).2.
Definition outcome {A} (m : M A) (s : State) : res A := (m s).1.

(** *** Toolkit calls the methods make *)

Definition post_message (msg : Message) : M unit :=
  modify (λ s, with_posted (posted s ++ [msg]) s).
Definition focus (w : Widget) : M unit := modify (with_focused w).
Definition move_cursor (r c : nat) : M unit := modify (upd_calendar (with_cursor (r, c))).
Definition add_column (name : string) : M unit :=
  modify (upd_calendar (λ c, with_columns (columns c ++ [name]) c)).
Definition add_row (cells : list string) : M unit :=
  modify (upd_calendar (λ c, with_rows (rows c ++ [cells]) c)).
(** [DataTable.clear(columns=True)]: the rows and the columns go and the
    cursor is back at the origin. *)
Definition clear_table : M unit :=
  modify (upd_calendar (λ c, with_cursor (0%nat, 0%nat) (with_rows [] (with_columns [] c)))).

(** [calendar.month_name[m]] inside an f-string; the sequence has thirteen
    entries, the first one empty. *)
Definition month_name_at (m : Z) : M string :=
  if (1 <=? m) && (m <=? 12) then mret (PyCalendar.month_name m)
  else if (m =? 0) || (m =? -13) then mret ""%string
  else if (-12 <=? m) && (m <=? -1) then mret (PyCalendar.month_name (13 + m))
  else raise IndexError.

(** *** [CalendarTable] *)

(** [self._cell_to_date[(r, c)] = v] *)
Definition set_cell (rc : nat * nat) (v : option date) : M unit :=
  modify (upd_calendar (λ c, with_cells (PyDict.set rc v (_cell_to_date c)) c)).

Definition _move_cursor_to_day (day : Z) : M unit :=
  cells ← gets (λ s, _cell_to_date (calendar s));
  match find (λ kv, match kv.2 with Some d => bool_decide (d_day d = day) | None => false end)
             cells with
  | Some ((r, c), _) => move_cursor r c
  | None => pass
  end.

(** The body of the inner loop of [reload_month], for the cell in row [r]:
    [row_cells] is the local list the loop appends to. *)
Definition cell_body (y m : Z) (r : nat) (row_cells : list string) (cd : nat * Z)
  : M (list string) :=
  let '(c, day) := cd in
  if day =? 0 then
    set_cell (r, c) None;;
    mret (row_cells ++ [""%string])
  else
    d ← lift (mk_date y m day);
    set_cell (r, c) (Some d);;
    mret (row_cells ++ [pretty day]).

(** The body of the outer loop. *)
Definition week_body (y m : Z) (rw : nat * list Z) : M unit :=
  let '(r, week) := rw in
  row_cells ← for_fold (enumerate week) [] (cell_body y m r);
  add_row row_cells.

(** The cursor placement that ends [reload_month]: on today's cell when
    today is in the month shown, else on the first cell that has a date. *)
Definition place_cursor (y m : Z) : M unit :=
  today ← gets (λ s, system_date (world s));
  if (d_year today =? y) && (d_month today =? m) then
    _move_cursor_to_day (d_day today)
  else
    cells ← gets (λ s, _cell_to_date (calendar s));
    match find (λ kv, bool_decide (is_Some kv.2)) cells with
    | Some ((r, c), _) => move_cursor r c
    | None => pass
    end.

Definition reload_month : M unit :=
  clear_table;;
  let firstweekday := PyCalendar.MONDAY in
  let headers :=
    (λ i, default ""%string (PyCalendar.day_abbr !! Z.to_nat ((firstweekday + i) mod 7)))
      <$> seqZ 0 7 in
  for_each headers add_column;;
  y ← gets (λ s, year (calendar s));
  m ← gets (λ s, month (calendar s));
  month_matrix ← lift (PyCalendar.monthcalendar y m);
  modify (upd_calendar (with_cells []));;
  for_each (enumerate month_matrix) (week_body y m);;
  place_cursor y m;;
  name ← month_name_at m;
  modify (upd_calendar (with_title (name +:+ " " +:+ pretty y)));;
  post_message (MonthChanged y m).

Definition action_prev_month : M unit :=
  m ← gets (λ s, month (calendar s));
  (if m =? 1 then
     modify (upd_calendar (with_month 12));;
     modify (upd_calendar (λ c, with_year (year c - 1) c))
   else
     modify (upd_calendar (λ c, with_month (month c - 1) c)));;
  reload_month.

Definition action_next_month : M unit :=
  m ← gets (λ s, month (calendar s));
  (if m =? 12 then
     modify (upd_calendar (with_month 1));;
     modify (upd_calendar (λ c, with_year (year c + 1) c))
   else
     modify (upd_calendar (λ c, with_month (month c + 1) c)));;
  reload_month.

Definition calendar_action_today : M unit :=
  today ← gets (λ s, system_date (world s));
  modify (upd_calendar (λ c, with_month (d_month today) (with_year (d_year today) c)));;
  reload_month;;
  post_message (DateSelected today).

(** [on_data_table_cell_selected] once the event's coordinate is read. *)
Definition on_data_table_cell_selected (row col : nat) : M unit :=
  cells ← gets (λ s, _cell_to_date (calendar s));
  match PyDict.get (row, col) cells with
  | Some (Some date) => post_message (DateSelected date)
  | _ => pass
  end.

Definition calendar_on_mount : M unit :=
  reload_month;; focus CalendarW.

(** *** The task storage of [CalTodoApp] *)

Definition _key_for_date (d : date) : string := isoformat d.

(** [self._tasks_by_date.setdefault(key, [])]. The list returned is the
    bucket object itself: what a caller does to it in place is done to the
    mapping, which [set_bucket] writes out. *)
Definition get_tasks_for_date (d : date) : M (list Task) :=
  m ← gets _tasks_by_date;
  match m !! _key_for_date d with
  | Some bucket => mret bucket
  | None => modify (with_tasks (<[_key_for_date d := []]> m));; mret []
  end.

Definition set_bucket (d : date) (bucket : list Task) : M unit :=
  modify (λ s, with_tasks (<[_key_for_date d := bucket]> (_tasks_by_date s)) s).

(** [Path.exists], [Path.read_text], [Path.write_text] on [tasks.json]. *)
Definition path_exists : M bool :=
  gets (λ s, bool_decide (is_Some (persist_file (world s)))).

Definition read_text : M file_text := λ s,
  if read_fault (world s) then (Raise OSError, s)
  else match persist_file (world s) with
       | Some t => (Ok t, s)
       | None => (Raise OSError, s)
       end.

Definition write_text (t : file_text) : M unit := λ s,
  match write_fault (world s) with
  | None => (Ok tt, with_world (with_persist_file (Some t) (world s)) s)
  | Some remains => (Raise OSError, with_world (with_persist_file remains (world s)) s)
  end.

Definition save_all_tasks : M unit :=
  try_except
    (m ← gets _tasks_by_date;
     write_text (json_dumps (serializable m)))
    pass.

Definition _load_all_tasks : M unit :=
  try_except
    (there ← path_exists;
     if there : bool then
       t ← read_text;
       data ← lift (json_loads t);
       loaded ← lift (tasks_of_document data);
       modify (with_tasks loaded)
     else pass)
    (* [self._tasks_by_date = self._tasks_by_date or {}] *)
    (modify (λ s, with_tasks (if (size (_tasks_by_date s) =? 0)%nat then ∅
                              else _tasks_by_date s) s)).

Definition add_task_for_date (d : date) (txt : string) : M unit :=
  bucket ← get_tasks_for_date d;
  set_bucket d (bucket ++ [mkTask (JStr txt) false]);;
  save_all_tasks.

(** *** [TodoPanel] (the date label, which is display only, is left out) *)

Definition app_get_tasks : M (list Task) :=
  d ← gets (λ s, current_date (todo s)); get_tasks_for_date d.

Definition app_add_task (txt : string) : M unit :=
  d ← gets (λ s, current_date (todo s)); add_task_for_date d txt.

(** [tasks[idx]] *)
Definition list_getitem {A} (l : list A) (idx : Z) : res A :=
  let i := if 0 <=? idx then idx else Z.of_nat (length l) + idx in
  if i <? 0 then Raise IndexError
  else match l !! Z.to_nat i with Some x => Ok x | None => Raise IndexError end.

(** [tasks.pop(idx)], for its effect on the list. *)
Definition list_pop {A} (l : list A) (idx : Z) : res (list A) :=
  let i := if 0 <=? idx then idx else Z.of_nat (length l) + idx in
  if (i <? 0) || (Z.of_nat (length l) <=? i) then Raise IndexError
  else Ok (delete (Z.to_nat i) l).

Definition render_task (t : Task) : string * json :=
  ((if done t then "✓ " else "• ")%string, text t).

Definition refresh_list (preserve_highlight : bool) : M unit :=
  modify (upd_todo (with_lv_items []));;
  tasks ← app_get_tasks;
  for_each tasks (λ t,
    modify (upd_todo (λ p, with_lv_items (lv_items p ++ [render_task t]) p)));;
  if preserve_highlight && nonempty tasks then
    try_except
      (h ← gets (λ s, _highlight_index (todo s));
       modify (upd_todo (with_lv_index (Some (clamp_index h (length tasks))))))
      pass
  else pass.

Definition set_date (d : date) : M unit :=
  modify (upd_todo (with_current_date d));;
  refresh_list false.

Definition on_input_submitted (value : string) : M unit :=
  let txt := PyStr.strip value in
  if PyStr.nonempty txt then
    app_add_task txt;;
    modify (upd_todo (with_input_value ""));;
    refresh_list false;;
    focus TodoInputW
  else
    try_except (focus TodoListW) pass.

(** [idx] is the index the event or its list view reports, when it is an
    [int]. *)
Definition on_list_view_highlighted (idx : option Z) : M unit :=
  match idx with
  | Some i => modify (upd_todo (with_highlight_index i))
  | None => pass
  end.

Definition action_toggle_task : M unit :=
  tasks ← app_get_tasks;
  if negb (nonempty tasks) then mret tt
  else
    h ← gets (λ s, _highlight_index (todo s));
    let idx := clamp_index h (length tasks) in
    t ← lift (list_getitem tasks idx);
    d ← gets (λ s, current_date (todo s));
    set_bucket d (<[Z.to_nat idx := mkTask (text t) (negb (done t))]> tasks);;
    refresh_list true;;
    try_except save_all_tasks pass.

Definition action_delete_task : M unit :=
  tasks ← app_get_tasks;
  if negb (nonempty tasks) then mret tt
  else
    h ← gets (λ s, _highlight_index (todo s));
    let idx := clamp_index h (length tasks) in
    tasks' ← lift (list_pop tasks idx);
    d ← gets (λ s, current_date (todo s));
    set_bucket d tasks';;
    modify (upd_todo (with_highlight_index (clamp_index h (length tasks'))));;
    refresh_list true;;
    try_except save_all_tasks pass.

Definition on_list_view_selected : M unit := action_toggle_task.

Definition on_key (key : string) : M unit :=
  w ← gets focused;
  match w with
  | TodoListW =>
      if bool_decide (key = "delete"%string) || bool_decide (key = "backspace"%string)
      then action_delete_task else pass
  | _ => pass
  end.

Definition action_focus_list : M unit := focus TodoListW.

Definition todo_on_mount : M unit :=
  refresh_list false;; focus TodoInputW.

(** *** [CalTodoApp] *)

Definition on_calendar_table_date_selected (d : date) : M unit := set_date d.

Definition on_calendar_table_month_changed (y m : Z) : M unit :=
  name ← month_name_at m;
  modify (with_calendar_title (name +:+ " " +:+ pretty y)).

(** Handling one posted message. *)
Definition dispatch (msg : Message) : M unit :=
  match msg with
  | DateSelected d => on_calendar_table_date_selected d
  | MonthChanged y m => on_calendar_table_month_changed y m
  end.

Definition action_today : M unit :=
  try_except calendar_action_today pass;;
  try_except (today ← gets (λ s, system_date (world s)); set_date today) pass.

Definition action_swap_focus : M unit :=
  try_except (focus TodoInputW) pass.

Definition on_mount : M unit :=
  try_except
    (y ← gets (λ s, year (calendar s));
     m ← gets (λ s, month (calendar s));
     name ← month_name_at m;
     modify (with_calendar_title (name +:+ " " +:+ pretty y)))
    pass.

(** The callback of the 60 second timer. *)
Definition _tick_day_change : M unit :=
  today ← gets (λ s, system_date (world s));
  last ← gets _last_date;
  if bool_decide (today ≠ last) then
    modify (with_last_date today);;
    try_except calendar_action_today pass;;
    try_except (set_date today) pass
  else pass.

(** The objects as their constructors leave them, in a given world. *)
Definition initial_state (w : World) : State :=
  mkState ∅ (system_date w)
    (mkCalendarTable (d_year (system_date w)) (d_month (system_date w)) [] [] [] (0%nat, 0%nat) "")
    (mkTodoPanel (system_date w) 0 [] None "")
    "" CalendarW [] w.

(** [CalTodoApp.__init__] *)
Definition app_init : M unit :=
  modify (with_tasks ∅);;
  _load_all_tasks;;
  today ← gets (λ s, system_date (world s));
  modify (with_last_date today).

(** *** Closed forms of what the methods do, used to state their effect *)

(** The bucket of a date, empty when the date has no key. *)
Definition bucket_of (d : date) (m : gmap string (list Task)) : list Task :=
  default [] (m !! _key_for_date d).

(** The effect of [setdefault(key, [])] on the mapping. *)
Definition touch (d : date) (m : gmap string (list Task)) : gmap string (list Task) :=
  match m !! _key_for_date d with
  | Some _ => m
  | None => <[_key_for_date d := []]> m
  end.

(** The panel after [refresh_list] has rendered [bucket]. *)
Definition refreshed (preserve_highlight : bool) (bucket : list Task) (p : TodoPanel)
  : TodoPanel :=
  mkTodoPanel (current_date p) (_highlight_index p) (render_task <$> bucket)
    (if preserve_highlight && nonempty bucket
     then Some (clamp_index (_highlight_index p) (length bucket))
     else lv_index p)
    (input_value p).

(** The state after [save_all_tasks]. *)
Definition saved (s : State) : State :=
  with_world
    (with_persist_file
       (match write_fault (world s) with
        | None => Some (json_dumps (serializable (_tasks_by_date s)))
        | Some remains => remains
        end)
       (world s))
    s.

(** The state after [_load_all_tasks]: the mapping is replaced when the
    file is there, can be read, parses and has the expected shape. *)
Definition after_load (s : State) : State :=
  match persist_file (world s) with
  | Some t =>
      if read_fault (world s) then s
      else match json_loads t ≫= tasks_of_document with
           | Ok loaded => with_tasks loaded s
           | Raise _ => s
           end
  | None => s
  end.

(** A task with its [done] flag flipped. *)
Definition flip_done (t : Task) : Task := mkTask (text t) (negb (done t)).

(** The bucket after the task under the clamped index had its flag
    flipped, and after it was removed. *)
Definition toggled (h : Z) (bucket : list Task) : list Task :=
  let i := Z.to_nat (clamp_index h (length bucket)) in
  match bucket !! i with
  | Some t => <[i := flip_done t]> bucket
  | None => bucket
  end.

Definition popped (h : Z) (bucket : list Task) : list Task :=
  delete (Z.to_nat (clamp_index h (length bucket))) bucket.

(** What a user can do to the task list of the selected date: add a task
    (through the store, or by submitting the input line), toggle or delete
    the highlighted task, move the highlight. *)
Inductive panel_op :=
  | OpAdd (txt : string)
  | OpSubmit (value : string)
  | OpToggle
  | OpDelete
  | OpHighlight (i : Z).

Definition panel_step (o : panel_op) : M unit :=
  match o with
  | OpAdd txt => app_add_task txt
  | OpSubmit value => on_input_submitted value
  | OpToggle => action_toggle_task
  | OpDelete => action_delete_task
  | OpHighlight i => on_list_view_highlighted (Some i)
  end.

Definition run_ops (ops : list panel_op) (s : State) : State :=
  foldl (λ s o, exec (panel_step o) s) s ops.

(** The bucket of the selected date after one operation, from the
    highlight [h] and the bucket [b] before it. *)
Definition step_bucket (o : panel_op) (h : Z) (b : list Task) : list Task :=
  match o with
  | OpAdd txt => b ++ [mkTask (JStr txt) false]
  | OpSubmit value =>
      if PyStr.nonempty (PyStr.strip value)
      then b ++ [mkTask (JStr (PyStr.strip value)) false] else b
  | OpToggle => toggled h b
  | OpDelete => popped h b
  | OpHighlight _ => b
  end.

(** The texts a run of operations adds, in order. *)
Definition added_texts (ops : list panel_op) : list json :=
  ops ≫= λ o,
    match o with
    | OpAdd txt => [JStr txt]
    | OpSubmit value =>
        if PyStr.nonempty (PyStr.strip value) then [JStr (PyStr.strip value)] else []
    | _ => []
    end.

(** The list view shows the bucket of the selected date: one line per
    task, in order, the marker telling whether the task is done. *)
Definition view_ok (s : State) : Prop :=
  lv_items (todo s)
  = render_task <$> bucket_of (current_date (todo s)) (_tasks_by_date s).

(** Whether an operation of the panel reaches [save_all_tasks]. *)
Definition saves (o : panel_op) (s : State) : bool :=
  match o with
  | OpAdd _ => true
  | OpSubmit value => PyStr.nonempty (PyStr.strip value)
  | OpToggle | OpDelete =>
      nonempty (bucket_of (current_date (todo s)) (_tasks_by_date s))
  | OpHighlight _ => false
  end.

(** A string that has no dash in it, and one that starts with a
    character other than the digit 0. *)
Fixpoint dash_free (s : string) : Prop :=
  match s with
  | EmptyString => True
  | String a s' => a ≠ "-"%char ∧ dash_free s'
  end.

Definition starts_nonzero (s : string) : Prop :=
  match s with
  | EmptyString => False
  | String a _ => a ≠ "0"%char
  end.

(** What the calendar methods leave alone: everything but the widget's
    grid, cursor and title and the list of posted messages. *)
Definition calendar_frame (s s' : State) : Prop :=
  _tasks_by_date s' = _tasks_by_date s ∧ _last_date s' = _last_date s
  ∧ todo s' = todo s ∧ calendar_title s' = calendar_title s
  ∧ focused s' = focused s ∧ world s' = world s
  ∧ year (calendar s') = year (calendar s)
  ∧ month (calendar s') = month (calendar s).

(** A computation whose final state is related to its initial state,
    whether it returns or raises. *)
Definition stable {A} (R : State → State → Prop) (m : M A) : Prop :=
  ∀ s, R s (exec m s).

(** What [reload_month] puts under a grid position that holds the day
    number [day] (0 for padding), and what it shows there. *)
Definition cell_date (y m day : Z) : option date :=
  if day =? 0 then None else Some (Date y m day).

Definition cell_text (day : Z) : string :=
  if day =? 0 then ""%string else pretty day.

(** The dict after the inner loop has run over [week] from column [off]
    on, and after the outer loop has run over [matrix] from row [off] on. *)
Definition week_cells (y m : Z) (r off : nat) (week : list Z)
    (cells : list ((nat * nat) * option date)) : list ((nat * nat) * option date) :=
  foldl (λ d cd, PyDict.set (r, cd.1) (cell_date y m cd.2) d) cells (enumerate_from off week).

Definition grid_cells (y m : Z) (off : nat) (matrix : list (list Z))
    (cells : list ((nat * nat) * option date)) : list ((nat * nat) * option date) :=
  foldl (λ d rw, week_cells y m rw.1 0 rw.2 d) cells (enumerate_from off matrix).

(** The day numbers [itermonthdays] yields for a month that starts on
    weekday [w] and has [n] days. *)
Definition month_days (w n : Z) : list Z :=
  replicate (Z.to_nat w) 0 ++ seqZ 1 n ++ replicate (Z.to_nat ((- w - n) mod 7)) 0.

(** The displayed (year, month), and one navigation step on that pair. *)
Definition year_month (s : State) : Z * Z := (year (calendar s), month (calendar s)).

Definition prev_ym (ym : Z * Z) : Z * Z :=
  if ym.2 =? 1 then (ym.1 - 1, 12) else (ym.1, ym.2 - 1).
Definition next_ym (ym : Z * Z) : Z * Z :=
  if ym.2 =? 12 then (ym.1 + 1, 1) else (ym.1, ym.2 + 1).

(** The keys [j] and [k] of the calendar and a run of key presses. *)
Inductive nav := PrevMonth | NextMonth.

Definition nav_action (k : nav) : M unit :=
  match k with PrevMonth => action_prev_month | NextMonth => action_next_month end.

Definition nav_ym (k : nav) : Z * Z → Z * Z :=
  match k with PrevMonth => prev_ym | NextMonth => next_ym end.

Definition press_all (keys : list nav) (s : State) : State :=
  foldl (λ s k, exec (nav_action k) s) s keys.

(** The entries the inner loop of [reload_month] adds for [week], from
    column [off] on, and the outer loop for [matrix], from row [off] on,
    in the order of insertion. *)
Definition week_entries (y m : Z) (r off : nat) (week : list Z)
    : list ((nat * nat) * option date) :=
  (λ cd : nat * Z, ((r, cd.1), cell_date y m cd.2)) <$> enumerate_from off week.

Definition grid_entries (y m : Z) (off : nat) (matrix : list (list Z))
    : list ((nat * nat) * option date) :=
  enumerate_from off matrix ≫= λ rw, week_entries y m rw.1 0 rw.2.

(** The cell [place_cursor] moves the cursor to, [old] being where it
    stays when no cell qualifies. *)
Definition cursor_target (y m : Z) (today : date)
    (cells : list ((nat * nat) * option date)) (old : nat * nat) : nat * nat :=
  if (d_year today =? y) && (d_month today =? m) then
    match find (λ kv, match kv.2 with
                      | Some d => bool_decide (d_day d = d_day today)
                      | None => false
                      end) cells with
    | Some (rc, _) => rc
    | None => old
    end
  else
    match find (λ kv, bool_decide (is_Some kv.2)) cells with
    | Some (rc, _) => rc
    | None => old
    end.

(** The state [reload_month] leaves when the month shown is one of a year
    the date type has. *)
Definition reloaded (s : State) : State :=
  let y := year (calendar s) in
  let m := month (calendar s) in
  let matrix :=
    PyCalendar.weeks_of (month_days (PyDate.weekday (Date y m 1)) (days_in_month y m)) in
  let cells := grid_cells y m 0 matrix [] in
  with_posted (posted s ++ [MonthChanged y m])
    (upd_calendar
       (λ c, mkCalendarTable y m cells PyCalendar.day_abbr
               (fmap (M:=list) cell_text <$> matrix)
               (cursor_target y m (system_date (world s)) cells (0%nat, 0%nat))
               (PyCalendar.month_name m +:+ " " +:+ pretty y))
       s).

(** ** Properties *)

(** *** Running the monad *)

Lemma res_bind_ok {A B} (a : A) (f : A → res B) : Ok a ≫= f = f a.
Proof. reflexivity. Qed.

Lemma res_bind_raise {A B} e (f : A → res B) : Raise e ≫= f = Raise e.
Proof. reflexivity. Qed.

Lemma run_bind {A B} (m : M A) (f : A → M B) s :
  run (m ≫= f) s =
  match run m s with
  | (Ok a, s') => run (f a) s'
  | (Raise e, s') => (Raise e, s')
  end.
Proof. reflexivity. Qed.

Lemma run_gets_bind {A B} (f : State → A) (k : A → M B) s :
  run (gets f ≫= k) s = run (k (f s)) s.
Proof. reflexivity. Qed.

Lemma run_modify_bind {B} (f : State → State) (k : unit → M B) s :
  run (modify f ≫= k) s = run (k tt) (f s).
Proof. reflexivity. Qed.

Lemma run_ret_bind {A B} (a : A) (k : A → M B) s :
  run (mret a ≫= k) s = run (k a) s.
Proof. reflexivity. Qed.

Lemma run_lift_bind {A B} (a : A) (k : A → M B) s :
  run (lift (Ok a) ≫= k) s = run (k a) s.
Proof. reflexivity. Qed.

Lemma exec_run {A} (m : M A) s : exec m s = (run m s).2.
Proof. reflexivity. Qed.

Lemma outcome_run {A} (m : M A) s : outcome m s = (run m s).1.
Proof. reflexivity. Qed.

Lemma run_pass s : run pass s = (Ok tt, s).
Proof. reflexivity. Qed.

Ltac msteps :=
  repeat first [ rewrite run_gets_bind | rewrite run_modify_bind
               | rewrite run_ret_bind | rewrite run_lift_bind ].

Ltac unfold_state :=
  unfold run, exec, outcome, mret, M_ret, gets, modify, lift, raise, pass,
    with_tasks, with_last_date, upd_calendar, upd_todo, with_calendar_title,
    with_focused, with_posted, with_world, with_persist_file,
    with_year, with_month, with_cells, with_columns, with_rows, with_cursor,
    with_title, with_current_date, with_highlight_index, with_lv_items,
    with_lv_index, with_input_value in *;
  cbn in *.

Ltac st :=
  unfold refreshed, saved in *;
  unfold with_tasks, with_last_date, upd_calendar, upd_todo, with_calendar_title,
    with_focused, with_posted, with_world, with_persist_file,
    with_year, with_month, with_cells, with_columns, with_rows, with_cursor,
    with_title, with_current_date, with_highlight_index, with_lv_items,
    with_lv_index, with_input_value in *;
  cbn [_tasks_by_date _last_date calendar todo calendar_title focused posted world
       system_date persist_file read_fault write_fault
       year month _cell_to_date columns rows cursor title
       current_date _highlight_index lv_items lv_index input_value fst snd] in *.

Lemma state_eta s :
  mkState (_tasks_by_date s) (_last_date s) (calendar s) (todo s)
          (calendar_title s) (focused s) (posted s) (world s) = s.
Proof. by destruct s. Qed.

Section stable.
Context (R : State → State → Prop) `{!PreOrder R}.

Lemma stable_ret {A} (a : A) : stable R (mret a).
Proof. intros s. unfold exec. cbn. reflexivity. Qed.

Lemma stable_gets {A} (f : State → A) : stable R (gets f).
Proof. intros s. unfold exec. cbn. reflexivity. Qed.

Lemma stable_lift {A} (r : res A) : stable R (lift r).
Proof. intros s. unfold exec. cbn. reflexivity. Qed.

Lemma stable_raise {A} e : stable R (raise (A:=A) e).
Proof. intros s. unfold exec. cbn. reflexivity. Qed.

Lemma stable_modify f : (∀ s, R s (f s)) → stable R (modify f).
Proof. intros H s. apply H. Qed.

Lemma stable_bind {A B} (m : M A) (f : A → M B) :
  stable R m → (∀ a, stable R (f a)) → stable R (m ≫= f).
Proof.
  intros Hm Hf s. specialize (Hm s). unfold exec, mbind, M_bind in *.
  destruct (m s) as [[a|e] s1]; cbn in *; [|done].
  etrans; [exact Hm|apply Hf].
Qed.

Lemma stable_try_except (body handler : M unit) :
  stable R body → stable R handler → stable R (try_except body handler).
Proof.
  intros Hb Hh s. specialize (Hb s). unfold exec, try_except in *.
  destruct (body s) as [[a|e] s1]; cbn in *; [done|].
  etrans; [exact Hb|apply Hh].
Qed.

Lemma stable_for_each {A} (l : list A) (body : A → M unit) :
  (∀ x, stable R (body x)) → stable R (for_each l body).
Proof.
  intros Hb. induction l as [|x l IH]; cbn.
  - apply stable_ret.
  - apply stable_bind; [apply Hb|done].
Qed.

Lemma stable_for_fold {A B} (l : list A) (acc : B) (body : B → A → M B) :
  (∀ b x, stable R (body b x)) → stable R (for_fold l acc body).
Proof.
  intros Hb. revert acc. induction l as [|x l IH]; intros acc; cbn.
  - apply stable_ret.
  - apply stable_bind; [apply Hb|done].
Qed.
End stable.

#[local] Instance calendar_frame_preorder : PreOrder calendar_frame.
Proof.
  split.
  - intros s. by repeat split.
  - intros s1 s2 s3 H12 H23. unfold calendar_frame in *.
    destruct_and!. repeat split; congruence.
Qed.

Ltac stable_step :=
  first
    [ apply stable_bind; [apply _| |intros ?]
    | apply stable_try_except; [apply _| |]
    | apply stable_for_each; [apply _|intros ?]
    | apply stable_for_fold; [apply _|intros ? ?]
    | apply stable_ret; apply _
    | apply stable_gets; apply _
    | apply stable_lift; apply _
    | apply stable_raise; apply _
    | apply stable_modify; intros ?; by repeat split ].

Lemma reload_month_frame : stable calendar_frame reload_month.
Proof.
  unfold reload_month, week_body, cell_body, clear_table, add_column, add_row,
    set_cell, place_cursor, _move_cursor_to_day, move_cursor, month_name_at,
    post_message, pass.
  repeat first [ stable_step | case_match ].
Qed.

(** *** The month grid *)

Lemma dict_get_set {K V} `{EqDecision K} (k k' : K) (v : V) d :
  PyDict.get k (PyDict.set k' v d) = if decide (k = k') then Some v else PyDict.get k d.
Proof.
  induction d as [|[k1 v1] d IH]; cbn.
  - by repeat case_decide.
  - repeat (case_decide; cbn); congruence.
Qed.

Lemma week_cells_cons y m r off day week cells :
  week_cells y m r off (day :: week) cells
  = week_cells y m r (S off) week (PyDict.set (r, off) (cell_date y m day) cells).
Proof. reflexivity. Qed.

Lemma grid_cells_cons y m off week matrix cells :
  grid_cells y m off (week :: matrix) cells
  = grid_cells y m (S off) matrix (week_cells y m off 0 week cells).
Proof. reflexivity. Qed.

Lemma week_cells_lookup y m r off week cells r' c' :
  PyDict.get (r', c') (week_cells y m r off week cells)
  = match (if decide (r' = r ∧ (off ≤ c')%nat) then week !! (c' - off)%nat else None) with
    | Some day => Some (cell_date y m day)
    | None => PyDict.get (r', c') cells
    end.
Proof.
  revert off cells. induction week as [|day week IH]; intros off cells.
  - by case_decide.
  - rewrite week_cells_cons, IH, dict_get_set.
    destruct (decide (r' = r ∧ (S off ≤ c')%nat)) as [[? Hc]|Hn];
      destruct (decide (r' = r ∧ (off ≤ c')%nat)) as [[? Hc2]|Hn2];
      destruct (decide ((r', c') = (r, off))) as [Heq|Hne];
      simplify_eq; try lia.
    + replace (c' - off)%nat with (S (c' - S off)) by lia. done.
    + by rewrite Nat.sub_diag.
    + assert (c' = off) by lia. by subst.
    + done.
Qed.

Lemma grid_cells_lookup y m off matrix cells r' c' :
  PyDict.get (r', c') (grid_cells y m off matrix cells)
  = match (if decide (off ≤ r')%nat then matrix !! (r' - off)%nat else None) ≫= (.!! c') with
    | Some day => Some (cell_date y m day)
    | None => PyDict.get (r', c') cells
    end.
Proof.
  revert off cells. induction matrix as [|week matrix IH]; intros off cells.
  - by case_decide.
  - rewrite grid_cells_cons, IH, week_cells_lookup.
    destruct (decide (S off ≤ r')%nat) as [Hr|Hr];
      destruct (decide (off ≤ r')%nat) as [Hr'|Hr'];
      destruct (decide (r' = off ∧ (0 ≤ c')%nat)) as [[? ?]|Hn];
      simplify_eq; try lia.
    + replace (r' - off)%nat with (S (r' - S off)) by lia. done.
    + rewrite Nat.sub_diag, Nat.sub_0_r. done.
    + done.
Qed.

(** A day number the date constructor accepts in month [m] of year [y],
    or the padding 0. *)
Definition day_ok (y m day : Z) : Prop :=
  day = 0 ∨ (day ≠ 0 ∧ mk_date y m day = Ok (Date y m day)).

Lemma run_cell_body y m r acc c day s :
  day_ok y m day →
  run (cell_body y m r acc (c, day)) s
  = (Ok (acc ++ [cell_text day]),
     upd_calendar (λ t, with_cells (PyDict.set (r, c) (cell_date y m day) (_cell_to_date t)) t) s).
Proof.
  unfold cell_body, cell_date, cell_text, set_cell. intros [->|[Hnz Hmk]].
  - cbn [Z.eqb]. by msteps.
  - rewrite Hmk. destruct (Z.eqb_spec day 0) as [|_]; [done|]. by msteps.
Qed.

Lemma run_cell_loop y m r week off acc s :
  Forall (day_ok y m) week →
  run (for_fold (enumerate_from off week) acc (cell_body y m r)) s
  = (Ok (acc ++ (cell_text <$> week)),
     upd_calendar (λ c, with_cells (week_cells y m r off week (_cell_to_date c)) c) s).
Proof.
  intros Hok. revert off acc s. induction Hok as [|day week Hday _ IH]; intros off acc s.
  - cbn [enumerate_from for_fold fmap list_fmap]. rewrite app_nil_r.
    destruct s as [? ? [] ? ? ? ? ?]. reflexivity.
  - cbn [enumerate_from for_fold]. rewrite run_bind, (run_cell_body _ _ _ _ _ _ _ Hday).
    cbn beta iota. rewrite IH, fmap_cons, <- app_assoc. reflexivity.
Qed.

Lemma run_week_body y m r week s :
  Forall (day_ok y m) week →
  run (week_body y m (r, week)) s
  = (Ok tt,
     upd_calendar (λ c, with_rows (rows c ++ [cell_text <$> week])
                          (with_cells (week_cells y m r 0 week (_cell_to_date c)) c)) s).
Proof.
  intros Hweek. unfold week_body, enumerate.
  rewrite run_bind, (run_cell_loop _ _ _ _ _ _ _ Hweek). cbn beta iota.
  unfold add_row. reflexivity.
Qed.

Lemma run_week_loop y m matrix off s :
  Forall (Forall (day_ok y m)) matrix →
  run (for_each (enumerate_from off matrix) (week_body y m)) s
  = (Ok tt,
     upd_calendar (λ c, with_rows (rows c ++ (fmap (M:=list) cell_text <$> matrix))
                          (with_cells (grid_cells y m off matrix (_cell_to_date c)) c)) s).
Proof.
  intros Hok. revert off s. induction Hok as [|week matrix Hweek _ IH]; intros off s.
  - cbn [enumerate_from for_each fmap list_fmap].
    destruct s as [? ? [] ? ? ? ? ?]. st. by rewrite app_nil_r.
  - cbn [enumerate_from for_each]. rewrite run_bind, (run_week_body _ _ _ _ _ Hweek).
    cbn beta iota. rewrite IH, fmap_cons. st. rewrite <- app_assoc. reflexivity.
Qed.

Lemma month_cases m :
  1 ≤ m ≤ 12 →
  m = 1 ∨ m = 2 ∨ m = 3 ∨ m = 4 ∨ m = 5 ∨ m = 6 ∨ m = 7 ∨ m = 8
  ∨ m = 9 ∨ m = 10 ∨ m = 11 ∨ m = 12.
Proof. lia. Qed.

Lemma days_in_month_range y m : 1 ≤ m ≤ 12 → 28 ≤ days_in_month y m ≤ 31.
Proof.
  intros Hm%month_cases. unfold days_in_month. generalize (is_leap y). intros b.
  destruct_or!; subst m; destruct b; vm_compute; split; discriminate.
Qed.

Lemma calendar_ndays y m :
  1 ≤ m ≤ 12 →
  default 0 (PyCalendar.mdays !! Z.to_nat (m - 1))
  + (if (m =? PyCalendar.FEBRUARY) && is_leap y then 1 else 0)
  = days_in_month y m.
Proof.
  intros Hm%month_cases. unfold days_in_month. generalize (is_leap y). intros b.
  destruct_or!; subst m; destruct b; reflexivity.
Qed.

Lemma check_date_fields_true y m d :
  1 ≤ y ≤ 9999 → 1 ≤ m ≤ 12 → 1 ≤ d ≤ days_in_month y m →
  check_date_fields y m d = true.
Proof.
  intros. unfold check_date_fields, MINYEAR, MAXYEAR.
  repeat (apply andb_true_intro; split); apply Z.leb_le; lia.
Qed.

Lemma mk_date_ok y m d :
  1 ≤ y ≤ 9999 → 1 ≤ m ≤ 12 → 1 ≤ d ≤ days_in_month y m →
  mk_date y m d = Ok (Date y m d).
Proof.
  intros Hy Hm Hd. pose proof (days_in_month_range y m Hm).
  unfold mk_date, fits_c_int.
  assert (∀ z, 1 ≤ z ≤ 9999 → (-2147483648 <=? z) && (z <=? 2147483647) = true) as Hfit
    by (intros z Hz; apply andb_true_intro; split; apply Z.leb_le; lia).
  rewrite !Hfit by lia. cbn [andb negb]. by rewrite check_date_fields_true.
Qed.

Lemma weekday_range d : 0 ≤ PyDate.weekday d < 7.
Proof. unfold PyDate.weekday. apply Z.mod_pos_bound. lia. Qed.

Lemma weekday_of_day y m d :
  PyDate.weekday (Date y m d) = (PyDate.weekday (Date y m 1) + d - 1) mod 7.
Proof.
  unfold PyDate.weekday, toordinal, ymd2ord. cbn [d_year d_month d_day].
  generalize (days_before_year y + days_before_month y m). intros base.
  rewrite <- Z.add_sub_assoc, Zplus_mod_idemp_l. f_equal. lia.
Qed.

Lemma monthcalendar_eq y m :
  1 ≤ y ≤ 9999 → 1 ≤ m ≤ 12 →
  PyCalendar.monthcalendar y m
  = Ok (PyCalendar.weeks_of
          (month_days (PyDate.weekday (Date y m 1)) (days_in_month y m))).
Proof.
  intros Hy Hm. pose proof (days_in_month_range y m Hm) as Hn.
  pose proof (weekday_range (Date y m 1)) as Hw.
  unfold PyCalendar.monthcalendar, PyCalendar.itermonthdays, PyCalendar.monthrange,
    PyCalendar.weekday, MINYEAR, MAXYEAR, PyCalendar.MONDAY.
  assert ((1 <=? m) && (m <=? 12) = true) as ->
    by (apply andb_true_intro; split; apply Z.leb_le; lia).
  assert ((1 <=? y) && (y <=? 9999) = true) as ->
    by (apply andb_true_intro; split; apply Z.leb_le; lia).
  cbn [negb]. rewrite mk_date_ok by lia. rewrite !res_bind_ok.
  rewrite calendar_ndays by done. rewrite ?res_bind_ok. unfold month_days.
  rewrite Z.sub_0_r, (Z.mod_small (PyDate.weekday _)) by done.
  reflexivity.
Qed.

Lemma weeks_needed w n :
  0 ≤ w < 7 → 0 ≤ n → w + n + (- w - n) mod 7 = 7 * ((w + n + 6) / 7).
Proof. intros. Z.div_mod_to_equations. lia. Qed.

Lemma month_days_length w n :
  0 ≤ w < 7 → 0 ≤ n →
  length (month_days w n) = Z.to_nat (7 * ((w + n + 6) / 7)).
Proof.
  intros Hw Hn. unfold month_days.
  rewrite !length_app, !length_replicate, length_seqZ.
  rewrite <- (weeks_needed w n) by done.
  pose proof (Z.mod_pos_bound (- w - n) 7). lia.
Qed.

Lemma month_days_lookup w n (i : nat) :
  0 ≤ w < 7 → 0 ≤ n →
  month_days w n !! i
  = if decide (Z.of_nat i < 7 * ((w + n + 6) / 7))
    then Some (if decide (1 ≤ Z.of_nat i - w + 1 ≤ n) then Z.of_nat i - w + 1 else 0)
    else None.
Proof.
  intros Hw Hn. pose proof (weeks_needed w n Hw Hn) as Hk.
  pose proof (Z.mod_pos_bound (- w - n) 7 ltac:(lia)) as Ha.
  unfold month_days. rewrite <- Hk. clear Hk.
  destruct (decide (Z.of_nat i < w)) as [H1|H1].
  { rewrite lookup_app_l by (rewrite length_replicate; lia).
    rewrite lookup_replicate_2 by lia.
    rewrite decide_True by lia. by rewrite decide_False by lia. }
  rewrite lookup_app_r by (rewrite length_replicate; lia). rewrite length_replicate.
  destruct (decide (Z.of_nat i < w + n)) as [H2|H2].
  { rewrite lookup_app_l by (rewrite length_seqZ; lia).
    rewrite lookup_seqZ_lt by lia.
    rewrite decide_True by lia. rewrite decide_True by lia. f_equal. lia. }
  rewrite lookup_app_r by (rewrite length_seqZ; lia). rewrite length_seqZ.
  destruct (decide (Z.of_nat i < w + n + (- w - n) mod 7)) as [H3|H3].
  - rewrite lookup_replicate_2 by lia. by rewrite decide_False by lia.
  - apply lookup_replicate_None. lia.
Qed.

Lemma weeks_of_length days :
  length (PyCalendar.weeks_of days) = ((length days + 6) / 7)%nat.
Proof. unfold PyCalendar.weeks_of. by rewrite length_fmap, length_seq. Qed.

Lemma weeks_of_lookup days r c :
  PyCalendar.weeks_of days !! r ≫= (.!! c)
  = if decide (c < 7)%nat then days !! (7 * r + c)%nat else None.
Proof.
  unfold PyCalendar.weeks_of. rewrite list_lookup_fmap.
  destruct (decide (r < (length days + 6) / 7)%nat) as [Hr|Hr].
  - rewrite lookup_seq_lt by done. cbn [fmap option_fmap option_map mbind option_bind].
    case_decide.
    + by rewrite lookup_take_lt, lookup_drop.
    + apply lookup_take_ge. lia.
  - rewrite lookup_seq_ge by lia. cbn [fmap option_fmap option_map mbind option_bind].
    case_decide; [|done]. symmetry. apply lookup_ge_None.
    pose proof (Nat.div_mod_eq (length days + 6) 7).
    pose proof (Nat.mod_upper_bound (length days + 6) 7). lia.
Qed.

Lemma weeks_of_rows days :
  (length days mod 7 = 0)%nat →
  Forall (λ row : list Z, length row = 7%nat) (PyCalendar.weeks_of days).
Proof.
  intros Hmod. unfold PyCalendar.weeks_of. apply Forall_fmap, Forall_forall.
  intros k Hk%elem_of_seq. cbn. rewrite length_take, length_drop.
  destruct Hk as [_ Hk].
  pose proof (Nat.div_mod_eq (length days + 6) 7).
  pose proof (Nat.mod_upper_bound (length days + 6) 7).
  pose proof (Nat.div_mod_eq (length days) 7).
  assert ((length days + 6) `mod` 7 = 6)%nat; [|lia].
  rewrite <- Nat.Div0.add_mod_idemp_l, Hmod. done.
Qed.

Lemma grid_lookup y m w n r c :
  0 ≤ w < 7 → 0 ≤ n →
  PyDict.get (r, c) (grid_cells y m 0 (PyCalendar.weeks_of (month_days w n)) [])
  = if decide (Z.of_nat r < (w + n + 6) / 7 ∧ (c < 7)%nat)
    then Some (if decide (1 ≤ 7 * Z.of_nat r + Z.of_nat c - w + 1 ≤ n)
               then Some (Date y m (7 * Z.of_nat r + Z.of_nat c - w + 1)) else None)
    else None.
Proof.
  intros Hw Hn. rewrite grid_cells_lookup.
  rewrite (decide_True (P := (0 ≤ r)%nat)) by lia.
  rewrite Nat.sub_0_r, weeks_of_lookup.
  destruct (decide (c < 7)%nat) as [Hc|Hc].
  2: { by rewrite (decide_False (P := _ ∧ (c < 7)%nat)) by lia. }
  rewrite month_days_lookup by done.
  replace (Z.of_nat (7 * r + c)) with (7 * Z.of_nat r + Z.of_nat c) by lia.
  destruct (decide (7 * Z.of_nat r + Z.of_nat c < 7 * ((w + n + 6) / 7))) as [Hr|Hr];
    destruct (decide (Z.of_nat r < (w + n + 6) / 7 ∧ (c < 7)%nat)) as [Hr'|Hr'];
    try lia; [|done].
  f_equal. unfold cell_date. case_decide as Hd; [|done].
  destruct (Z.eqb_spec (7 * Z.of_nat r + Z.of_nat c - w + 1) 0); [lia|done].
Qed.

Lemma month_days_ok y m w :
  1 ≤ y ≤ 9999 → 1 ≤ m ≤ 12 →
  Forall (day_ok y m) (month_days w (days_in_month y m)).
Proof.
  intros Hy Hm. unfold month_days. rewrite !Forall_app. split_and!.
  - apply Forall_replicate. by left.
  - apply Forall_seqZ. intros d Hd. right. split; [lia|]. apply mk_date_ok; lia.
  - apply Forall_replicate. by left.
Qed.

Lemma weeks_of_ok (P : Z → Prop) days :
  Forall P days → Forall (Forall P) (PyCalendar.weeks_of days).
Proof.
  intros H. unfold PyCalendar.weeks_of. apply Forall_fmap, Forall_forall.
  intros k _. by apply Forall_take, Forall_drop.
Qed.

Lemma headers_eq :
  (λ i, default ""%string
          (PyCalendar.day_abbr !! Z.to_nat ((PyCalendar.MONDAY + i) mod 7)))
    <$> seqZ 0 7
  = PyCalendar.day_abbr.
Proof. reflexivity. Qed.

Lemma run_add_columns names s :
  run (for_each names add_column) s
  = (Ok tt, upd_calendar (λ c, with_columns (columns c ++ names) c) s).
Proof.
  revert s. induction names as [|name names IH]; intros s.
  - cbn [for_each]. destruct s as [? ? [] ? ? ? ? ?]. st. by rewrite app_nil_r.
  - cbn [for_each].
    change (add_column name)
      with (modify (upd_calendar (λ c, with_columns (columns c ++ [name]) c))).
    msteps. rewrite IH. st. by rewrite <- app_assoc.
Qed.

Lemma month_name_at_ok m s :
  1 ≤ m ≤ 12 → run (month_name_at m) s = (Ok (PyCalendar.month_name m), s).
Proof.
  intros Hm. unfold month_name_at.
  assert ((1 <=? m) && (m <=? 12) = true) as ->
    by (apply andb_true_intro; split; apply Z.leb_le; lia).
  reflexivity.
Qed.

Lemma run_place_cursor y m s :
  ∃ cur, run (place_cursor y m) s = (Ok tt, upd_calendar (with_cursor cur) s).
Proof.
  assert (upd_calendar (with_cursor (cursor (calendar s))) s = s) as Hsame
    by (by destruct s as [? ? [] ? ? ? ? ?]).
  remember (run (place_cursor y m) s) as r eqn:Hr. symmetry in Hr. revert Hr.
  unfold place_cursor. msteps. destruct (_ && _).
  - unfold _move_cursor_to_day. msteps.
    destruct (find _ _) as [[[r0 c0] ?]|]; intros <-.
    + by exists (r0, c0).
    + exists (cursor (calendar s)). by rewrite Hsame.
  - msteps. destruct (find _ _) as [[[r0 c0] ?]|]; intros <-.
    + by exists (r0, c0).
    + exists (cursor (calendar s)). by rewrite Hsame.
Qed.

Lemma reload_month_grid s :
  let y := year (calendar s) in
  let m := month (calendar s) in
  1 ≤ y ≤ 9999 → 1 ≤ m ≤ 12 →
  let matrix :=
    PyCalendar.weeks_of (month_days (PyDate.weekday (Date y m 1)) (days_in_month y m)) in
  let s' := exec reload_month s in
  outcome reload_month s = Ok tt
  ∧ _cell_to_date (calendar s') = grid_cells y m 0 matrix []
  ∧ rows (calendar s') = (fmap (M:=list) cell_text <$> matrix)
  ∧ columns (calendar s') = PyCalendar.day_abbr.
Proof.
  intros y m Hy Hm matrix s'. subst s'. rewrite outcome_run, !exec_run.
  unfold reload_month, clear_table. msteps. rewrite headers_eq.
  rewrite run_bind, run_add_columns. cbn beta iota. msteps.
  st. fold y m. rewrite (monthcalendar_eq y m Hy Hm). msteps. fold matrix. st.
  unfold enumerate. rewrite run_bind, run_week_loop
    by (apply weeks_of_ok, month_days_ok; done).
  cbn beta iota. st.
  match goal with |- context [run (place_cursor y m ≫= _) ?s2] =>
    destruct (run_place_cursor y m s2) as [cur Hcur] end.
  rewrite run_bind, Hcur. clear Hcur. cbn beta iota. st.
  rewrite run_bind, month_name_at_ok by done. cbn beta iota. msteps.
  unfold post_message, run, modify. st. done.
Qed.

Lemma grid_cells_nil_lookup y m matrix r c :
  PyDict.get (r, c) (grid_cells y m 0 matrix [])
  = cell_date y m <$> (matrix !! r ≫= (.!! c)).
Proof.
  rewrite grid_cells_lookup. rewrite decide_True by lia. rewrite Nat.sub_0_r.
  by destruct (matrix !! r ≫= (.!! c)).
Qed.

Lemma rows_lookup (matrix : list (list Z)) r c :
  (fmap (M:=list) cell_text <$> matrix) !! r ≫= (.!! c)
  = cell_text <$> (matrix !! r ≫= (.!! c)).
Proof.
  rewrite list_lookup_fmap. destruct (matrix !! r) as [week|]; [|done].
  cbn [fmap option_fmap option_map mbind option_bind]. apply list_lookup_fmap.
Qed.

(** C4 (as amended). For a year in 1..9999 and a month in 1..12,
    [reload_month] returns normally and the grid has one row of seven
    cells for each of the [k] Monday-start weeks the month touches, where
    [w] is the weekday of day 1 and [k] the least number with
    [w + n <= 7 * k]. The cell in row [r], column [c] holds the date of
    day [7 * r + c - w + 1] when that is a day of the month and nothing
    otherwise, so each day 1..n is in exactly one cell, the one in the
    column of its weekday, and the text shown in a cell is the day number
    or empty. *)
Theorem month_grid s :
  let y := year (calendar s) in
  let m := month (calendar s) in
  1 ≤ y ≤ 9999 → 1 ≤ m ≤ 12 →
  let w := PyDate.weekday (Date y m 1) in
  let n := days_in_month y m in
  let k := (w + n + 6) / 7 in
  let s' := exec reload_month s in
  let cells := _cell_to_date (calendar s') in
  outcome reload_month s = Ok tt
  ∧ (0 ≤ w < 7 ∧ 28 ≤ n ≤ 31 ∧ 7 * (k - 1) < w + n ≤ 7 * k)
  ∧ length (rows (calendar s')) = Z.to_nat k
  ∧ Forall (λ row, length row = 7%nat) (rows (calendar s'))
  ∧ (∀ r c : nat,
       PyDict.get (r, c) cells
       = if decide (Z.of_nat r < k ∧ (c < 7)%nat)
         then Some (if decide (1 ≤ 7 * Z.of_nat r + Z.of_nat c - w + 1 ≤ n)
                    then Some (Date y m (7 * Z.of_nat r + Z.of_nat c - w + 1))
                    else None)
         else None)
  ∧ (∀ d, 1 ≤ d ≤ n →
       PyDict.get (Z.to_nat ((w + d - 1) / 7), Z.to_nat ((w + d - 1) mod 7)) cells
       = Some (Some (Date y m d))
       ∧ (w + d - 1) mod 7 = PyDate.weekday (Date y m d)
       ∧ ∀ r c : nat, PyDict.get (r, c) cells = Some (Some (Date y m d)) →
           r = Z.to_nat ((w + d - 1) / 7) ∧ c = Z.to_nat ((w + d - 1) mod 7))
  ∧ (∀ (r c : nat) dt, PyDict.get (r, c) cells = Some (Some dt) →
       ∃ d, 1 ≤ d ≤ n ∧ dt = Date y m d)
  ∧ (∀ r c : nat,
       rows (calendar s') !! r ≫= (.!! c)
       = (λ cell : option date,
            match cell with Some dt => pretty (d_day dt) | None => ""%string end)
         <$> PyDict.get (r, c) cells).
Proof.
  intros y m Hy Hm w n k s' cells.
  destruct (reload_month_grid s Hy Hm) as (Hout & Hcells & Hrows & _).
  fold y m w n s' in Hcells, Hrows. fold cells in Hcells.
  pose proof (weekday_range (Date y m 1)) as Hw. fold w in Hw.
  pose proof (days_in_month_range y m Hm) as Hn. fold n in Hn.
  assert (0 ≤ n) as Hn0 by lia.
  pose proof (month_days_length w n Hw Hn0) as Hlen. fold k in Hlen.
  assert (7 * (k - 1) < w + n ≤ 7 * k) as Hk
    by (subst k; Z.div_mod_to_equations; lia).
  assert (∀ r c : nat,
            PyDict.get (r, c) cells
            = if decide (Z.of_nat r < k ∧ (c < 7)%nat)
              then Some (if decide (1 ≤ 7 * Z.of_nat r + Z.of_nat c - w + 1 ≤ n)
                         then Some (Date y m (7 * Z.of_nat r + Z.of_nat c - w + 1))
                         else None)
              else None) as Hget.
  { intros r c. rewrite Hcells. by apply grid_lookup. }
  refine (conj Hout (conj _ (conj _ (conj _ (conj Hget (conj _ (conj _ _))))))).
  - done.
  - rewrite Hrows, length_fmap, weeks_of_length, Hlen.
    apply Nat2Z.inj. rewrite Nat2Z.inj_div, Nat2Z.inj_add. 
    rewrite !Z2Nat.id by lia. change (Z.of_nat 7) with 7. change (Z.of_nat 6) with 6.
    Z.div_mod_to_equations. lia.
  - rewrite Hrows. apply Forall_fmap.
    eapply Forall_impl; [apply weeks_of_rows|].
    + rewrite Hlen. apply Nat2Z.inj. rewrite Nat2Z.inj_mod.
      rewrite Z2Nat.id by lia. change (Z.of_nat 7) with 7.
      rewrite Z.mul_comm. apply Z_mod_mult.
    + intros row Hr. cbn. by rewrite length_fmap.
  - intros d Hd.
    assert (0 ≤ (w + d - 1) / 7 < k ∧ 0 ≤ (w + d - 1) mod 7 < 7
            ∧ 7 * ((w + d - 1) / 7) + (w + d - 1) mod 7 = w + d - 1) as (Hr0 & Hc0 & Hdm)
      by (subst k; Z.div_mod_to_equations; lia).
    split; [|split].
    + rewrite Hget. rewrite decide_True by lia.
      rewrite !Z2Nat.id by lia. rewrite Hdm.
      replace (w + d - 1 - w + 1) with d by lia. by rewrite decide_True by lia.
    + by rewrite weekday_of_day.
    + intros r c. rewrite Hget. intros Hrc.
      destruct (decide (Z.of_nat r < k ∧ (c < 7)%nat)) as [[Hr Hc]|]; [|done].
      destruct (decide (1 ≤ 7 * Z.of_nat r + Z.of_nat c - w + 1 ≤ n)); [|done].
      injection Hrc as Hrc. Z.div_mod_to_equations. lia.
  - intros r c dt. rewrite Hget. intros Hrc.
    destruct (decide (Z.of_nat r < k ∧ (c < 7)%nat)); [|done].
    destruct (decide (1 ≤ 7 * Z.of_nat r + Z.of_nat c - w + 1 ≤ n)); [|done].
    injection Hrc as <-. eauto.
  - intros r c. rewrite Hrows, Hcells, rows_lookup, grid_cells_nil_lookup.
    destruct (_ !! r ≫= (.!! c)) as [day|]; [|done].
    cbn [fmap option_fmap option_map]. f_equal. unfold cell_text, cell_date.
    by destruct (day =? 0).
Qed.

(** *** The cursor after a rebuild *)

Lemma dict_get_None {K V} `{EqDecision K} (k : K) (d : list (K * V)) :
  PyDict.get k d = None ↔ k ∉ d.*1.
Proof.
  induction d as [|[k' v] d IH]; cbn.
  - split; [intros _; apply not_elem_of_nil|done].
  - rewrite not_elem_of_cons. case_decide as Hk.
    + split; [done|]. by intros [? _].
    + rewrite IH. split; [done|]. by intros [_ ?].
Qed.

Lemma dict_elem_of_get {K V} `{EqDecision K} (k : K) (v : V) d :
  PyDict.get k d = Some v → (k, v) ∈ d.
Proof.
  induction d as [|[k' v'] d IH]; cbn; [done|].
  case_decide; intros; simplify_eq; [left|right; auto].
Qed.

Lemma dict_get_elem_of {K V} `{EqDecision K} (k : K) (v : V) d :
  NoDup d.*1 → (k, v) ∈ d → PyDict.get k d = Some v.
Proof.
  induction d as [|[k' v'] d IH]; cbn; intros Hnd Hin.
  - by apply elem_of_nil in Hin.
  - apply NoDup_cons in Hnd as [Hk Hnd]. apply elem_of_cons in Hin as [Heq|Hin].
    + simplify_eq. by rewrite decide_True.
    + case_decide as Hkk; [|auto]. subst. exfalso. apply Hk.
      apply list_elem_of_fmap. by exists (k', v).
Qed.

Lemma dict_get_app {K V} `{EqDecision K} (k : K) (d1 d2 : list (K * V)) :
  PyDict.get k (d1 ++ d2)
  = match PyDict.get k d1 with Some v => Some v | None => PyDict.get k d2 end.
Proof. induction d1 as [|[k' v'] d1 IH]; cbn; [done|]. by case_decide. Qed.

Lemma dict_set_fresh {K V} `{EqDecision K} (k : K) (v : V) d :
  PyDict.get k d = None → PyDict.set k v d = d ++ [(k, v)].
Proof.
  induction d as [|[k' v'] d IH]; cbn; [done|].
  case_decide; [done|]. intros Hg. by rewrite IH.
Qed.

Lemma dict_set_NoDup {K V} `{EqDecision K} (k : K) (v : V) d :
  NoDup d.*1 → NoDup (PyDict.set k v d).*1.
Proof.
  intros Hnd. destruct (PyDict.get k d) as [v0|] eqn:Hg.
  - replace (PyDict.set k v d).*1 with d.*1; [done|].
    clear Hnd. revert Hg. induction d as [|[k' v'] d IH]; cbn; [done|].
    case_decide; [by subst|]. intros Hg. cbn. f_equal. auto.
  - rewrite dict_set_fresh, fmap_app by done. apply NoDup_app. split_and!; [done| |apply NoDup_singleton].
    intros x Hx ->%list_elem_of_singleton. by apply dict_get_None in Hg.
Qed.

Lemma grid_cells_NoDup y m off matrix cells :
  NoDup cells.*1 → NoDup (grid_cells y m off matrix cells).*1.
Proof.
  unfold grid_cells. generalize (enumerate_from off matrix). intros l.
  revert cells. induction l as [|[r week] l IH]; intros cells Hnd; [done|].
  cbn [foldl]. apply IH. cbn [fst snd]. unfold week_cells.
  generalize (enumerate_from 0 week). intros l'. clear IH.
  revert cells Hnd. induction l' as [|cd l' IH']; intros cells Hnd; [done|].
  cbn [foldl]. by apply IH', dict_set_NoDup.
Qed.

Lemma week_cells_fresh y m r off week cells :
  (∀ c, (off ≤ c)%nat → PyDict.get (r, c) cells = None) →
  week_cells y m r off week cells = cells ++ week_entries y m r off week.
Proof.
  revert off cells. induction week as [|day week IH]; intros off cells Hfresh.
  - cbn. by rewrite app_nil_r.
  - rewrite week_cells_cons, dict_set_fresh by (apply Hfresh; lia).
    rewrite IH; [by rewrite <- app_assoc|].
    intros c Hc. rewrite dict_get_app, Hfresh by lia. cbn.
    rewrite decide_False; [done|]. intros [=]; lia.
Qed.

Lemma week_entries_other_row y m r off week r' c' :
  r' ≠ r → PyDict.get (r', c') (week_entries y m r off week) = None.
Proof.
  intros Hr. apply dict_get_None. unfold week_entries.
  rewrite <- list_fmap_compose. intros ([c day] & [=] & _)%list_elem_of_fmap. done.
Qed.

Lemma grid_cells_fresh y m off matrix cells :
  (∀ r c, (off ≤ r)%nat → PyDict.get (r, c) cells = None) →
  grid_cells y m off matrix cells = cells ++ grid_entries y m off matrix.
Proof.
  revert off cells. induction matrix as [|week matrix IH]; intros off cells Hfresh.
  - cbn. by rewrite app_nil_r.
  - rewrite grid_cells_cons, week_cells_fresh by (intros; apply Hfresh; lia).
    rewrite IH; [by rewrite <- app_assoc|].
    intros r c Hr. rewrite dict_get_app, Hfresh by lia.
    apply week_entries_other_row. lia.
Qed.

Lemma find_app_l {A} (P : A → bool) l1 l2 x :
  find P l1 = Some x → find P (l1 ++ l2) = Some x.
Proof. induction l1 as [|a l1 IH]; cbn; [done|]. by destruct (P a). Qed.

Lemma week_entries_cons y m r off day week :
  week_entries y m r off (day :: week)
  = ((r, off), cell_date y m day) :: week_entries y m r (S off) week.
Proof. reflexivity. Qed.

Lemma find_week_entries_first y m r week off c d :
  (∀ j, (j < c)%nat → week !! j = Some 0) → week !! c = Some d → d ≠ 0 →
  find (λ kv : (nat * nat) * option date, bool_decide (is_Some kv.2))
       (week_entries y m r off week)
  = Some ((r, (off + c)%nat), Some (Date y m d)).
Proof.
  revert week off. induction c as [|c IH]; intros week off Hzero Hd Hnz.
  - destruct week as [|x week]; [done|]. cbn in Hd. simplify_eq.
    rewrite week_entries_cons. cbn [find snd].
    unfold cell_date. destruct (Z.eqb_spec d 0); [done|].
    rewrite bool_decide_eq_true_2 by eauto. by rewrite Nat.add_0_r.
  - destruct week as [|x week]; [done|].
    pose proof (Hzero 0%nat ltac:(lia)) as Hx. cbn in Hx, Hd. simplify_eq.
    rewrite week_entries_cons. cbn [find snd cell_date Z.eqb].
    rewrite bool_decide_eq_false_2 by (by intros []).
    rewrite (IH week (S off)); [f_equal; f_equal; f_equal; lia| |done|done].
    intros j Hj. apply (Hzero (S j)). lia.
Qed.

Lemma weeks_of_first days c :
  (c < 7)%nat → is_Some (days !! c) →
  ∃ week rest, PyCalendar.weeks_of days = week :: rest
               ∧ ∀ j, (j < 7)%nat → week !! j = days !! j.
Proof.
  intros Hc Hsome. destruct (PyCalendar.weeks_of days) as [|week rest] eqn:Hw.
  - pose proof (weeks_of_lookup days 0 c) as Hl. rewrite Hw in Hl.
    rewrite decide_True in Hl by done. cbn in Hl. rewrite <- Hl in Hsome. by destruct Hsome.
  - exists week, rest. split; [done|]. intros j Hj.
    pose proof (weeks_of_lookup days 0 j) as Hl. rewrite Hw in Hl.
    by rewrite decide_True in Hl by done.
Qed.

Lemma cursor_target_first y m w n today old :
  0 ≤ w < 7 → 1 ≤ n →
  (d_year today =? y) && (d_month today =? m) = false →
  cursor_target y m today (grid_cells y m 0 (PyCalendar.weeks_of (month_days w n)) []) old
  = (0%nat, Z.to_nat w).
Proof.
  intros Hw Hn Hno. unfold cursor_target. rewrite Hno.
  rewrite grid_cells_fresh by done. rewrite app_nil_l.
  assert (∀ j : nat, (j < 7)%nat →
            month_days w n !! j
            = Some (if decide (1 ≤ Z.of_nat j - w + 1 ≤ n) then Z.of_nat j - w + 1 else 0))
    as Hdays.
  { intros j Hj. rewrite month_days_lookup by lia. rewrite decide_True; [done|].
    assert (1 ≤ (w + n + 6) / 7) by (Z.div_mod_to_equations; lia). lia. }
  destruct (weeks_of_first (month_days w n) (Z.to_nat w)) as (week & rest & -> & Hweek).
  { lia. } { rewrite Hdays by lia. eauto. }
  unfold grid_entries. cbn [enumerate_from mbind list_bind mapM fst snd].
  rewrite (find_app_l _ _ _ ((0%nat, Z.to_nat w), Some (Date y m 1))); [done|].
  rewrite (find_week_entries_first y m 0 week 0 (Z.to_nat w) 1); [done| | |done].
  - intros j Hj. rewrite Hweek, Hdays by lia. by rewrite decide_False by lia.
  - rewrite Hweek, Hdays by lia. rewrite decide_True by lia. f_equal. lia.
Qed.

Lemma cursor_target_today y m w n today old :
  0 ≤ w < 7 → 0 ≤ n →
  d_year today = y → d_month today = m → 1 ≤ d_day today ≤ n →
  cursor_target y m today (grid_cells y m 0 (PyCalendar.weeks_of (month_days w n)) []) old
  = (Z.to_nat ((w + d_day today - 1) / 7), Z.to_nat ((w + d_day today - 1) mod 7)).
Proof.
  intros Hw Hn <- <- Ht. unfold cursor_target. rewrite !Z.eqb_refl. cbn [andb].
  set (cells := grid_cells _ _ _ _ _).
  assert (NoDup cells.*1) as Hnd by (apply grid_cells_NoDup; constructor).
  destruct (find _ cells) as [[[r c] v]|] eqn:Hf.
  - apply find_some in Hf as [Hin HP]. apply list_elem_of_In in Hin.
    apply (dict_get_elem_of _ _ _ Hnd) in Hin. subst cells.
    rewrite grid_lookup in Hin by done. cbn [snd] in HP.
    destruct v as [d|]; [|done]. apply bool_decide_eq_true in HP.
    case_decide as Hrc; [|done]. case_decide as Hday; simplify_eq. cbn [d_day] in HP.
    f_equal; Z.div_mod_to_equations; lia.
  - exfalso.
    set (r := Z.to_nat ((w + d_day today - 1) / 7)).
    set (c := Z.to_nat ((w + d_day today - 1) mod 7)).
    assert (7 * Z.of_nat r + Z.of_nat c - w + 1 = d_day today) as Hday
      by (subst r c; Z.div_mod_to_equations; lia).
    assert (PyDict.get (r, c) cells = Some (Some today)) as Hget.
    { subst cells. rewrite grid_lookup by done. rewrite decide_True.
      - rewrite decide_True by lia. rewrite Hday. by destruct today.
      - subst r c. split; Z.div_mod_to_equations; lia. }
    apply dict_elem_of_get, list_elem_of_In in Hget.
    apply (find_none _ _ Hf) in Hget. cbn [snd] in Hget.
    by rewrite bool_decide_eq_true_2 in Hget.
Qed.

Lemma run_place_cursor_target y m s :
  run (place_cursor y m) s
  = (Ok tt,
     upd_calendar
       (with_cursor (cursor_target y m (system_date (world s))
                       (_cell_to_date (calendar s)) (cursor (calendar s))))
       s).
Proof.
  assert (upd_calendar (with_cursor (cursor (calendar s))) s = s) as Hsame
    by (by destruct s as [? ? [] ? ? ? ? ?]).
  unfold place_cursor, cursor_target. msteps. destruct (_ && _).
  - unfold _move_cursor_to_day. msteps.
    destruct (find _ _) as [[[r0 c0] ?]|]; [done|]. by rewrite Hsame.
  - msteps. destruct (find _ _) as [[[r0 c0] ?]|]; [done|]. by rewrite Hsame.
Qed.

Lemma run_reload_month s :
  1 ≤ year (calendar s) ≤ 9999 → 1 ≤ month (calendar s) ≤ 12 →
  run reload_month s = (Ok tt, reloaded s).
Proof.
  intros Hy Hm. unfold reloaded.
  set (y := year (calendar s)) in *. set (m := month (calendar s)) in *.
  set (matrix := PyCalendar.weeks_of _).
  unfold reload_month, clear_table. msteps. rewrite headers_eq.
  rewrite run_bind, run_add_columns. cbn beta iota. msteps.
  st. fold y m. rewrite (monthcalendar_eq y m Hy Hm). msteps. fold matrix. st.
  unfold enumerate. rewrite run_bind, run_week_loop
    by (apply weeks_of_ok, month_days_ok; done).
  cbn beta iota. st.
  rewrite run_bind, run_place_cursor_target. cbn beta iota. st.
  rewrite run_bind, month_name_at_ok by done. cbn beta iota. msteps.
  unfold post_message, run, modify. st. done.
Qed.

(** *** A rebuild that fails *)

Lemma check_date_fields_inv y m d :
  check_date_fields y m d = true →
  1 ≤ y ≤ 9999 ∧ 1 ≤ m ≤ 12 ∧ 1 ≤ d ≤ days_in_month y m.
Proof.
  unfold check_date_fields, MINYEAR, MAXYEAR. rewrite !andb_true_iff, !Z.leb_le. lia.
Qed.

Lemma mk_date_year_out y m d :
  ¬ (1 ≤ y ≤ 9999) → 1 ≤ m ≤ 12 → 1 ≤ d ≤ 31 →
  mk_date y m d = Raise (if fits_c_int y then ValueError else OverflowError).
Proof.
  intros Hy Hm Hd. unfold mk_date.
  assert (fits_c_int m = true ∧ fits_c_int d = true) as [-> ->]
    by (unfold fits_c_int; split; apply andb_true_intro; split; apply Z.leb_le; lia).
  rewrite !andb_true_r. destruct (fits_c_int y); cbn [negb]; [|done].
  destruct (check_date_fields y m d) eqn:Hc; [|done].
  apply check_date_fields_inv in Hc. lia.
Qed.

Lemma monthcalendar_any y m :
  1 ≤ m ≤ 12 →
  ∃ w, 0 ≤ w < 7
       ∧ PyCalendar.monthcalendar y m
         = Ok (PyCalendar.weeks_of (month_days w (days_in_month y m))).
Proof.
  intros Hm.
  unfold PyCalendar.monthcalendar, PyCalendar.itermonthdays, PyCalendar.monthrange,
    PyCalendar.weekday, PyCalendar.MONDAY.
  assert ((1 <=? m) && (m <=? 12) = true) as ->
    by (apply andb_true_intro; split; apply Z.leb_le; lia).
  set (y' := if (MINYEAR <=? y) && (y <=? MAXYEAR) then y else 2000 + y mod 400).
  assert (1 ≤ y' ≤ 9999) as Hy'.
  { subst y'. unfold MINYEAR, MAXYEAR.
    destruct (Z.leb_spec 1 y), (Z.leb_spec y 9999); cbn [andb];
      pose proof (Z.mod_pos_bound y 400); lia. }
  pose proof (days_in_month_range y' m Hm).
  exists (PyDate.weekday (Date y' m 1)). split; [apply weekday_range|].
  pose proof (weekday_range (Date y' m 1)) as Hw.
  cbn [negb]. rewrite mk_date_ok by lia. rewrite !res_bind_ok.
  rewrite calendar_ndays by done. rewrite ?res_bind_ok. unfold month_days.
  rewrite Z.sub_0_r, (Z.mod_small (PyDate.weekday _)) by done.
  reflexivity.
Qed.

Lemma monthcalendar_illegal_month y m :
  ¬ (1 ≤ m ≤ 12) → PyCalendar.monthcalendar y m = Raise IllegalMonthError.
Proof.
  intros Hm.
  unfold PyCalendar.monthcalendar, PyCalendar.itermonthdays, PyCalendar.monthrange.
  assert ((1 <=? m) && (m <=? 12) = false) as ->; [|done].
  destruct (Z.leb_spec 1 m), (Z.leb_spec m 12); cbn [andb]; lia.
Qed.

Lemma run_lift_raise {A B} e (k : A → M B) s : run (lift (Raise e) ≫= k) s = (Raise e, s).
Proof. reflexivity. Qed.

Lemma run_bind_raise {A B} (m : M A) (k : A → M B) s e s1 :
  run m s = (Raise e, s1) → run (m ≫= k) s = (Raise e, s1).
Proof. unfold run, mbind, M_bind. by intros ->. Qed.

Lemma run_cell_loop_raise y m r week off acc s c d e :
  (∀ j, (j < c)%nat → week !! j = Some 0) → week !! c = Some d → d ≠ 0 →
  mk_date y m d = Raise e →
  run (for_fold (enumerate_from off week) acc (cell_body y m r)) s
  = (Raise e,
     upd_calendar
       (λ t, with_cells (week_cells y m r off (replicate c 0) (_cell_to_date t)) t) s).
Proof.
  revert week off acc s. induction c as [|c IH]; intros week off acc s Hzero Hd Hnz Hmk.
  - destruct week as [|x week]; [done|]. cbn in Hd. simplify_eq.
    cbn [enumerate_from for_fold replicate]. apply run_bind_raise.
    unfold cell_body. destruct (Z.eqb_spec d 0); [done|]. rewrite Hmk, run_lift_raise.
    by destruct s as [? ? [] ? ? ? ? ?].
  - destruct week as [|x week]; [done|].
    pose proof (Hzero 0%nat ltac:(lia)) as Hx. cbn in Hx, Hd. simplify_eq.
    cbn [enumerate_from for_fold replicate].
    rewrite run_bind, run_cell_body by (by left). cbn beta iota.
    rewrite (IH week (S off)); [|intros j Hj; apply (Hzero (S j)); lia|done|done|done].
    by destruct s as [? ? [] ? ? ? ? ?].
Qed.

Lemma zero_cells_lookup y m r c rc :
  PyDict.get rc (week_cells y m r 0 (replicate c 0) []) = None
  ∨ PyDict.get rc (week_cells y m r 0 (replicate c 0) []) = Some None.
Proof.
  destruct rc as [r' c']. rewrite week_cells_lookup. case_decide; [|by left].
  destruct (replicate c 0 !! (c' - 0)%nat) as [day|] eqn:Hl; [|by left].
  apply lookup_replicate in Hl as [-> _]. by right.
Qed.

(** The state [reload_month] leaves when it raises because the year is
    not one the date type has: the headers and, of the first week, the
    cells before day 1. The exception is the one the date constructor
    raises for that year. *)
Lemma run_reload_month_year_out s :
  ¬ (1 ≤ year (calendar s) ≤ 9999) → 1 ≤ month (calendar s) ≤ 12 →
  ∃ c,
    run reload_month s
    = (Raise (if fits_c_int (year (calendar s)) then ValueError else OverflowError),
       upd_calendar
         (λ t, mkCalendarTable (year t) (month t)
                 (week_cells (year t) (month t) 0 0 (replicate c 0) [])
                 PyCalendar.day_abbr [] (0%nat, 0%nat) (title t))
         s).
Proof.
  intros Hy Hm.
  destruct (monthcalendar_any (year (calendar s)) (month (calendar s)) Hm) as (w & Hw & Hcal).
  pose proof (days_in_month_range (year (calendar s)) _ Hm) as Hn.
  set (y := year (calendar s)) in *. set (m := month (calendar s)) in *.
  set (n := days_in_month y m) in *.
  assert (∀ j : nat, (j < 7)%nat →
            month_days w n !! j
            = Some (if decide (1 ≤ Z.of_nat j - w + 1 ≤ n) then Z.of_nat j - w + 1 else 0))
    as Hdays.
  { intros j Hj. rewrite month_days_lookup by lia. rewrite decide_True; [done|].
    assert (1 ≤ (w + n + 6) / 7) by (Z.div_mod_to_equations; lia). lia. }
  destruct (weeks_of_first (month_days w n) (Z.to_nat w)) as (week & rest & Hweeks & Hweek).
  { lia. } { rewrite Hdays by lia. eauto. }
  exists (Z.to_nat w).
  unfold reload_month, clear_table. msteps. rewrite headers_eq.
  rewrite run_bind, run_add_columns. cbn beta iota. msteps.
  st. fold y m. rewrite Hcal, Hweeks. msteps. st.
  apply run_bind_raise. unfold enumerate. cbn [enumerate_from for_each].
  apply run_bind_raise. unfold week_body, enumerate. apply run_bind_raise.
  rewrite (run_cell_loop_raise y m 0 week 0 [] _ (Z.to_nat w) 1
             (if fits_c_int y then ValueError else OverflowError)); [| | |done|].
  - st. reflexivity.
  - intros j Hj. rewrite Hweek, Hdays by lia. by rewrite decide_False by lia.
  - rewrite Hweek, Hdays by lia. rewrite decide_True by lia. f_equal. lia.
  - apply mk_date_year_out; [done|done|lia].
Qed.

Lemma run_reload_month_illegal_month s :
  ¬ (1 ≤ month (calendar s) ≤ 12) →
  run reload_month s
  = (Raise IllegalMonthError,
     upd_calendar
       (λ t, with_cursor (0%nat, 0%nat) (with_rows [] (with_columns PyCalendar.day_abbr t)))
       s).
Proof.
  intros Hm.
  unfold reload_month, clear_table. msteps. rewrite headers_eq.
  rewrite run_bind, run_add_columns. cbn beta iota. msteps.
  st. rewrite monthcalendar_illegal_month by done. reflexivity.
Qed.

(** From here on [reload_month] is used through its lemmas only. *)
#[local] Opaque reload_month.

(** *** Month navigation *)

Lemma exec_bind_ok {A B} (m : M A) (f : A → M B) s a s1 :
  run m s = (Ok a, s1) → exec (m ≫= f) s = exec (f a) s1.
Proof. unfold run, exec, mbind, M_bind. by intros ->. Qed.

Lemma year_month_frame s s' : calendar_frame s s' → year_month s' = year_month s.
Proof. unfold calendar_frame, year_month. intros. destruct_and!. congruence. Qed.

Lemma action_next_month_year_month s :
  year_month (exec action_next_month s) =
  if month (calendar s) =? 12 then (year (calendar s) + 1, 1)
  else (year (calendar s), month (calendar s) + 1).
Proof.
  unfold action_next_month.
  erewrite exec_bind_ok by reflexivity.
  destruct (month (calendar s) =? 12);
    (erewrite exec_bind_ok by reflexivity);
    rewrite (year_month_frame _ _ (reload_month_frame _)); reflexivity.
Qed.

Lemma action_prev_month_year_month s :
  year_month (exec action_prev_month s) =
  if month (calendar s) =? 1 then (year (calendar s) - 1, 12)
  else (year (calendar s), month (calendar s) - 1).
Proof.
  unfold action_prev_month.
  erewrite exec_bind_ok by reflexivity.
  destruct (month (calendar s) =? 1);
    (erewrite exec_bind_ok by reflexivity);
    rewrite (year_month_frame _ _ (reload_month_frame _)); reflexivity.
Qed.






(** *** Further properties of the calendar *)

(** X1. One month forward and then one month back, or back and then
    forward, shows the month that was shown before, for a month in 1..12
    (whether or not a rebuild raises on the way). *)
Theorem next_prev_month_inverse s :
  1 ≤ month (calendar s) ≤ 12 →
  year_month (exec action_prev_month (exec action_next_month s)) = year_month s
  ∧ year_month (exec action_next_month (exec action_prev_month s)) = year_month s.
Proof.
  intros Hm. split.
  - rewrite action_prev_month_year_month.
    pose proof (action_next_month_year_month s) as Hn. unfold year_month in *.
    revert Hn. generalize (exec action_next_month s). intros s1 Hn.
    destruct (Z.eqb_spec (month (calendar s)) 12); simplify_eq;
      destruct (Z.eqb_spec (month (calendar s1)) 1); f_equal; lia.
  - rewrite action_next_month_year_month.
    pose proof (action_prev_month_year_month s) as Hn. unfold year_month in *.
    revert Hn. generalize (exec action_prev_month s). intros s1 Hn.
    destruct (Z.eqb_spec (month (calendar s)) 1); simplify_eq;
      destruct (Z.eqb_spec (month (calendar s1)) 12); f_equal; lia.
Qed.

Lemma outcome_reload_month s :
  outcome reload_month s
  = if decide (1 ≤ month (calendar s) ≤ 12)
    then if decide (1 ≤ year (calendar s) ≤ 9999) then Ok tt
         else if fits_c_int (year (calendar s)) then Raise ValueError
         else Raise OverflowError
    else Raise IllegalMonthError.
Proof.
  rewrite outcome_run. case_decide as Hm.
  - case_decide as Hy.
    + by rewrite run_reload_month.
    + destruct (run_reload_month_year_out s Hy Hm) as [c ->]. cbn [fst].
      by destruct (fits_c_int _).
  - by rewrite run_reload_month_illegal_month.
Qed.

(** X2. [reload_month] returns normally exactly when the month is in
    1..12 and the year in 1..9999. It raises [IllegalMonthError] for a
    month outside 1..12, whatever the year; for a month in 1..12 and a
    year outside 1..9999 it raises what the date constructor raises:
    [ValueError] when the year is a C [int] (-2^31 .. 2^31 - 1) and
    [OverflowError] when it is not. In the last two cases the table is
    left with its headers and no row, the cursor at the origin, no cell
    holding a date, the old title, and no message posted. *)
Theorem reload_month_failure s :
  let s' := exec reload_month s in
  outcome reload_month s
  = (if decide (1 ≤ month (calendar s) ≤ 12)
     then if decide (1 ≤ year (calendar s) ≤ 9999) then Ok tt
          else if fits_c_int (year (calendar s)) then Raise ValueError
          else Raise OverflowError
     else Raise IllegalMonthError)
  ∧ (1 ≤ month (calendar s) ≤ 12 → ¬ (1 ≤ year (calendar s) ≤ 9999) →
     rows (calendar s') = []
     ∧ columns (calendar s') = PyCalendar.day_abbr
     ∧ cursor (calendar s') = (0%nat, 0%nat)
     ∧ title (calendar s') = title (calendar s)
     ∧ posted s' = posted s
     ∧ ∀ rc d, PyDict.get rc (_cell_to_date (calendar s')) ≠ Some (Some d)).
Proof.
  intros s'. split; [apply outcome_reload_month|].
  subst s'. intros Hm Hy.
  rewrite !exec_run. destruct (run_reload_month_year_out s Hy Hm) as [c ->].
  cbn [snd]. st. split_and!; try done.
  intros rc d Hget.
  by destruct (zero_cells_lookup (year (calendar s)) (month (calendar s)) 0 c rc)
    as [Hz|Hz]; rewrite Hz in Hget.
Qed.

Lemma outcome_bind_ok {A B} (m : M A) (f : A → M B) s a s1 :
  run m s = (Ok a, s1) → outcome (m ≫= f) s = outcome (f a) s1.
Proof. unfold run, outcome, mbind, M_bind. by intros ->. Qed.

(** X3. With a month in 1..12 on display, a navigation step returns
    normally exactly when the year it leads to is in 1..9999. Otherwise
    it raises what the date constructor raises for that year:
    [ValueError] when the year is a C [int] (-2^31 .. 2^31 - 1), as when
    stepping back from January of year 1 or forward from December of
    year 9999, and [OverflowError] when it is not. *)
Theorem navigation_outcome s (k : nav) :
  1 ≤ month (calendar s) ≤ 12 →
  outcome (nav_action k) s
  = if decide (1 ≤ (nav_ym k (year_month s)).1 ≤ 9999) then Ok tt
    else if fits_c_int (nav_ym k (year_month s)).1 then Raise ValueError
    else Raise OverflowError.
Proof.
  intros Hm. unfold year_month.
  destruct k; cbn [nav_action nav_ym]; unfold prev_ym, next_ym; cbn [fst snd].
  - unfold action_prev_month. erewrite outcome_bind_ok by reflexivity.
    destruct (Z.eqb_spec (month (calendar s)) 1) as [H1|H1];
      (erewrite outcome_bind_ok by reflexivity);
      rewrite outcome_reload_month; st; cbn [fst];
      rewrite (decide_True (P := _ ≤ _ ≤ 12)) by lia; done.
  - unfold action_next_month. erewrite outcome_bind_ok by reflexivity.
    destruct (Z.eqb_spec (month (calendar s)) 12) as [H1|H1];
      (erewrite outcome_bind_ok by reflexivity);
      rewrite outcome_reload_month; st; cbn [fst];
      rewrite (decide_True (P := _ ≤ _ ≤ 12)) by lia; done.
Qed.

(** X4. After a rebuild for a month of a year in 1..9999, with a valid
    system date, the cursor is on the cell of today's day when today is in
    the month shown and on the cell of day 1 otherwise: row and column are
    quotient and remainder by 7 of that day's offset from the Monday
    before the 1st, and the cell holds that date. *)
Theorem cursor_after_reload s :
  let y := year (calendar s) in
  let m := month (calendar s) in
  let today := system_date (world s) in
  let w := PyDate.weekday (Date y m 1) in
  1 ≤ y ≤ 9999 → 1 ≤ m ≤ 12 → valid_date today →
  let day := if (d_year today =? y) && (d_month today =? m) then d_day today else 1 in
  let s' := exec reload_month s in
  cursor (calendar s') = (Z.to_nat ((w + day - 1) / 7), Z.to_nat ((w + day - 1) mod 7))
  ∧ PyDict.get (cursor (calendar s')) (_cell_to_date (calendar s'))
    = Some (Some (Date y m day)).
Proof.
  intros y m today w Hy Hm Htoday day s'. subst s'.
  pose proof (days_in_month_range y m Hm) as Hn.
  pose proof (weekday_range (Date y m 1)) as Hw. fold w in Hw.
  apply check_date_fields_inv in Htoday as (_ & _ & Hd).
  assert (1 ≤ day ≤ days_in_month y m) as Hday.
  { subst day. destruct (Z.eqb_spec (d_year today) y) as [<-|];
      destruct (Z.eqb_spec (d_month today) m) as [<-|]; cbn [andb]; lia. }
  assert (cursor (calendar (exec reload_month s))
          = (Z.to_nat ((w + day - 1) / 7), Z.to_nat ((w + day - 1) mod 7))) as Hcur.
  { rewrite exec_run, run_reload_month by done. cbn [snd]. unfold reloaded.
    st. fold y m today w. subst day.
    destruct ((d_year today =? y) && (d_month today =? m)) eqn:Hin.
    - apply andb_prop in Hin as [Hy'%Z.eqb_eq Hm'%Z.eqb_eq].
      apply cursor_target_today; (done || lia).
    - rewrite cursor_target_first by (done || lia).
      replace (w + 1 - 1) with w by lia.
      rewrite Z.div_small, Z.mod_small by lia. done. }
  split; [done|]. rewrite Hcur.
  destruct (reload_month_grid s Hy Hm) as (_ & -> & _). fold y m w.
  rewrite grid_lookup by lia.
  rewrite decide_True by (split; Z.div_mod_to_equations; lia).
  rewrite decide_True by (Z.div_mod_to_equations; lia).
  do 3 f_equal. Z.div_mod_to_equations; lia.
Qed.

(** X5. In the grid of a month of a year in 1..9999, selecting a cell
    that holds a day of the month posts [DateSelected] for that date and
    does nothing else; selecting a padding cell or a coordinate outside
    the grid does nothing at all. *)
Theorem cell_selection s (r c : nat) :
  let y := year (calendar s) in
  let m := month (calendar s) in
  let w := PyDate.weekday (Date y m 1) in
  let n := days_in_month y m in
  let day := 7 * Z.of_nat r + Z.of_nat c - w + 1 in
  1 ≤ y ≤ 9999 → 1 ≤ m ≤ 12 →
  let s' := exec reload_month s in
  run (on_data_table_cell_selected r c) s'
  = (Ok tt,
     if decide ((c < 7)%nat ∧ 1 ≤ day ≤ n)
     then with_posted (posted s' ++ [DateSelected (Date y m day)]) s'
     else s').
Proof.
  intros y m w n day Hy Hm s'. subst s'.
  pose proof (days_in_month_range y m Hm) as Hn. fold n in Hn.
  pose proof (weekday_range (Date y m 1)) as Hw. fold w in Hw.
  destruct (reload_month_grid s Hy Hm) as (_ & Hcells & _). revert Hcells.
  generalize (exec reload_month s). intros s' Hcells.
  unfold on_data_table_cell_selected. msteps. rewrite Hcells. fold y m w n.
  rewrite grid_lookup by lia. fold day.
  destruct (decide (Z.of_nat r < (w + n + 6) / 7 ∧ (c < 7)%nat)) as [[Hr Hc]|Hrc].
  - destruct (decide (1 ≤ day ≤ n)) as [Hd|Hd].
    + by rewrite decide_True by done.
    + by rewrite decide_False by (intros [_ ?]; done).
  - rewrite decide_False; [done|]. intros [Hc Hd]. apply Hrc. split; [|done].
    subst day. Z.div_mod_to_equations. lia.
Qed.

Lemma run_try_ok (body handler : M unit) s s1 :
  run body s = (Ok tt, s1) → run (try_except body handler) s = (Ok tt, s1).
Proof. unfold run, try_except. by intros ->. Qed.

(** X6. After a rebuild for a month of a year in 1..9999 the title of the
    table is the month's name and the year, [MonthChanged] for that year
    and month is the one message posted, and handling it sets the label
    over the calendar to the same text, as [on_mount] of the application
    does from the fields of the calendar. *)
Theorem title_and_label s :
  let y := year (calendar s) in
  let m := month (calendar s) in
  1 ≤ y ≤ 9999 → 1 ≤ m ≤ 12 →
  let s' := exec reload_month s in
  title (calendar s') = PyCalendar.month_name m +:+ " " +:+ pretty y
  ∧ posted s' = posted s ++ [MonthChanged y m]
  ∧ run (dispatch (MonthChanged y m)) s' = (Ok tt, with_calendar_title (title (calendar s')) s')
  ∧ run on_mount s' = (Ok tt, with_calendar_title (title (calendar s')) s').
Proof.
  intros y m Hy Hm s'. subst s'. rewrite exec_run, run_reload_month by done. cbn [snd].
  unfold reloaded. fold y m. st. split_and!; try done.
  - unfold dispatch, on_calendar_table_month_changed.
    rewrite run_bind, month_name_at_ok by done. cbn beta iota. reflexivity.
  - unfold on_mount. apply run_try_ok. msteps. st.
    rewrite run_bind, month_name_at_ok by done. cbn beta iota. reflexivity.
Qed.

(** *** The effect of the storage and panel methods *)

Lemma run_get_tasks_for_date d s :
  run (get_tasks_for_date d) s
  = (Ok (bucket_of d (_tasks_by_date s)), with_tasks (touch d (_tasks_by_date s)) s).
Proof.
  unfold get_tasks_for_date, bucket_of, touch. rewrite run_bind. cbn.
  destruct (_tasks_by_date s !! _key_for_date d); cbn; [|done].
  by destruct s.
Qed.

Lemma run_app_get_tasks s :
  run app_get_tasks s
  = (Ok (bucket_of (current_date (todo s)) (_tasks_by_date s)),
     with_tasks (touch (current_date (todo s)) (_tasks_by_date s)) s).
Proof. unfold app_get_tasks. rewrite run_bind. cbn. apply run_get_tasks_for_date. Qed.

Lemma run_render_tasks tasks s :
  run (for_each tasks (λ t,
         modify (upd_todo (λ p, with_lv_items (lv_items p ++ [render_task t]) p)))) s
  = (Ok tt, upd_todo (λ p, with_lv_items (lv_items p ++ (render_task <$> tasks)) p) s).
Proof.
  revert s. induction tasks as [|t tasks IH]; intros s.
  - destruct s as [? ? ? [] ? ? ? ?]. unfold_state. by rewrite app_nil_r.
  - cbn [for_each]. rewrite run_bind. cbn. rewrite IH.
    destruct s as [? ? ? [] ? ? ? ?]. unfold_state. by rewrite <- app_assoc.
Qed.

Lemma run_refresh_list b s :
  run (refresh_list b) s
  = (Ok tt,
     upd_todo (refreshed b (bucket_of (current_date (todo s)) (_tasks_by_date s)))
       (with_tasks (touch (current_date (todo s)) (_tasks_by_date s)) s)).
Proof.
  unfold refresh_list. rewrite run_bind. cbn.
  rewrite run_bind, run_app_get_tasks. cbn.
  rewrite run_bind, run_render_tasks. cbn.
  unfold refreshed.
  destruct (b && nonempty _); destruct s as [? ? ? [] ? ? ? ?];
    unfold try_except, mbind, M_bind; by unfold_state.
Qed.

Lemma run_save_all_tasks s : run save_all_tasks s = (Ok tt, saved s).
Proof.
  unfold save_all_tasks, saved, try_except, write_text, mbind, M_bind. unfold_state.
  destruct (write_fault (world s)); reflexivity.
Qed.

Lemma run_set_date d s :
  run (set_date d) s
  = (Ok tt,
     upd_todo (refreshed false (bucket_of d (_tasks_by_date s)))
       (with_tasks (touch d (_tasks_by_date s)) (upd_todo (with_current_date d) s))).
Proof. unfold set_date. rewrite run_bind. cbn. by rewrite run_refresh_list. Qed.

(** *** The day rollover *)

Lemma run_try_pass (m : M unit) s : run (try_except m pass) s = (Ok tt, exec m s).
Proof.
  unfold run, exec, try_except, pass. destruct (m s) as [[[]|e] s']; reflexivity.
Qed.

Lemma exec_bind {A B} (m : M A) (f : A → M B) s :
  exec (m ≫= f) s
  = match outcome m s with
    | Ok a => exec (f a) (exec m s)
    | Raise _ => exec m s
    end.
Proof. unfold exec, outcome, mbind, M_bind. by destruct (m s) as [[a|e] s1]. Qed.

Lemma calendar_action_today_effect s :
  let s' := exec calendar_action_today s in
  _tasks_by_date s' = _tasks_by_date s ∧ _last_date s' = _last_date s
  ∧ todo s' = todo s ∧ calendar_title s' = calendar_title s
  ∧ focused s' = focused s ∧ world s' = world s
  ∧ year (calendar s') = d_year (system_date (world s))
  ∧ month (calendar s') = d_month (system_date (world s)).
Proof.
  unfold calendar_action_today.
  erewrite exec_bind_ok by reflexivity.
  erewrite exec_bind_ok by reflexivity.
  rewrite exec_bind.
  match goal with |- context [exec reload_month ?s1] =>
    pose proof (reload_month_frame s1) as Hf; revert Hf;
    generalize (exec reload_month s1); generalize (outcome reload_month s1) end.
  intros r s2 Hf. unfold calendar_frame in Hf. cbn in Hf. destruct_and!.
  destruct r as [[]|e]; [|by repeat split].
  unfold post_message, exec, modify. cbn. by repeat split.
Qed.

Lemma run_tick_same s :
  system_date (world s) = _last_date s → run _tick_day_change s = (Ok tt, s).
Proof.
  intros Heq. unfold _tick_day_change. msteps.
  rewrite bool_decide_eq_false_2; [done|]. by intros [].
Qed.

Lemma run_tick_changed s :
  system_date (world s) ≠ _last_date s →
  run _tick_day_change s
  = (Ok tt, exec (set_date (system_date (world s)))
              (exec calendar_action_today (with_last_date (system_date (world s)) s))).
Proof.
  intros Hne. unfold _tick_day_change. msteps.
  rewrite bool_decide_eq_true_2 by done. msteps.
  rewrite run_bind, run_try_pass, run_try_pass. done.
Qed.

Lemma run_action_today s :
  run action_today s
  = (Ok tt, exec (set_date (system_date (world s))) (exec calendar_action_today s)).
Proof.
  unfold action_today. rewrite run_bind, run_try_pass, run_try_pass.
  destruct (calendar_action_today_effect s) as (_ & _ & _ & _ & _ & Hw & _).
  revert Hw. generalize (exec calendar_action_today s). intros s2 Hw.
  f_equal. rewrite !exec_run. msteps. by rewrite Hw.
Qed.

(** C6. The rollover tick does nothing at all when the system date is the
    date observed last; when they differ it records the system date and
    does what the jump-to-today action does (calendar on today's year and
    month, panel on today), without raising; a second tick right after is
    a no-op. *)
Theorem tick_day_change s :
  (system_date (world s) = _last_date s → run _tick_day_change s = (Ok tt, s))
  ∧ (system_date (world s) ≠ _last_date s →
     let s' := exec _tick_day_change s in
     run _tick_day_change s
     = run action_today (with_last_date (system_date (world s)) s)
     ∧ outcome _tick_day_change s = Ok tt
     ∧ _last_date s' = system_date (world s)
     ∧ year (calendar s') = d_year (system_date (world s))
     ∧ month (calendar s') = d_month (system_date (world s))
     ∧ current_date (todo s') = system_date (world s)
     ∧ world s' = world s)
  ∧ run _tick_day_change (exec _tick_day_change s) = (Ok tt, exec _tick_day_change s).
Proof.
  assert (system_date (world s) ≠ _last_date s →
          let s' := exec _tick_day_change s in
          _last_date s' = system_date (world s)
          ∧ year (calendar s') = d_year (system_date (world s))
          ∧ month (calendar s') = d_month (system_date (world s))
          ∧ current_date (todo s') = system_date (world s)
          ∧ world s' = world s) as Hfields.
  { intros Hne s'. subst s'. rewrite !(exec_run _tick_day_change), (run_tick_changed s Hne).
    cbn [snd].
    pose proof (calendar_action_today_effect
                  (with_last_date (system_date (world s)) s)) as Hc.
    cbn zeta in Hc. revert Hc.
    generalize (exec calendar_action_today (with_last_date (system_date (world s)) s)).
    intros s2 (_ & Hl & _ & _ & _ & Hw & Hy & Hm).
    rewrite !exec_run, run_set_date. cbn [snd].
    unfold_state. rewrite Hl, Hw, Hy, Hm. by destruct s. }
  refine (conj (run_tick_same s) (conj _ _)).
  - intros Hne s'. specialize (Hfields Hne).
    split; [by rewrite run_tick_changed, run_action_today|].
    split; [rewrite outcome_run; by rewrite run_tick_changed|]. exact Hfields.
  - destruct (decide (system_date (world s) = _last_date s)) as [Heq|Hne].
    + rewrite !exec_run, (run_tick_same s Heq). cbn [snd]. by apply run_tick_same.
    + apply run_tick_same. destruct (Hfields Hne) as (-> & _ & _ & _ & ->). done.
Qed.

(** *** Adding, toggling and deleting tasks *)

Lemma clamp_index_range h n : (0 < n)%nat → 0 ≤ clamp_index h n ≤ Z.of_nat n - 1.
Proof. unfold clamp_index. lia. Qed.

Lemma nonempty_length {A} (l : list A) : nonempty l = true ↔ (0 < length l)%nat.
Proof. destruct l; cbn; split; (done || lia). Qed.

Lemma nonempty_false {A} (l : list A) : nonempty l = false ↔ l = [].
Proof. by destruct l. Qed.

Lemma list_getitem_clamp {A} (l : list A) h :
  l ≠ [] →
  ∃ x, l !! Z.to_nat (clamp_index h (length l)) = Some x
       ∧ list_getitem l (clamp_index h (length l)) = Ok x.
Proof.
  intros Hl. assert (0 < length l)%nat as Hn by (destruct l; [done|cbn; lia]).
  pose proof (clamp_index_range h _ Hn) as Hr.
  destruct (lookup_lt_is_Some_2 l (Z.to_nat (clamp_index h (length l)))) as [x Hx]; [lia|].
  exists x. split; [done|]. unfold list_getitem.
  destruct (Z.leb_spec 0 (clamp_index h (length l))); [|lia].
  destruct (Z.ltb_spec (clamp_index h (length l)) 0); [lia|]. by rewrite Hx.
Qed.

Lemma list_pop_clamp {A} (l : list A) h :
  l ≠ [] →
  list_pop l (clamp_index h (length l))
  = Ok (delete (Z.to_nat (clamp_index h (length l))) l).
Proof.
  intros Hl. assert (0 < length l)%nat as Hn by (destruct l; [done|cbn; lia]).
  pose proof (clamp_index_range h _ Hn) as Hr. unfold list_pop.
  destruct (Z.leb_spec 0 (clamp_index h (length l))); [|lia].
  destruct (Z.ltb_spec (clamp_index h (length l)) 0); [lia|].
  destruct (Z.leb_spec (Z.of_nat (length l)) (clamp_index h (length l))); [lia|done].
Qed.

Lemma bucket_of_insert d b m : bucket_of d (<[_key_for_date d := b]> m) = b.
Proof. unfold bucket_of. by rewrite lookup_insert_eq. Qed.

Lemma touch_insert d b m :
  touch d (<[_key_for_date d := b]> m) = <[_key_for_date d := b]> m.
Proof. unfold touch. by rewrite lookup_insert_eq. Qed.

Lemma insert_touch d b m :
  <[_key_for_date d := b]> (touch d m) = <[_key_for_date d := b]> m.
Proof.
  unfold touch. destruct (m !! _key_for_date d); [done|]. by rewrite insert_insert_eq.
Qed.

Lemma bucket_of_touch d m : bucket_of d (touch d m) = bucket_of d m.
Proof.
  unfold bucket_of, touch. destruct (m !! _key_for_date d) eqn:E; [by rewrite E|].
  by rewrite lookup_insert_eq.
Qed.

Lemma touch_lookup_ne d m k : k ≠ _key_for_date d → touch d m !! k = m !! k.
Proof.
  intros. unfold touch. destruct (m !! _key_for_date d); [done|].
  by rewrite lookup_insert_ne.
Qed.

Lemma run_add_task_for_date d txt s :
  run (add_task_for_date d txt) s
  = (Ok tt,
     saved (with_tasks
              (<[_key_for_date d := bucket_of d (_tasks_by_date s) ++ [mkTask (JStr txt) false]]>
                 (_tasks_by_date s)) s)).
Proof.
  unfold add_task_for_date. rewrite run_bind, run_get_tasks_for_date. cbn.
  rewrite run_bind. unfold set_bucket. cbn. rewrite run_save_all_tasks.
  unfold saved. unfold_state. by rewrite insert_touch.
Qed.

Lemma run_action_toggle_task s :
  let d := current_date (todo s) in
  let m := _tasks_by_date s in
  let b := toggled (_highlight_index (todo s)) (bucket_of d m) in
  run action_toggle_task s
  = (Ok tt,
     if nonempty (bucket_of d m)
     then saved (upd_todo (refreshed true b) (with_tasks (<[_key_for_date d := b]> m) s))
     else with_tasks (touch d m) s).
Proof.
  intros d m b. unfold action_toggle_task. rewrite run_bind, run_app_get_tasks.
  cbn beta iota. fold d m.
  destruct (nonempty (bucket_of d m)) eqn:Hne; cbn [negb]; [|done].
  assert (bucket_of d m ≠ []) as Hb by (intros E; by rewrite E in Hne).
  destruct (list_getitem_clamp _ (_highlight_index (todo s)) Hb) as (t & Ht & Hget).
  msteps. st. rewrite Hget. msteps. unfold set_bucket. msteps.
  rewrite run_bind, run_refresh_list. cbn beta iota. rewrite run_try_pass.
  rewrite exec_run, run_save_all_tasks. f_equal.
  subst b. unfold toggled. rewrite Ht. unfold flip_done. st. fold d m.
  rewrite insert_touch, bucket_of_insert, touch_insert.
  reflexivity.
Qed.

Lemma run_action_delete_task s :
  let d := current_date (todo s) in
  let m := _tasks_by_date s in
  let h := _highlight_index (todo s) in
  let b := popped h (bucket_of d m) in
  run action_delete_task s
  = (Ok tt,
     if nonempty (bucket_of d m)
     then saved (upd_todo (refreshed true b)
                   (upd_todo (with_highlight_index (clamp_index h (length b)))
                      (with_tasks (<[_key_for_date d := b]> m) s)))
     else with_tasks (touch d m) s).
Proof.
  intros d m h b. unfold action_delete_task. rewrite run_bind, run_app_get_tasks.
  cbn beta iota. fold d m.
  destruct (nonempty (bucket_of d m)) eqn:Hne; cbn [negb]; [|done].
  assert (bucket_of d m ≠ []) as Hb by (intros E; by rewrite E in Hne).
  msteps. st. fold h. rewrite (list_pop_clamp _ h Hb). msteps.
  unfold set_bucket. msteps.
  rewrite run_bind, run_refresh_list. cbn beta iota. rewrite run_try_pass.
  rewrite exec_run, run_save_all_tasks. f_equal.
  subst b. unfold popped. st. fold d m h.
  rewrite insert_touch, bucket_of_insert, touch_insert.
  reflexivity.
Qed.

Lemma run_app_add_task txt s :
  let d := current_date (todo s) in
  run (app_add_task txt) s
  = (Ok tt,
     saved (with_tasks
              (<[_key_for_date d := bucket_of d (_tasks_by_date s) ++ [mkTask (JStr txt) false]]>
                 (_tasks_by_date s)) s)).
Proof. intros d. unfold app_add_task. msteps. apply run_add_task_for_date. Qed.

Lemma run_on_input_submitted value s :
  let d := current_date (todo s) in
  let m := _tasks_by_date s in
  let txt := PyStr.strip value in
  let b := bucket_of d m ++ [mkTask (JStr txt) false] in
  run (on_input_submitted value) s
  = (Ok tt,
     if PyStr.nonempty txt
     then with_focused TodoInputW
            (upd_todo (refreshed false b)
               (upd_todo (with_input_value "")
                  (saved (with_tasks (<[_key_for_date d := b]> m) s))))
     else with_focused TodoListW s).
Proof.
  intros d m txt b. unfold on_input_submitted. fold txt.
  destruct (PyStr.nonempty txt).
  - rewrite run_bind, run_app_add_task. cbn beta iota. msteps.
    rewrite run_bind, run_refresh_list. cbn beta iota.
    unfold focus. msteps. st. fold d m b.
    rewrite bucket_of_insert, touch_insert. reflexivity.
  - by rewrite run_try_pass.
Qed.

Lemma run_on_list_view_highlighted i s :
  run (on_list_view_highlighted (Some i)) s
  = (Ok tt, upd_todo (with_highlight_index i) s).
Proof. reflexivity. Qed.

Lemma toggled_length h b : length (toggled h b) = length b.
Proof. unfold toggled. case_match; [by rewrite length_insert|done]. Qed.

Lemma flip_done_involutive t : flip_done (flip_done t) = t.
Proof. destruct t as [x []]; reflexivity. Qed.

Lemma toggled_involutive h b : toggled h (toggled h b) = b.
Proof.
  unfold toggled at 1. rewrite toggled_length. unfold toggled.
  destruct (b !! Z.to_nat (clamp_index h (length b))) as [t|] eqn:E; [|by rewrite E].
  rewrite list_lookup_insert_eq by (by eapply lookup_lt_Some).
  rewrite list_insert_insert_eq, flip_done_involutive. by apply list_insert_id.
Qed.

Lemma toggled_texts h b : text <$> toggled h b = text <$> b.
Proof.
  unfold toggled. case_match eqn:E; [|done].
  rewrite list_fmap_insert. cbn. apply list_insert_id.
  by rewrite list_lookup_fmap, E.
Qed.

Lemma nonempty_toggled h b : nonempty (toggled h b) = nonempty b.
Proof.
  pose proof (toggled_length h b) as Hl. revert Hl.
  generalize (toggled h b). intros b' Hl. destruct b, b'; cbn in *; congruence.
Qed.

(** C10. Toggling twice with the same highlight restores the mapping: on a
    non-empty bucket the first toggle flips the flag of the task under the
    clamped index and nothing else, the second one flips it back; the
    highlight does not move in between and neither call raises. *)
Theorem toggle_twice_restores s bucket :
  _tasks_by_date s !! _key_for_date (current_date (todo s)) = Some bucket →
  bucket ≠ [] →
  let s1 := exec action_toggle_task s in
  let s2 := exec action_toggle_task s1 in
  let i := Z.to_nat (clamp_index (_highlight_index (todo s)) (length bucket)) in
  outcome action_toggle_task s = Ok tt
  ∧ outcome action_toggle_task s1 = Ok tt
  ∧ (∃ t, bucket !! i = Some t
          ∧ _tasks_by_date s1
            = <[_key_for_date (current_date (todo s)) := <[i := flip_done t]> bucket]>
                (_tasks_by_date s))
  ∧ _highlight_index (todo s1) = _highlight_index (todo s)
  ∧ _tasks_by_date s2 = _tasks_by_date s
  ∧ _highlight_index (todo s2) = _highlight_index (todo s)
  ∧ current_date (todo s2) = current_date (todo s).
Proof.
  intros Hm Hb s1 s2 i.
  assert (bucket_of (current_date (todo s)) (_tasks_by_date s) = bucket) as Hbo
    by (unfold bucket_of; by rewrite Hm).
  assert (nonempty bucket = true) as Hne by (by destruct bucket).
  assert (s1 = saved (upd_todo (refreshed true (toggled (_highlight_index (todo s)) bucket))
                (with_tasks (<[_key_for_date (current_date (todo s))
                               := toggled (_highlight_index (todo s)) bucket]>
                               (_tasks_by_date s)) s))) as Hs1.
  { subst s1. unfold exec. rewrite run_action_toggle_task. cbn [snd].
    by rewrite Hbo, Hne. }
  assert (_highlight_index (todo s1) = _highlight_index (todo s)
          ∧ current_date (todo s1) = current_date (todo s)
          ∧ _tasks_by_date s1
            = <[_key_for_date (current_date (todo s))
                := toggled (_highlight_index (todo s)) bucket]> (_tasks_by_date s))
    as (Hh1 & Hd1 & Hm1) by (by rewrite Hs1).
  assert (bucket_of (current_date (todo s1)) (_tasks_by_date s1)
          = toggled (_highlight_index (todo s)) bucket) as Hbo1
    by (by rewrite Hd1, Hm1, bucket_of_insert).
  assert (s2 = saved (upd_todo (refreshed true bucket)
                (with_tasks (<[_key_for_date (current_date (todo s)) := bucket]>
                               (_tasks_by_date s1)) s1))) as Hs2.
  { subst s2. unfold exec. rewrite run_action_toggle_task. cbn [snd].
    rewrite Hbo1, nonempty_toggled, Hne, Hh1, Hd1, toggled_involutive. done. }
  split; [unfold outcome; by rewrite run_action_toggle_task|].
  split; [unfold outcome; by rewrite run_action_toggle_task|].
  split.
  { destruct (list_getitem_clamp bucket (_highlight_index (todo s)) Hb) as (t & Ht & _).
    exists t. split; [done|]. rewrite Hm1. unfold toggled. fold i. fold i in Ht.
    by rewrite Ht. }
  split; [done|].
  split.
  { rewrite Hs2. cbn. rewrite Hm1, insert_insert_eq. by apply insert_id. }
  split; [by rewrite Hs2|]. by rewrite Hs2.
Qed.

Lemma toggled_nil h : toggled h [] = [].
Proof. reflexivity. Qed.

Lemma popped_nil h : popped h [] = [].
Proof. reflexivity. Qed.

Lemma panel_step_effect o s :
  let d := current_date (todo s) in
  let s' := exec (panel_step o) s in
  outcome (panel_step o) s = Ok tt
  ∧ current_date (todo s') = d
  ∧ bucket_of d (_tasks_by_date s')
    = step_bucket o (_highlight_index (todo s)) (bucket_of d (_tasks_by_date s))
  ∧ ∀ k, k ≠ _key_for_date d → _tasks_by_date s' !! k = _tasks_by_date s !! k.
Proof.
  intros d s'. subst s'. rewrite outcome_run, !exec_run.
  destruct o as [txt|value| | |i]; cbn [panel_step step_bucket].
  - rewrite run_app_add_task. st. fold d. rewrite bucket_of_insert.
    repeat split. intros k Hk. by rewrite lookup_insert_ne.
  - rewrite run_on_input_submitted. cbn [fst snd]. fold d.
    destruct (PyStr.nonempty (PyStr.strip value)); st; fold d.
    + rewrite bucket_of_insert. repeat split. intros k Hk. by rewrite lookup_insert_ne.
    + done.
  - rewrite run_action_toggle_task. cbn [fst snd]. fold d.
    destruct (nonempty (bucket_of d (_tasks_by_date s))) eqn:Hne; st; fold d.
    + rewrite bucket_of_insert. repeat split. intros k Hk. by rewrite lookup_insert_ne.
    + apply nonempty_false in Hne. rewrite bucket_of_touch, Hne, toggled_nil.
      repeat split. intros k Hk. by apply touch_lookup_ne.
  - rewrite run_action_delete_task. cbn [fst snd]. fold d.
    destruct (nonempty (bucket_of d (_tasks_by_date s))) eqn:Hne; st; fold d.
    + rewrite bucket_of_insert. repeat split. intros k Hk. by rewrite lookup_insert_ne.
    + apply nonempty_false in Hne. rewrite bucket_of_touch, Hne, popped_nil.
      repeat split. intros k Hk. by apply touch_lookup_ne.
  - rewrite run_on_list_view_highlighted. st. done.
Qed.

Lemma step_bucket_texts o h b :
  (text <$> step_bucket o h b) `sublist_of` (text <$> b) ++ added_texts [o].
Proof.
  unfold added_texts. rewrite bind_cons. change ([] ≫= _) with (@nil json).
  destruct o as [txt|value| | |i]; cbn [step_bucket app]; rewrite ?app_nil_r.
  - by rewrite fmap_app.
  - destruct (PyStr.nonempty (PyStr.strip value)).
    + by rewrite fmap_app.
    + by rewrite app_nil_r.
  - by rewrite toggled_texts.
  - unfold popped. rewrite list_fmap_delete. apply sublist_delete.
  - done.
Qed.

Lemma run_ops_effect ops s :
  let d := current_date (todo s) in
  current_date (todo (run_ops ops s)) = d
  ∧ (text <$> bucket_of d (_tasks_by_date (run_ops ops s)))
      `sublist_of` (text <$> bucket_of d (_tasks_by_date s)) ++ added_texts ops
  ∧ ∀ k, k ≠ _key_for_date d → _tasks_by_date (run_ops ops s) !! k = _tasks_by_date s !! k.
Proof.
  revert s. induction ops as [|o ops IH]; intros s d.
  - cbn. rewrite app_nil_r. done.
  - destruct (panel_step_effect o s) as (_ & Hd & Hb & Hk). fold d in Hd, Hb, Hk.
    specialize (IH (exec (panel_step o) s)). cbn zeta in IH. rewrite Hd in IH.
    destruct IH as (IHd & IHb & IHk).
    change (run_ops (o :: ops) s) with (run_ops ops (exec (panel_step o) s)).
    split; [done|]. split.
    + etrans; [exact IHb|]. rewrite Hb.
      change (o :: ops) with ([o] ++ ops). unfold added_texts at 2.
      rewrite bind_app. fold (added_texts [o]) (added_texts ops).
      rewrite app_assoc. apply sublist_app; [apply step_bucket_texts|done].
    + intros k Hne. rewrite IHk by done. by apply Hk.
Qed.

(** C7. On the bucket of the selected date, toggle changes the [done] flag
    of the task under the clamped index and nothing else (same length,
    every other position untouched), delete removes exactly that task
    (the tasks before and after it stay, in order), add appends at the
    end; so after any run of add, toggle, delete and highlight moves the
    texts of the bucket are, in order, a sub-sequence of the texts that
    were there followed by the texts added, and the other buckets are
    what they were. *)
Theorem task_order_preserved s ops :
  let d := current_date (todo s) in
  let b := bucket_of d (_tasks_by_date s) in
  let i := Z.to_nat (clamp_index (_highlight_index (todo s)) (length b)) in
  (let b' := bucket_of d (_tasks_by_date (exec action_toggle_task s)) in
   length b' = length b
   ∧ (∀ j, j ≠ i → b' !! j = b !! j)
   ∧ b' !! i = flip_done <$> b !! i
   ∧ text <$> b' = text <$> b)
  ∧ bucket_of d (_tasks_by_date (exec action_delete_task s)) = take i b ++ drop (S i) b
  ∧ (∀ txt, bucket_of d (_tasks_by_date (exec (app_add_task txt) s))
            = b ++ [mkTask (JStr txt) false])
  ∧ (text <$> bucket_of d (_tasks_by_date (run_ops ops s)))
      `sublist_of` (text <$> b) ++ added_texts ops
  ∧ (∀ k, k ≠ _key_for_date d →
          _tasks_by_date (run_ops ops s) !! k = _tasks_by_date s !! k).
Proof.
  intros d b i.
  destruct (panel_step_effect OpToggle s) as (_ & _ & Ht & _).
  destruct (panel_step_effect OpDelete s) as (_ & _ & Hdel & _).
  destruct (run_ops_effect ops s) as (_ & Hseq & Hother).
  cbn [panel_step step_bucket] in *. fold d b in Ht, Hdel, Hseq, Hother.
  refine (conj _ (conj _ (conj _ (conj Hseq Hother)))).
  - cbn zeta. rewrite Ht. split; [apply toggled_length|].
    split; [|split; [|apply toggled_texts]].
    + intros j Hj. unfold toggled. fold i. case_match; [|done].
      by rewrite list_lookup_insert_ne.
    + unfold toggled. fold i. destruct (b !! i) as [t|] eqn:E; [|by rewrite E].
      rewrite list_lookup_insert_eq by (by eapply lookup_lt_Some). done.
  - rewrite Hdel. unfold popped. fold i. apply delete_take_drop.
  - intros txt. destruct (panel_step_effect (OpAdd txt) s) as (_ & _ & Ha & _).
    exact Ha.
Qed.

(** C9. With a disk on which [write_text] raises, the write inside
    [save_all_tasks] does raise, and yet add, toggle and delete return
    normally with the mapping mutated exactly as with a working disk: the
    new task appended, the flag flipped, the task removed; the file is
    left as the failed write left it. *)
Theorem write_failure_is_swallowed s remains d txt :
  write_fault (world s) = Some remains →
  let m := _tasks_by_date s in
  let dc := current_date (todo s) in
  let h := _highlight_index (todo s) in
  (∀ t, outcome (write_text t) s = Raise OSError)
  ∧ run save_all_tasks s = (Ok tt, with_world (with_persist_file remains (world s)) s)
  ∧ (outcome (add_task_for_date d txt) s = Ok tt
     ∧ _tasks_by_date (exec (add_task_for_date d txt) s)
       = <[_key_for_date d := bucket_of d m ++ [mkTask (JStr txt) false]]> m
     ∧ persist_file (world (exec (add_task_for_date d txt) s)) = remains)
  ∧ (outcome action_toggle_task s = Ok tt
     ∧ (bucket_of dc m ≠ [] →
        _tasks_by_date (exec action_toggle_task s)
        = <[_key_for_date dc := toggled h (bucket_of dc m)]> m
        ∧ persist_file (world (exec action_toggle_task s)) = remains))
  ∧ (outcome action_delete_task s = Ok tt
     ∧ (bucket_of dc m ≠ [] →
        _tasks_by_date (exec action_delete_task s)
        = <[_key_for_date dc := popped h (bucket_of dc m)]> m
        ∧ persist_file (world (exec action_delete_task s)) = remains)).
Proof.
  intros Hw m dc h.
  assert (∀ b : list Task, b ≠ [] → nonempty b = true) as Hne by (by intros []).
  refine (conj _ (conj _ (conj _ (conj _ _)))).
  - intros t. rewrite outcome_run. unfold write_text, run. by rewrite Hw.
  - rewrite run_save_all_tasks. unfold saved. by rewrite Hw.
  - rewrite outcome_run, !exec_run, run_add_task_for_date. st. by rewrite Hw.
  - rewrite outcome_run, !exec_run, run_action_toggle_task. cbn [fst snd].
    split; [done|]. intros Hb. fold dc m h. rewrite (Hne _ Hb). st. by rewrite Hw.
  - rewrite outcome_run, !exec_run, run_action_delete_task. cbn [fst snd].
    split; [done|]. intros Hb. fold dc m h. rewrite (Hne _ Hb). st. by rewrite Hw.
Qed.

(** C3 (as amended). The store-level add appends one task with
    [done = False] at the end of the bucket of its date whatever the text
    is, blank text included, and leaves the tasks already there and the
    other buckets alone. The no-op on blank text is in the panel's submit
    handler: it trims the input, leaves the mapping unchanged when
    nothing remains, and otherwise adds the trimmed text for the selected
    date. *)
Theorem add_task_effect s d txt value :
  let m := _tasks_by_date s in
  let dc := current_date (todo s) in
  let sa := exec (add_task_for_date d txt) s in
  let ss := exec (on_input_submitted value) s in
  (bucket_of d (_tasks_by_date sa) = bucket_of d m ++ [mkTask (JStr txt) false]
   ∧ _tasks_by_date sa
     = <[_key_for_date d := bucket_of d m ++ [mkTask (JStr txt) false]]> m
   ∧ ∀ k, k ≠ _key_for_date d → _tasks_by_date sa !! k = m !! k)
  ∧ (PyStr.strip value = ""%string → _tasks_by_date ss = m)
  ∧ (PyStr.strip value ≠ ""%string →
     bucket_of dc (_tasks_by_date ss)
     = bucket_of dc m ++ [mkTask (JStr (PyStr.strip value)) false]
     ∧ _tasks_by_date ss
       = <[_key_for_date dc := bucket_of dc m ++ [mkTask (JStr (PyStr.strip value)) false]]> m
     ∧ ∀ k, k ≠ _key_for_date dc → _tasks_by_date ss !! k = m !! k).
Proof.
  intros m dc sa ss. subst sa ss.
  rewrite !exec_run, run_add_task_for_date, run_on_input_submitted. cbn [snd].
  fold m dc. refine (conj _ (conj _ _)).
  - st. rewrite bucket_of_insert. repeat split. intros k Hk. by rewrite lookup_insert_ne.
  - intros ->. done.
  - intros Hv. assert (PyStr.nonempty (PyStr.strip value) = true) as ->
      by (by destruct (PyStr.strip value)).
    st. fold m dc. rewrite bucket_of_insert. repeat split.
    intros k Hk. by rewrite lookup_insert_ne.
Qed.

(** C2 (as amended). The index toggle and delete act on is the stored
    highlight clamped to the list, which is within range on a non-empty
    list: toggle flips the task at that position and leaves every other
    position as it was, delete removes the task at that position and
    keeps the tasks before and after it. The stored highlight itself is
    re-clamped by delete only: after a delete on a non-empty list it is
    within the range of the shorter list, and 0 when that list is empty.
    Toggle, a date switch, and toggle or delete on an empty list leave the
    stored highlight as it was; after a toggle on a non-empty list the
    index given to the list view is the clamped one. *)
Theorem highlight_index_clamping s d :
  let h := _highlight_index (todo s) in
  let b := bucket_of (current_date (todo s)) (_tasks_by_date s) in
  let i := Z.to_nat (clamp_index h (length b)) in
  let st := exec action_toggle_task s in
  let sd := exec action_delete_task s in
  let ss := exec (set_date d) s in
  let bt := bucket_of (current_date (todo st)) (_tasks_by_date st) in
  let b' := bucket_of (current_date (todo sd)) (_tasks_by_date sd) in
  (b ≠ [] → 0 ≤ clamp_index h (length b) ≤ Z.of_nat (length b) - 1)
  ∧ (_highlight_index (todo sd)
     = if nonempty b then clamp_index h (length b - 1) else h)
  ∧ (b ≠ [] →
     length b' = (length b - 1)%nat
     ∧ (b' ≠ [] → 0 ≤ _highlight_index (todo sd) ≤ Z.of_nat (length b') - 1)
     ∧ (b' = [] → _highlight_index (todo sd) = 0))
  ∧ _highlight_index (todo st) = h
  ∧ (b ≠ [] → lv_index (todo st) = Some (clamp_index h (length b)))
  ∧ _highlight_index (todo ss) = h
  ∧ (length bt = length b
     ∧ bt !! i = flip_done <$> b !! i
     ∧ ∀ j, j ≠ i → bt !! j = b !! j)
  ∧ b' = take i b ++ drop (S i) b.
Proof.
  intros h b i st0 sd ss bt b'. subst st0 sd ss bt b'.
  assert (∀ l : list Task, l ≠ [] → nonempty l = true ∧ (0 < length l)%nat) as Hne.
  { intros [|? ?] ?; [done|]. split; [done|cbn; lia]. }
  assert (length (popped h b) = (length b - 1)%nat) as Hlen.
  { unfold popped. destruct (decide (b = [])) as [->|Hb]; [done|].
    destruct (Hne _ Hb) as [_ Hl]. pose proof (clamp_index_range h _ Hl).
    rewrite length_delete; [done|]. apply lookup_lt_is_Some_2. lia. }
  rewrite !exec_run, run_action_toggle_task, run_action_delete_task, run_set_date.
  cbn [snd]. fold h b.
  refine (conj _ (conj _ (conj _ (conj _ (conj _ (conj _ (conj _ _))))))).
  - intros Hb. apply clamp_index_range. by apply Hne.
  - destruct (nonempty b); st; [by rewrite Hlen|done].
  - intros Hb. destruct (Hne _ Hb) as [-> Hl]. st. fold h b.
    rewrite bucket_of_insert. split; [done|]. split.
    + intros Hb'. apply clamp_index_range. by apply Hne.
    + intros ->. unfold clamp_index. cbn. lia.
  - destruct (nonempty b); by st.
  - intros Hb. destruct (Hne _ Hb) as [-> Hl]. st. fold h b.
    by rewrite nonempty_toggled, (proj1 (Hne _ Hb)), toggled_length.
  - by st.
  - assert (bucket_of (current_date (todo s))
              (_tasks_by_date
                 (if nonempty b
                  then saved
                         (upd_todo (refreshed true (toggled h b))
                            (with_tasks
                               (<[_key_for_date (current_date (todo s)) := toggled h b]>
                                  (_tasks_by_date s)) s))
                  else with_tasks (touch (current_date (todo s)) (_tasks_by_date s)) s))
            = toggled h b) as Hbt.
    { destruct (nonempty b) eqn:Hnb; st.
      - apply bucket_of_insert.
      - rewrite bucket_of_touch. fold b. apply nonempty_false in Hnb.
        by rewrite Hnb, toggled_nil. }
    assert (current_date
              (todo (if nonempty b
                     then saved
                            (upd_todo (refreshed true (toggled h b))
                               (with_tasks
                                  (<[_key_for_date (current_date (todo s)) := toggled h b]>
                                     (_tasks_by_date s)) s))
                     else with_tasks (touch (current_date (todo s)) (_tasks_by_date s)) s))
            = current_date (todo s)) as -> by (destruct (nonempty b); by st).
    rewrite Hbt. clear Hbt. split; [apply toggled_length|]. split.
    + unfold toggled. fold i. destruct (b !! i) as [t|] eqn:E; [|by rewrite E].
      rewrite list_lookup_insert_eq by (by eapply lookup_lt_Some). done.
    + intros j Hj. unfold toggled. fold i. case_match; [|done].
      by rewrite list_lookup_insert_ne.
  - destruct (nonempty b) eqn:Hnb; st; fold h b.
    + rewrite bucket_of_insert. unfold popped. fold i. apply delete_take_drop.
    + rewrite bucket_of_touch. fold b. apply nonempty_false in Hnb.
      by rewrite Hnb, take_nil, drop_nil.
Qed.

(** *** Loading and saving *)

Lemma load_bucket_eq acc k j :
  load_bucket acc (k, j) = bucket_of_json j ≫= λ b, Ok (<[k := b]> acc).
Proof. reflexivity. Qed.

Lemma task_of_json_obj o :
  task_of_json (JObj o)
  = Ok (mkTask (default (JStr "") (o !! "text"%string))
               (PyValue.truthy (default (JBool false) (o !! "done"%string)))).
Proof. reflexivity. Qed.

Lemma task_of_to_json t : task_of_json (task_to_json t) = Ok t.
Proof.
  unfold task_to_json. rewrite task_of_json_obj.
  rewrite lookup_insert_eq, lookup_insert_ne by done.
  rewrite lookup_insert_eq. by destruct t.
Qed.

Lemma list_comp_ok {A B} (f : A → res B) (g : A → B) l :
  (∀ x, x ∈ l → f x = Ok (g x)) → list_comp f l = Ok (g <$> l).
Proof.
  induction l as [|x l IH]; intros H; [done|]. cbn.
  rewrite (H x) by left. cbn. rewrite IH; [done|].
  intros y Hy. apply H. by right.
Qed.

Lemma list_comp_lookup {A B} (f : A → res B) l r :
  list_comp f l = Ok r →
  length r = length l ∧ ∀ i x, l !! i = Some x → ∃ y, f x = Ok y ∧ r !! i = Some y.
Proof.
  revert r. induction l as [|x l IH]; intros r; cbn.
  - intros [= <-]. split; [done|]. by intros i x' ?.
  - destruct (f x) as [y|e] eqn:Ef; cbn; [|done].
    destruct (list_comp f l) as [ys|e]; cbn; [|done].
    intros [= <-]. destruct (IH ys eq_refl) as [Hl Hi]. split; [cbn; by rewrite Hl|].
    intros [|i] x' Hx; cbn in *; [|by apply Hi].
    injection Hx as <-. by exists y.
Qed.

Lemma bucket_of_json_tasks v : bucket_of_json (JArr (task_to_json <$> v)) = Ok v.
Proof.
  unfold bucket_of_json. cbn [PyValue.iter mbind res_bind].
  induction v as [|t v IH]; [done|].
  rewrite fmap_cons. cbn [list_comp]. rewrite task_of_to_json.
  cbn [mbind res_bind]. by rewrite IH.
Qed.

(** The loading loop: it succeeds exactly when every bucket loads, and then
    holds, under each key of the document, what its bucket loads as. *)
Lemma for_acc_load_bucket l acc r :
  NoDup l.*1 →
  for_acc load_bucket l acc = Ok r →
  (∀ k j, (k, j) ∈ l → ∃ b, bucket_of_json j = Ok b ∧ r !! k = Some b)
  ∧ (∀ k, k ∉ l.*1 → r !! k = acc !! k).
Proof.
  revert acc. induction l as [|[k0 j0] l IH]; intros acc Hnd Hr.
  - injection Hr as <-. split; [by intros k j ?%elem_of_nil|done].
  - rewrite fmap_cons in Hnd. apply NoDup_cons in Hnd as [Hk0 Hnd].
    cbn [for_acc] in Hr. rewrite load_bucket_eq in Hr.
    destruct (bucket_of_json j0) as [b0|e] eqn:Eb;
      rewrite ?res_bind_ok, ?res_bind_raise in Hr; [|done].
    destruct (IH _ Hnd Hr) as [Hin Hout]. split.
    + intros k j [[= -> ->]|Hkj]%elem_of_cons.
      * exists b0. split; [done|]. rewrite Hout by done. apply lookup_insert_eq.
      * by apply Hin.
    + intros k Hk. rewrite fmap_cons in Hk. apply not_elem_of_cons in Hk as [Hne Hk].
      rewrite Hout by done. by rewrite lookup_insert_ne.
Qed.

Lemma for_acc_load_bucket_ok l acc :
  (∀ k j, (k, j) ∈ l → is_ok (bucket_of_json j) = true) →
  is_ok (for_acc load_bucket l acc) = true.
Proof.
  revert acc. induction l as [|[k0 j0] l IH]; intros acc H; [done|].
  cbn [for_acc]. rewrite load_bucket_eq.
  pose proof (H k0 j0 ltac:(left)) as H0.
  destruct (bucket_of_json j0); [|done]. rewrite !res_bind_ok. apply IH.
  intros k j Hkj. apply (H k j). by right.
Qed.

Lemma tasks_of_document_lookup o r :
  tasks_of_document (JObj o) = Ok r →
  ∀ k, match o !! k with
       | Some j => ∃ b, bucket_of_json j = Ok b ∧ r !! k = Some b
       | None => r !! k = None
       end.
Proof.
  unfold tasks_of_document. cbn. intros Hr k.
  destruct (for_acc_load_bucket _ _ _ (NoDup_fst_map_to_list o) Hr) as [Hin Hout].
  destruct (o !! k) as [j|] eqn:E.
  - apply Hin. by apply elem_of_map_to_list.
  - rewrite Hout; [done|]. intros [[k' j] [-> Hkj]]%list_elem_of_fmap.
    apply elem_of_map_to_list in Hkj. cbn in E. congruence.
Qed.

Lemma tasks_of_document_serializable m :
  tasks_of_document (serializable m) = Ok (filter (λ kv, nonempty kv.2 = true) m).
Proof.
  unfold serializable.
  set (o := (λ v, JArr (task_to_json <$> v)) <$> filter (λ kv, nonempty kv.2 = true) m).
  assert (is_ok (tasks_of_document (JObj o)) = true) as Hok.
  { unfold tasks_of_document. cbn. apply for_acc_load_bucket_ok.
    intros k j Hkj%elem_of_map_to_list. subst o.
    apply lookup_fmap_Some in Hkj as (v & <- & _). by rewrite bucket_of_json_tasks. }
  destruct (tasks_of_document (JObj o)) as [r|e] eqn:Er; [|done].
  f_equal. apply map_eq. intros k.
  pose proof (tasks_of_document_lookup o r Er k) as Hk. subst o.
  rewrite lookup_fmap in Hk.
  destruct (filter _ m !! k) as [v|]; cbn [fmap option_fmap option_map] in Hk; [|done].
  destruct Hk as (b & Hb & ->). rewrite bucket_of_json_tasks in Hb. congruence.
Qed.

Lemma tasks_or_empty (m : gmap string (list Task)) :
  (if (size m =? 0)%nat then ∅ else m) = m.
Proof.
  destruct (Nat.eqb_spec (size m) 0) as [H|]; [|done].
  symmetry. by apply map_size_empty_iff.
Qed.

Lemma with_tasks_same s : with_tasks (_tasks_by_date s) s = s.
Proof. by destruct s. Qed.

Lemma run_try_except (body handler : M unit) s :
  run (try_except body handler) s
  = match run body s with
    | (Ok a, s') => (Ok a, s')
    | (Raise _, s') => run handler s'
    end.
Proof. reflexivity. Qed.

Lemma run_load_fallback s :
  run (modify (λ s, with_tasks (if (size (_tasks_by_date s) =? 0)%nat then ∅
                                else _tasks_by_date s) s)) s
  = (Ok tt, s).
Proof. unfold run, modify. by rewrite tasks_or_empty, with_tasks_same. Qed.

Lemma run_load_all_tasks s : run _load_all_tasks s = (Ok tt, after_load s).
Proof.
  unfold _load_all_tasks, after_load. rewrite run_try_except.
  unfold path_exists. msteps.
  destruct (persist_file (world s)) as [t|] eqn:Ef.
  2: { rewrite bool_decide_eq_false_2 by (by intros [? ?]). by rewrite run_pass. }
  rewrite bool_decide_eq_true_2 by eauto.
  assert (run read_text s
          = if read_fault (world s) then (Raise OSError, s) else (Ok t, s)) as Hread
    by (unfold read_text, run; by rewrite Ef).
  rewrite run_bind, Hread.
  destruct (read_fault (world s)); [apply run_load_fallback|].
  destruct (json_loads t) as [data|e]; rewrite ?res_bind_ok, ?res_bind_raise.
  2: { rewrite run_bind. apply run_load_fallback. }
  msteps. destruct (tasks_of_document data) as [loaded|e].
  - by msteps.
  - rewrite run_bind. apply run_load_fallback.
Qed.

Lemma run_app_init s :
  run app_init s
  = (Ok tt, with_last_date (system_date (world s)) (after_load (with_tasks ∅ s))).
Proof.
  unfold app_init. msteps. rewrite run_bind, run_load_all_tasks. cbn beta iota.
  msteps. unfold run, modify. do 2 f_equal.
  unfold after_load. st. by repeat case_match.
Qed.

(** C1. With a codec under which [loads] undoes [dumps] and a disk that
    reads and writes, saving and then loading returns normally and leaves
    the mapping restricted to the dates that have a task: a non-empty
    bucket comes back as it was (same tasks, texts, flags, order), a key
    with an empty bucket is gone, and no key appears. *)
Theorem save_load_round_trip s :
  (∀ j, json_loads (json_dumps j) = Ok j) →
  write_fault (world s) = None →
  read_fault (world s) = false →
  let m := _tasks_by_date s in
  let s' := exec (save_all_tasks;; _load_all_tasks) s in
  outcome (save_all_tasks;; _load_all_tasks) s = Ok tt
  ∧ _tasks_by_date s' = filter (λ kv, nonempty kv.2 = true) m
  ∧ (∀ k b, m !! k = Some b → b ≠ [] → _tasks_by_date s' !! k = Some b)
  ∧ (∀ k, m !! k = Some [] → _tasks_by_date s' !! k = None)
  ∧ (∀ k, m !! k = None → _tasks_by_date s' !! k = None).
Proof.
  intros Hcodec Hw Hr m s'.
  assert (run (save_all_tasks;; _load_all_tasks) s
          = (Ok tt, with_tasks (filter (λ kv, nonempty kv.2 = true) m) (saved s))) as Hrun.
  { rewrite run_bind, run_save_all_tasks. cbn beta iota. rewrite run_load_all_tasks.
    f_equal. unfold after_load, saved. st. rewrite Hw, Hr, Hcodec.
    rewrite res_bind_ok, tasks_of_document_serializable. done. }
  subst s'. rewrite outcome_run, !exec_run, Hrun. cbn [fst snd]. st.
  split; [done|]. split; [done|]. split; [|split].
  - intros k b Hk Hb. apply map_lookup_filter_Some. split; [done|].
    cbn. by destruct b.
  - intros k Hk. apply map_lookup_filter_None. right. intros b Hb.
    rewrite Hk in Hb. injection Hb as <-. done.
  - intros k Hk. apply map_lookup_filter_None. by left.
Qed.

Lemma list_comp_objects l :
  (∀ i, i ∈ l → ∃ e, i = JObj e) → is_ok (list_comp task_of_json l) = true.
Proof.
  induction l as [|i l IH]; intros H; [done|].
  destruct (H i ltac:(left)) as [e ->]. cbn [list_comp].
  rewrite task_of_json_obj, res_bind_ok.
  destruct (list_comp task_of_json l); [done|].
  apply IH. intros j Hj. apply H. by right.
Qed.

(** C8. Loading is tolerant. An entry that is an object loads as a task
    whatever fields it has: a missing [done] gives [False], a missing
    [text] gives the empty string, and the tasks of a bucket come in the
    order of the entries. A document whose buckets are arrays of objects
    always loads. At startup nothing is raised; the mapping is empty when
    the file is missing, cannot be read, does not parse, or has a shape
    the loading loop raises on; otherwise it is the mapping loaded. *)
Theorem tolerant_loading :
  (∀ o, task_of_json (JObj o)
        = Ok (mkTask (default (JStr "") (o !! "text"%string))
                     (PyValue.truthy (default (JBool false) (o !! "done"%string)))))
  ∧ (∀ o t, task_of_json (JObj o) = Ok t →
       (o !! "done"%string = None → done t = false)
       ∧ (o !! "text"%string = None → text t = JStr ""))
  ∧ (∀ doc r k l, tasks_of_document (JObj doc) = Ok r → doc !! k = Some (JArr l) →
       ∃ b, r !! k = Some b ∧ length b = length l
            ∧ ∀ i e, l !! i = Some (JObj e) →
                b !! i = Some (mkTask (default (JStr "") (e !! "text"%string))
                                (PyValue.truthy (default (JBool false) (e !! "done"%string)))))
  ∧ (∀ doc, (∀ k j, doc !! k = Some j → ∃ l, j = JArr l ∧ ∀ i, i ∈ l → ∃ e, i = JObj e) →
       is_ok (tasks_of_document (JObj doc)) = true)
  ∧ (∀ w, outcome app_init (initial_state w) = Ok tt)
  ∧ (∀ w, persist_file w = None →
       _tasks_by_date (exec app_init (initial_state w)) = ∅)
  ∧ (∀ w t, persist_file w = Some t →
       read_fault w = true ∨ is_ok (json_loads t ≫= tasks_of_document) = false →
       _tasks_by_date (exec app_init (initial_state w)) = ∅)
  ∧ (∀ w t data r, persist_file w = Some t → read_fault w = false →
       json_loads t = Ok data → tasks_of_document data = Ok r →
       _tasks_by_date (exec app_init (initial_state w)) = r).
Proof.
  refine (conj task_of_json_obj (conj _ (conj _ (conj _ (conj _ (conj _ (conj _ _))))))).
  - intros o t. rewrite task_of_json_obj. intros [= <-]. cbn [done text].
    split; by intros ->.
  - intros doc r k l Hr Hk.
    pose proof (tasks_of_document_lookup doc r Hr k) as H. rewrite Hk in H.
    destruct H as (b & Hb & Hrk). exists b. split; [done|].
    unfold bucket_of_json in Hb. cbn [PyValue.iter] in Hb. rewrite res_bind_ok in Hb.
    destruct (list_comp_lookup _ _ _ Hb) as [Hlen Hi]. split; [done|].
    intros i e He. destruct (Hi i _ He) as (y & Hy & ->).
    rewrite task_of_json_obj in Hy. by injection Hy as <-.
  - intros doc Hdoc. unfold tasks_of_document. cbn [PyValue.items]. rewrite res_bind_ok.
    apply for_acc_load_bucket_ok. intros k j Hkj%elem_of_map_to_list.
    destruct (Hdoc k j Hkj) as (l & -> & Hl).
    unfold bucket_of_json. cbn [PyValue.iter]. rewrite res_bind_ok.
    by apply list_comp_objects.
  - intros w. by rewrite outcome_run, run_app_init.
  - intros w Hf. rewrite exec_run, run_app_init. cbn [snd].
    unfold after_load, initial_state. st. by rewrite Hf.
  - intros w t Hf Hbad. rewrite exec_run, run_app_init. cbn [snd].
    unfold after_load, initial_state. st. rewrite Hf.
    destruct (read_fault w); [done|]. destruct Hbad as [?|Hbad]; [done|].
    by destruct (json_loads t ≫= tasks_of_document).
  - intros w t data r Hf Hr Hd Hl. rewrite exec_run, run_app_init. cbn [snd].
    unfold after_load, initial_state. st. rewrite Hf, Hr, Hd, res_bind_ok, Hl. done.
Qed.

(** *** Further properties of the store and the panel *)

Lemma touch_idem d m : touch d (touch d m) = touch d m.
Proof.
  unfold touch. destruct (m !! _key_for_date d) eqn:E; [by rewrite E|].
  by rewrite lookup_insert_eq.
Qed.

Lemma touch_lookup d m : touch d m !! _key_for_date d = Some (bucket_of d m).
Proof.
  unfold touch, bucket_of. destruct (m !! _key_for_date d) eqn:E; [by rewrite E|].
  by rewrite lookup_insert_eq.
Qed.

Lemma filter_touch d m :
  filter (λ kv : string * list Task, nonempty kv.2 = true) (touch d m)
  = filter (λ kv : string * list Task, nonempty kv.2 = true) m.
Proof.
  unfold touch. destruct (m !! _key_for_date d) eqn:E; [done|].
  rewrite map_filter_insert_False by done. by rewrite delete_id.
Qed.

Lemma serializable_touch d m : serializable (touch d m) = serializable m.
Proof. unfold serializable. by rewrite filter_touch. Qed.

(** X7. Looking at a date is not saved. Selecting a date returns
    normally and shows the bucket of that date, the empty list for a date
    with no bucket, for which it creates an empty one; the other buckets,
    the highlight and the file are left alone, and what the next save
    writes is what it would have written before. *)
Theorem viewing_is_not_saved s d :
  let m := _tasks_by_date s in
  let s' := exec (set_date d) s in
  outcome (set_date d) s = Ok tt
  ∧ outcome (get_tasks_for_date d) s = Ok (default [] (m !! _key_for_date d))
  ∧ _tasks_by_date s' !! _key_for_date d = Some (default [] (m !! _key_for_date d))
  ∧ (∀ k, k ≠ _key_for_date d → _tasks_by_date s' !! k = m !! k)
  ∧ current_date (todo s') = d
  ∧ lv_items (todo s') = render_task <$> default [] (m !! _key_for_date d)
  ∧ world s' = world s
  ∧ serializable (_tasks_by_date s') = serializable m
  ∧ world (exec save_all_tasks s') = world (exec save_all_tasks s).
Proof.
  intros m s'. subst s'. rewrite !outcome_run, !exec_run.
  rewrite run_set_date, run_get_tasks_for_date, !run_save_all_tasks. cbn [fst snd].
  fold m. change (default [] (m !! _key_for_date d)) with (bucket_of d m).
  st. fold m. rewrite serializable_touch, touch_lookup.
  split_and!; try done. intros k Hk. by apply touch_lookup_ne.
Qed.

(** X8. The list shown is the bucket of the selected date. A refresh and
    a date switch establish it; a submit, a toggle, a delete and a highlight
    move keep it. The store-level add does not refresh the list. *)
Theorem list_view_shows_bucket s :
  (∀ b, view_ok (exec (refresh_list b) s))
  ∧ (∀ d, view_ok (exec (set_date d) s))
  ∧ view_ok (exec todo_on_mount s)
  ∧ (view_ok s →
     (∀ value, view_ok (exec (on_input_submitted value) s))
     ∧ view_ok (exec action_toggle_task s)
     ∧ view_ok (exec action_delete_task s)
     ∧ (∀ i, view_ok (exec (on_list_view_highlighted i) s)))
  ∧ (∀ txt, lv_items (todo (exec (app_add_task txt) s)) = lv_items (todo s)).
Proof.
  unfold view_ok. split_and!.
  - intros b. rewrite exec_run, run_refresh_list. cbn [snd]. st.
    by rewrite bucket_of_touch.
  - intros d. rewrite exec_run, run_set_date. cbn [snd]. st.
    by rewrite bucket_of_touch.
  - unfold todo_on_mount. rewrite exec_run, run_bind, run_refresh_list. cbn [snd].
    unfold focus, run, modify. st. by rewrite bucket_of_touch.
  - intros Hs. split_and!.
    + intros value. rewrite exec_run, run_on_input_submitted. cbn [snd].
      destruct (PyStr.nonempty (PyStr.strip value)); st; [|done].
      by rewrite bucket_of_insert.
    + rewrite exec_run, run_action_toggle_task. cbn [snd].
      destruct (nonempty _); st; [by rewrite bucket_of_insert|].
      by rewrite bucket_of_touch.
    + rewrite exec_run, run_action_delete_task. cbn [snd].
      destruct (nonempty _); st; [by rewrite bucket_of_insert|].
      by rewrite bucket_of_touch.
    + intros [i|]; [|done]. rewrite exec_run, run_on_list_view_highlighted. cbn [snd]. by st.
  - intros txt. rewrite exec_run, run_app_add_task. cbn [snd]. by st.
Qed.

Lemma panel_step_world o s :
  world (exec (panel_step o) s)
  = if saves o s
    then world (saved (with_tasks (_tasks_by_date (exec (panel_step o) s)) s))
    else world s.
Proof.
  rewrite !exec_run.
  destruct o as [txt|value| | |i]; cbn [panel_step saves].
  - rewrite run_app_add_task. cbn [snd]. by st.
  - rewrite run_on_input_submitted. cbn [snd].
    destruct (PyStr.nonempty (PyStr.strip value)); by st.
  - rewrite run_action_toggle_task. cbn [snd]. destruct (nonempty _); by st.
  - rewrite run_action_delete_task. cbn [snd]. destruct (nonempty _); by st.
  - rewrite run_on_list_view_highlighted. cbn [snd]. by st.
Qed.

(** X9. With a disk that takes writes, after an add, a submit of a
    non-blank line, or a toggle or delete on a non-empty list, the file
    holds the document of the mapping as it is then: every such change
    is on disk when the operation returns. A blank submit, a toggle or
    delete on an empty list and a highlight move do not write. *)
Theorem changes_reach_the_file s (o : panel_op) :
  write_fault (world s) = None →
  let s' := exec (panel_step o) s in
  persist_file (world s')
  = if saves o s then Some (json_dumps (serializable (_tasks_by_date s')))
    else persist_file (world s).
Proof.
  intros Hw s'. subst s'. rewrite panel_step_world.
  destruct (saves o s); [|done]. st. by rewrite Hw.
Qed.

(** X10. With a codec under which [loads] undoes [dumps] and a disk that
    reads and writes, starting the application again after an operation
    that saves gives the mapping that operation left, without its empty
    buckets. *)
Theorem restart_after_change s (o : panel_op) :
  (∀ j, json_loads (json_dumps j) = Ok j) →
  write_fault (world s) = None →
  read_fault (world s) = false →
  saves o s = true →
  let s' := exec (panel_step o) s in
  outcome app_init (initial_state (world s')) = Ok tt
  ∧ _tasks_by_date (exec app_init (initial_state (world s')))
    = filter (λ kv, nonempty kv.2 = true) (_tasks_by_date s').
Proof.
  intros Hcodec Hw Hr Hsaves s'. subst s'.
  rewrite outcome_run, (exec_run app_init), run_app_init. cbn [fst snd]. split; [done|].
  rewrite panel_step_world, Hsaves.
  generalize (_tasks_by_date (exec (panel_step o) s)). intros m'.
  unfold after_load, initial_state. st. rewrite Hw. st. rewrite Hr, Hcodec.
  by rewrite res_bind_ok, tasks_of_document_serializable.
Qed.

(** X11. [_load_all_tasks] never raises and touches nothing but the
    mapping. When the file is missing, cannot be read, does not parse or has
    a shape the loading loop raises on, the whole state is as before, the
    mapping in memory included; otherwise the mapping is replaced by the
    one loaded, not merged with it. *)
Theorem load_replaces_or_keeps s :
  outcome _load_all_tasks s = Ok tt
  ∧ (persist_file (world s) = None → exec _load_all_tasks s = s)
  ∧ (read_fault (world s) = true → exec _load_all_tasks s = s)
  ∧ (∀ t, persist_file (world s) = Some t →
       is_ok (json_loads t ≫= tasks_of_document) = false →
       exec _load_all_tasks s = s)
  ∧ (∀ t r, persist_file (world s) = Some t → read_fault (world s) = false →
       json_loads t ≫= tasks_of_document = Ok r →
       exec _load_all_tasks s = with_tasks r s).
Proof.
  rewrite outcome_run, !exec_run, run_load_all_tasks. cbn [fst snd]. unfold after_load.
  split_and!; try done.
  - by intros ->.
  - intros ->. by destruct (persist_file (world s)).
  - intros t -> Hbad. destruct (read_fault (world s)); [done|].
    by destruct (json_loads t ≫= tasks_of_document).
  - by intros t r -> -> ->.
Qed.

(** *** The shapes the loading loop accepts *)

Lemma task_of_json_not_object i :
  (∀ e, i ≠ JObj e) → task_of_json i = Raise AttributeError.
Proof. intros Hi. destruct i; try done. by destruct (Hi o). Qed.

Lemma list_comp_raise l :
  (∃ i, i ∈ l ∧ ∀ e, i ≠ JObj e) → list_comp task_of_json l = Raise AttributeError.
Proof.
  induction l as [|x l IH]; intros (i & Hi & Hno).
  - by apply elem_of_nil in Hi.
  - cbn [list_comp]. destruct x as [| | | | | |o];
      try (by rewrite task_of_json_not_object).
    rewrite task_of_json_obj, res_bind_ok.
    apply elem_of_cons in Hi as [->|Hi]; [by destruct (Hno o)|].
    rewrite IH by eauto. done.
Qed.

(** X12. What a bucket of the file may be. An array loads exactly when
    each of its entries is an object, and raises [AttributeError]
    otherwise; the empty string and the empty object load as the empty
    bucket, any other string or object raises [AttributeError], and null,
    a boolean or a number raises [TypeError]. A document that is not an
    object raises, and one bucket that raises makes the whole document
    raise: no other bucket of the file is loaded then. *)
Theorem bucket_shapes :
  (∀ l, is_ok (bucket_of_json (JArr l)) = true ↔ ∀ i, i ∈ l → ∃ e, i = JObj e)
  ∧ (∀ l, is_ok (bucket_of_json (JArr l)) = false →
          bucket_of_json (JArr l) = Raise AttributeError)
  ∧ (∀ t, bucket_of_json (JStr t)
          = if PyStr.nonempty t then Raise AttributeError else Ok [])
  ∧ (∀ o, bucket_of_json (JObj o)
          = if decide (o = ∅) then Ok [] else Raise AttributeError)
  ∧ (bucket_of_json JNull = Raise TypeError
     ∧ (∀ b, bucket_of_json (JBool b) = Raise TypeError)
     ∧ (∀ z, bucket_of_json (JInt z) = Raise TypeError)
     ∧ (∀ f, bucket_of_json (JFloat f) = Raise TypeError))
  ∧ (∀ j, (∀ o, j ≠ JObj o) → tasks_of_document j = Raise AttributeError)
  ∧ (∀ doc k j, doc !! k = Some j → is_ok (bucket_of_json j) = false →
                is_ok (tasks_of_document (JObj doc)) = false).
Proof.
  assert (∀ l : list json,
            (∀ i, i ∈ l → ∃ e, i = JObj e) ∨ (∃ i, i ∈ l ∧ ∀ e, i ≠ JObj e)) as Hdec.
  { induction l as [|x l [IH|(i & Hi & Hno)]].
    - left. by intros i Hi%elem_of_nil.
    - destruct x as [| | | | | |o];
        try (right; eexists; split; [left|done]).
      left. intros i [->|Hi]%elem_of_cons; eauto.
    - right. exists i. split; [by right|done]. }
  split_and!.
  - intros l. unfold bucket_of_json. cbn [PyValue.iter]. rewrite res_bind_ok. split.
    + intros Hok. destruct (Hdec l) as [|Hbad]; [done|].
      by rewrite list_comp_raise in Hok.
    + apply list_comp_objects.
  - intros l. unfold bucket_of_json. cbn [PyValue.iter]. rewrite res_bind_ok.
    destruct (Hdec l) as [Hall|Hbad].
    + by rewrite (list_comp_objects l Hall).
    + by rewrite list_comp_raise.
  - by intros [|a t].
  - intros o. unfold bucket_of_json. cbn [PyValue.iter]. rewrite res_bind_ok.
    case_decide as Ho; [subst; by rewrite map_to_list_empty|].
    destruct (map_to_list o) as [|[k j] l] eqn:Hl; [|done].
    by apply map_to_list_empty_iff in Hl.
  - done.
  - done.
  - done.
  - done.
  - intros j Hj. destruct j; try done. by destruct (Hj o).
  - intros doc k j Hk Hbad.
    destruct (tasks_of_document (JObj doc)) as [r|e] eqn:Hr; [|done].
    pose proof (tasks_of_document_lookup doc r Hr k) as Hl. rewrite Hk in Hl.
    destruct Hl as (b & Hb & _). by rewrite Hb in Hbad.
Qed.

(** X13. The document a save writes: an object with one key for each
    date that has at least one task, and no key for a date whose bucket is
    empty; under such a key the array of the tasks in order, each an
    object with the fields text and done and no other. Saving what was
    loaded from it writes the same document again. *)
Theorem saved_document_layout m :
  ∃ o, serializable m = JObj o
       ∧ (∀ k, o !! k = match m !! k with
                        | Some (t :: b) => Some (JArr (task_to_json <$> t :: b))
                        | _ => None
                        end)
       ∧ (∀ t, ∃ e, task_to_json t = JObj e
                    ∧ dom e = ({["text"; "done"]} : gset string)%string
                    ∧ e !! "text"%string = Some (text t)
                    ∧ e !! "done"%string = Some (JBool (done t)))
       ∧ serializable (filter (λ kv, nonempty kv.2 = true) m) = serializable m.
Proof.
  eexists. split; [reflexivity|]. split_and!.
  - intros k. rewrite lookup_fmap.
    destruct (m !! k) as [[|t b]|] eqn:Hk; cbn.
    + rewrite (proj2 (map_lookup_filter_None _ _ _)); [done|].
      right. intros b Hb. rewrite Hk in Hb. by simplify_eq.
    + by rewrite (map_lookup_filter_Some_2 _ _ _ _ Hk).
    + rewrite (proj2 (map_lookup_filter_None _ _ _)); [done|]. by left.
  - intros t. eexists. split; [reflexivity|]. split_and!.
    + rewrite !dom_insert_L, dom_empty_L. set_solver.
    + by rewrite lookup_insert_eq.
    + rewrite lookup_insert_ne by done. by rewrite lookup_insert_eq.
  - unfold serializable. do 2 f_equal. apply map_eq. intros k.
    apply option_eq. intros b. rewrite !map_lookup_filter_Some. tauto.
Qed.

(** *** The highlight after a delete *)

(** X14. After a delete on a non-empty list the highlight is on the task
    that followed the one removed, which has taken its position, and on
    the new last task when the last one was removed: that is the task the
    next toggle or delete acts on. When the only task was removed the
    list is empty and the stored highlight is 0. *)
Theorem delete_moves_highlight s :
  let d := current_date (todo s) in
  let b := bucket_of d (_tasks_by_date s) in
  let i := Z.to_nat (clamp_index (_highlight_index (todo s)) (length b)) in
  let s' := exec action_delete_task s in
  let b' := bucket_of d (_tasks_by_date s') in
  let i' := Z.to_nat (clamp_index (_highlight_index (todo s')) (length b')) in
  b ≠ [] →
  b' = delete i b
  ∧ ((S i < length b)%nat → i' = i ∧ b' !! i' = b !! S i)
  ∧ ((S i = length b)%nat → (1 ≤ i)%nat →
     i' = (i - 1)%nat ∧ b' !! i' = b !! (i - 1)%nat)
  ∧ (length b = 1%nat → b' = [] ∧ _highlight_index (todo s') = 0).
Proof.
  intros d b i s' b' i' Hb.
  assert (nonempty b = true ∧ (0 < length b)%nat) as [Hne Hlen]
    by (destruct b; [done|]; split; [done|cbn; lia]).
  pose proof (clamp_index_range (_highlight_index (todo s)) _ Hlen) as Hi.
  assert (b' = delete i b
          ∧ _highlight_index (todo s')
            = clamp_index (_highlight_index (todo s)) (length (delete i b))) as [Hb' Hh'].
  { subst b' s'. rewrite !exec_run, run_action_delete_task. cbn [snd]. fold d b.
    rewrite Hne. st. fold d. by rewrite bucket_of_insert. }
  split; [done|]. subst i'. rewrite Hh', Hb'.
  assert (length (delete i b) = (length b - 1)%nat) as Hl
    by (rewrite length_delete; [done|]; apply lookup_lt_is_Some_2; lia).
  rewrite Hl. unfold clamp_index in *. fold i. split_and!.
  - intros Hlt. assert (Z.to_nat (Z.max 0 (Z.min (Z.max 0 (Z.min
        (_highlight_index (todo s)) (Z.of_nat (length b - 1) - 1))) (Z.of_nat (length b - 1) - 1)))
        = i) as -> by lia.
    split; [done|]. by rewrite list_lookup_delete_ge by lia.
  - intros Hlast Hi1. assert (Z.to_nat (Z.max 0 (Z.min (Z.max 0 (Z.min
        (_highlight_index (todo s)) (Z.of_nat (length b - 1) - 1))) (Z.of_nat (length b - 1) - 1)))
        = (i - 1)%nat) as -> by lia.
    split; [done|]. by rewrite list_lookup_delete_lt by lia.
  - intros Hone. split; [|lia].
    apply nil_length_inv. lia.
Qed.

(** *** Focus and keys *)

(** X15. The Delete and Backspace keys delete the highlighted task only
    while the list has the focus; with the focus elsewhere, and for any
    other key, [on_key] does nothing. After a non-blank submit the input
    line is empty and has the focus, so such a key press deletes nothing;
    a blank submit moves the focus to the list and changes nothing
    else. *)
Theorem keys_follow_focus s (key value : string) :
  (focused s ≠ TodoListW → run (on_key key) s = (Ok tt, s))
  ∧ (focused s = TodoListW →
     run (on_key key) s
     = if bool_decide (key = "delete"%string ∨ key = "backspace"%string)
       then run action_delete_task s else (Ok tt, s))
  ∧ (let s' := exec (on_input_submitted value) s in
     if PyStr.nonempty (PyStr.strip value)
     then focused s' = TodoInputW ∧ input_value (todo s') = ""%string
          ∧ run (on_key key) s' = (Ok tt, s')
     else s' = with_focused TodoListW s)
  ∧ run action_focus_list s = (Ok tt, with_focused TodoListW s)
  ∧ run action_swap_focus s = (Ok tt, with_focused TodoInputW s).
Proof.
  assert (∀ s0, focused s0 ≠ TodoListW → run (on_key key) s0 = (Ok tt, s0)) as Hother.
  { intros s0 Hf. unfold on_key. msteps. by destruct (focused s0). }
  split_and!.
  - apply Hother.
  - intros Hf. unfold on_key. msteps. rewrite Hf.
    destruct (decide (key = "delete"%string)) as [->|Hd]; [done|].
    destruct (decide (key = "backspace"%string)) as [->|Hb]; [done|].
    rewrite !bool_decide_eq_false_2; [done|by intros [|]|done|done].
  - cbn zeta. rewrite exec_run, run_on_input_submitted. cbn [snd].
    destruct (PyStr.nonempty (PyStr.strip value)); [|done].
    split_and!; [done|done|]. by apply Hother.
  - reflexivity.
  - reflexivity.
Qed.

(** *** The two widgets do not interfere *)

Lemma nav_action_frame (k : nav) s :
  let s' := exec (nav_action k) s in
  _tasks_by_date s' = _tasks_by_date s ∧ _last_date s' = _last_date s
  ∧ todo s' = todo s ∧ calendar_title s' = calendar_title s
  ∧ focused s' = focused s ∧ world s' = world s.
Proof.
  destruct k; cbn [nav_action]; unfold action_prev_month, action_next_month;
    (erewrite exec_bind_ok by reflexivity);
    destruct (_ =? _); (erewrite exec_bind_ok by reflexivity);
    match goal with |- context [exec reload_month ?s1] =>
      destruct (reload_month_frame s1) as (? & ? & ? & ? & ? & ? & _) end;
    by split_and!.
Qed.

Lemma press_all_frame (keys : list nav) s :
  let s' := press_all keys s in
  _tasks_by_date s' = _tasks_by_date s ∧ todo s' = todo s
  ∧ world s' = world s ∧ focused s' = focused s ∧ _last_date s' = _last_date s.
Proof.
  cbn zeta. unfold press_all. revert s.
  induction keys as [|k keys IH]; intros s; [done|].
  cbn [foldl]. destruct (IH (exec (nav_action k) s)) as (-> & -> & -> & -> & ->).
  destruct (nav_action_frame k s) as (? & ? & ? & ? & ? & ?). done.
Qed.

Lemma panel_step_frame (o : panel_op) s :
  let s' := exec (panel_step o) s in
  calendar s' = calendar s ∧ posted s' = posted s
  ∧ calendar_title s' = calendar_title s ∧ _last_date s' = _last_date s
  ∧ system_date (world s') = system_date (world s).
Proof.
  cbn zeta. rewrite !exec_run.
  destruct o as [txt|value| | |i]; cbn [panel_step].
  - rewrite run_app_add_task. cbn [snd]. by st.
  - rewrite run_on_input_submitted. cbn [snd].
    destruct (PyStr.nonempty (PyStr.strip value)); by st.
  - rewrite run_action_toggle_task. cbn [snd]. destruct (nonempty _); by st.
  - rewrite run_action_delete_task. cbn [snd]. destruct (nonempty _); by st.
  - rewrite run_on_list_view_highlighted. cbn [snd]. by st.
Qed.

(** X16. Moving through the months, whatever the keys and whether or not
    a rebuild raises, changes no task, nothing of the task panel and no
    file; and an operation of the task panel changes nothing of the
    calendar and posts no message. *)
Theorem widgets_do_not_interfere s (keys : list nav) (o : panel_op) :
  (let s' := press_all keys s in
   _tasks_by_date s' = _tasks_by_date s ∧ todo s' = todo s
   ∧ world s' = world s ∧ focused s' = focused s ∧ _last_date s' = _last_date s)
  ∧ (let s' := exec (panel_step o) s in
     calendar s' = calendar s ∧ posted s' = posted s
     ∧ calendar_title s' = calendar_title s ∧ _last_date s' = _last_date s
     ∧ system_date (world s') = system_date (world s)).
Proof. split; [apply press_all_frame|apply panel_step_frame]. Qed.

(** *** The rollover timer between two midnights *)

Lemma after_load_world s : world (after_load s) = world s.
Proof.
  unfold after_load. destruct (persist_file (world s)); [|done].
  destruct (read_fault (world s)); [done|].
  by destruct (json_loads f ≫= tasks_of_document).
Qed.

Lemma after_load_last_date s : _last_date (after_load s) = _last_date s.
Proof.
  unfold after_load. destruct (persist_file (world s)); [|done].
  destruct (read_fault (world s)); [done|].
  by destruct (json_loads f ≫= tasks_of_document).
Qed.

(** X19. The timer callback does nothing right after the application
    has started, whatever the file holds, and keeps doing nothing through
    any operation of the task panel and any month navigation, as long as
    the system date is the one recorded. *)
Theorem tick_is_quiet_until_the_date_changes w (o : panel_op) (keys : list nav) :
  (let s := exec app_init (initial_state w) in
   run _tick_day_change s = (Ok tt, s))
  ∧ (∀ s, system_date (world s) = _last_date s →
       run _tick_day_change (exec (panel_step o) s) = (Ok tt, exec (panel_step o) s)
       ∧ run _tick_day_change (press_all keys s) = (Ok tt, press_all keys s)).
Proof.
  split.
  - cbn zeta. apply run_tick_same.
    rewrite exec_run, run_app_init. cbn [snd]. st. by rewrite after_load_world.
  - intros s Hs. split; apply run_tick_same.
    + destruct (panel_step_frame o s) as (_ & _ & _ & -> & ->). done.
    + destruct (press_all_frame keys s) as (_ & _ & -> & _ & ->). done.
Qed.

(** *** The keys of the mapping *)

Lemma pretty_N_char_not_dash x : pretty_N_char x ≠ "-"%char.
Proof. unfold pretty_N_char. by repeat case_match. Qed.

Lemma pretty_N_char_nonzero x : (0 < x < 10)%N → pretty_N_char x ≠ "0"%char.
Proof.
  intros Hx.
  assert (x = 1 ∨ x = 2 ∨ x = 3 ∨ x = 4 ∨ x = 5 ∨ x = 6 ∨ x = 7 ∨ x = 8 ∨ x = 9)%N
    as Hcases by lia.
  destruct_or!; by subst.
Qed.

Lemma pretty_N_go_digits x s : dash_free s → dash_free (pretty_N_go x s).
Proof.
  revert s. induction (N.lt_wf_0 x) as [x _ IH]; intros s Hs.
  assert (x = 0 ∨ 0 < x)%N as [->|Hx] by lia.
  - by rewrite pretty_N_go_0.
  - rewrite pretty_N_go_step by done. apply IH; [by apply N.div_lt|].
    split; [apply pretty_N_char_not_dash|done].
Qed.

Lemma pretty_N_go_nonzero x s : (0 < x)%N → starts_nonzero (pretty_N_go x s).
Proof.
  revert s. induction (N.lt_wf_0 x) as [x _ IH]; intros s Hx.
  rewrite pretty_N_go_step by done.
  destruct (N.eq_0_gt_0_cases (x `div` 10)) as [Hq|Hq].
  - rewrite Hq, pretty_N_go_0. cbn. apply pretty_N_char_nonzero.
    apply N.div_small_iff in Hq; [|done]. rewrite N.mod_small by done. lia.
  - apply IH; [by apply N.div_lt|done].
Qed.

Lemma pretty_positive_shape (z : Z) :
  1 ≤ z → dash_free (pretty z) ∧ starts_nonzero (pretty z).
Proof.
  intros Hz. destruct z as [|p|p]; try lia.
  unfold pretty, pretty_Z, pretty, pretty_positive, pretty, pretty_N.
  rewrite decide_False by done.
  split; [by apply pretty_N_go_digits|by apply pretty_N_go_nonzero].
Qed.

Lemma zeros_S k :
  String.concat "" (replicate (S k) "0"%string)
  = String "0" (String.concat "" (replicate k "0"%string)).
Proof. by destruct k. Qed.

Lemma string_app_nil (s : string) : "" +:+ s = s.
Proof. reflexivity. Qed.

Lemma string_app_cons a (s t : string) : String a s +:+ t = String a (s +:+ t).
Proof. reflexivity. Qed.

Lemma zero_pad_digits width z : 1 ≤ z → dash_free (zero_pad width z).
Proof.
  intros [Hd _]%pretty_positive_shape. unfold zero_pad. cbn zeta.
  induction (width - String.length (pretty z))%nat as [|k IH].
  - by rewrite string_app_nil.
  - rewrite zeros_S, string_app_cons. by split.
Qed.

Lemma zero_pad_inj w1 w2 z1 z2 :
  1 ≤ z1 → 1 ≤ z2 → zero_pad w1 z1 = zero_pad w2 z2 → z1 = z2.
Proof.
  intros [_ H1]%pretty_positive_shape [_ H2]%pretty_positive_shape. unfold zero_pad.
  cbn zeta. intros Heq. apply (inj pretty). revert H1 H2 Heq.
  generalize (w1 - String.length (pretty z1))%nat (w2 - String.length (pretty z2))%nat.
  generalize (pretty z1) (pretty z2). intros p1 p2 k1 k2 H1 H2.
  revert k2. induction k1 as [|k1 IH]; intros [|k2];
    rewrite ?zeros_S, ?string_app_cons; cbn [replicate String.concat];
    rewrite ?string_app_nil; intros Heq.
  - done.
  - rewrite Heq in H1. by cbn in H1.
  - rewrite <- Heq in H2. by cbn in H2.
  - injection Heq as Heq. by apply (IH k2).
Qed.

Lemma split_at_dash (a1 b1 a2 b2 : string) :
  dash_free a1 → dash_free a2 →
  a1 +:+ String "-" b1 = a2 +:+ String "-" b2 → a1 = a2 ∧ b1 = b2.
Proof.
  revert a2. induction a1 as [|x a1 IH]; intros [|y a2] H1 H2;
    rewrite ?string_app_cons, ?string_app_nil; intros Heq.
  - by injection Heq as ->.
  - injection Heq as <- _. by destruct H2.
  - injection Heq as -> _. by destruct H1.
  - injection Heq as -> Heq. destruct H1 as [_ H1], H2 as [_ H2].
    destruct (IH a2 H1 H2 Heq) as [-> ->]. done.
Qed.

Lemma isoformat_inj d1 d2 :
  1 ≤ d_year d1 → 1 ≤ d_month d1 → 1 ≤ d_day d1 →
  1 ≤ d_year d2 → 1 ≤ d_month d2 → 1 ≤ d_day d2 →
  isoformat d1 = isoformat d2 → d1 = d2.
Proof.
  destruct d1 as [y1 m1 a1], d2 as [y2 m2 a2]. unfold isoformat. cbn [d_year d_month d_day].
  intros Hy1 Hm1 Ha1 Hy2 Hm2 Ha2 Heq.
  apply split_at_dash in Heq as [Hy Heq]; [|by apply zero_pad_digits..].
  apply split_at_dash in Heq as [Hm Ha]; [|by apply zero_pad_digits..].
  apply zero_pad_inj in Hy, Hm, Ha; try done. by subst.
Qed.

(** X17. Two valid dates with the same key are the same date, so the
    buckets of different dates are different buckets: adding a task for
    one date leaves the tasks of every other date as they were. *)
Theorem date_keys_distinct s d1 d2 txt :
  valid_date d1 → valid_date d2 →
  (_key_for_date d1 = _key_for_date d2 → d1 = d2)
  ∧ (d1 ≠ d2 →
     bucket_of d2 (_tasks_by_date (exec (add_task_for_date d1 txt) s))
     = bucket_of d2 (_tasks_by_date s)).
Proof.
  intros (Hy1 & Hm1 & Ha1)%check_date_fields_inv (Hy2 & Hm2 & Ha2)%check_date_fields_inv.
  assert (_key_for_date d1 = _key_for_date d2 → d1 = d2) as Hinj
    by (apply isoformat_inj; lia).
  split; [done|]. intros Hne.
  rewrite exec_run, run_add_task_for_date. cbn [snd]. st.
  unfold bucket_of. rewrite lookup_insert_ne; [done|]. intros Heq. by apply Hne, Hinj.
Qed.

(** *** Jumping to today *)

Lemma cursor_target_today_cell y m w n today old :
  0 ≤ w < 7 → 0 ≤ n →
  d_year today = y → d_month today = m → 1 ≤ d_day today ≤ n →
  let cells := grid_cells y m 0 (PyCalendar.weeks_of (month_days w n)) [] in
  PyDict.get (cursor_target y m today cells old) cells = Some (Some today).
Proof.
  intros Hw Hn Hy Hm Hd cells. subst cells.
  rewrite (cursor_target_today y m w n today old) by done.
  rewrite grid_lookup by lia.
  rewrite decide_True by (split; Z.div_mod_to_equations; lia).
  rewrite decide_True by (Z.div_mod_to_equations; lia).
  do 2 f_equal. destruct today as [ty tm td]. cbn [d_year d_month d_day] in *. subst.
  f_equal. Z.div_mod_to_equations; lia.
Qed.

Lemma run_calendar_action_today s :
  let today := system_date (world s) in
  valid_date today →
  let s1 := upd_calendar (λ c, with_month (d_month today) (with_year (d_year today) c)) s in
  run calendar_action_today s
  = (Ok tt, with_posted (posted (reloaded s1) ++ [DateSelected today]) (reloaded s1)).
Proof.
  intros today (Hy & Hm & _)%check_date_fields_inv s1.
  unfold calendar_action_today. msteps. cbn beta. fold today s1.
  rewrite run_bind, run_reload_month by (subst s1; st; done).
  cbn beta iota. reflexivity.
Qed.

Lemma run_set_date_again d s :
  run (set_date d) (exec (set_date d) s) = (Ok tt, exec (set_date d) s).
Proof.
  rewrite exec_run, !run_set_date. cbn [snd]. st. cbn [andb].
  by rewrite bucket_of_touch, touch_idem.
Qed.

(** X18. With a valid system date, the jump-to-today action returns
    normally; the calendar then shows today's month with the cursor on
    the cell of today, the panel shows today's tasks, and the calendar
    has posted [MonthChanged] for today's month and [DateSelected] for
    today. Handling that [DateSelected] afterwards changes nothing: the
    panel is already on today. *)
Theorem jump_to_today s :
  let today := system_date (world s) in
  valid_date today →
  let s' := exec action_today s in
  outcome action_today s = Ok tt
  ∧ year_month s' = (d_year today, d_month today)
  ∧ PyDict.get (cursor (calendar s')) (_cell_to_date (calendar s')) = Some (Some today)
  ∧ current_date (todo s') = today
  ∧ lv_items (todo s') = render_task <$> bucket_of today (_tasks_by_date s)
  ∧ posted s'
    = posted s ++ [MonthChanged (d_year today) (d_month today); DateSelected today]
  ∧ run (dispatch (DateSelected today)) s' = (Ok tt, s').
Proof.
  intros today Hvalid s'. subst s'.
  rewrite outcome_run, !(exec_run action_today), run_action_today. cbn [fst snd].
  fold today. split; [done|].
  assert (∃ cal2,
            exec calendar_action_today s
            = mkState (_tasks_by_date s) (_last_date s) cal2 (todo s) (calendar_title s)
                (focused s)
                (posted s ++ [MonthChanged (d_year today) (d_month today);
                              DateSelected today])
                (world s)
            ∧ year cal2 = d_year today ∧ month cal2 = d_month today
            ∧ PyDict.get (cursor cal2) (_cell_to_date cal2) = Some (Some today))
    as (cal2 & -> & Hy2 & Hm2 & Hcur).
  { rewrite exec_run, run_calendar_action_today by done. cbn [snd]. fold today.
    unfold reloaded. st. fold today. eexists. split; [|split_and!].
    - rewrite <- app_assoc. reflexivity.
    - reflexivity.
    - reflexivity.
    - cbn [cursor _cell_to_date].
      pose proof Hvalid as (Hy & Hm & Hd)%check_date_fields_inv.
      apply (cursor_target_today_cell (d_year today) (d_month today));
        [apply weekday_range|lia|reflexivity|reflexivity|exact Hd]. }
  split_and!; [| | | | |apply run_set_date_again];
    rewrite exec_run, run_set_date; cbn [snd]; unfold year_month; st.
  - by rewrite Hy2, Hm2.
  - exact Hcur.
  - reflexivity.
  - reflexivity.
  - reflexivity.
Qed.

(** *** What a rebuild depends on *)



(** *** The rollover and the tasks *)

Lemma bucket_of_touch_any d d' m : bucket_of d (touch d' m) = bucket_of d m.
Proof.
  unfold bucket_of, touch. destruct (m !! _key_for_date d') eqn:E; [done|].
  destruct (decide (_key_for_date d = _key_for_date d')) as [Hk|Hk].
  - by rewrite Hk, lookup_insert_eq, E.
  - by rewrite lookup_insert_ne.
Qed.

(** X21. The rollover and the jump to today lose no task: after the timer
    callback, and after the jump-to-today action, the bucket of every
    date holds the tasks it held, the file is untouched, and what the
    next save writes is what it would have written before. *)
Theorem rollover_keeps_the_tasks s :
  (let s' := exec _tick_day_change s in
   (∀ d, bucket_of d (_tasks_by_date s') = bucket_of d (_tasks_by_date s))
   ∧ serializable (_tasks_by_date s') = serializable (_tasks_by_date s)
   ∧ world s' = world s)
  ∧ (let s' := exec action_today s in
     (∀ d, bucket_of d (_tasks_by_date s') = bucket_of d (_tasks_by_date s))
     ∧ serializable (_tasks_by_date s') = serializable (_tasks_by_date s)
     ∧ world s' = world s).
Proof.
  assert (∀ s0 d0,
            let s' := exec (set_date d0) (exec calendar_action_today s0) in
            (∀ d, bucket_of d (_tasks_by_date s') = bucket_of d (_tasks_by_date s0))
            ∧ serializable (_tasks_by_date s') = serializable (_tasks_by_date s0)
            ∧ world s' = world s0) as Hjump.
  { intros s0 d0. cbn zeta.
    destruct (calendar_action_today_effect s0) as (Ht & _ & _ & _ & _ & Hw & _).
    revert Ht Hw. generalize (exec calendar_action_today s0). intros s2 Ht Hw.
    rewrite exec_run, run_set_date. cbn [snd]. st. rewrite Ht, Hw.
    split_and!; [|apply serializable_touch|done].
    intros d. apply bucket_of_touch_any. }
  split; cbn zeta.
  - destruct (decide (system_date (world s) = _last_date s)) as [Heq|Hne].
    + rewrite exec_run, (run_tick_same s Heq). done.
    + rewrite exec_run, (run_tick_changed s Hne). cbn [snd].
      apply (Hjump (with_last_date (system_date (world s)) s)).
  - rewrite exec_run, run_action_today. cbn [snd]. apply Hjump.
Qed.

End CalTodo.


(** ** Concrete runs

    The model is run on the codec instance in which a parsed document stands
    for its own text. The application is started on 15 March 2024 with no
    [tasks.json]. *)

Definition world_15_march : World json :=
  mkWorld json (Date 2024 3 15) None false None.

Definition started : State json :=
  Eval vm_compute in
    exec json (todo_on_mount json)
      (exec json (calendar_on_mount json)
         (exec json (app_init json document_loads) (initial_state json world_15_march))).

(** One task typed in for 15 March. *)
Definition one_task : State json :=
  Eval vm_compute in
    exec json (on_input_submitted json document_dumps "  buy milk ") started.

(** Three tasks on 15 March with the highlight on the last one, one task on
    16 March. *)
Definition two_days : State json :=
  Eval vm_compute in
    run_ops json document_dumps
      [OpSubmit "a"; OpSubmit "b"; OpSubmit "c"; OpHighlight 2]%string
      (exec json (set_date json (Date 2024 3 15))
         (exec json (on_input_submitted json document_dumps "x")
            (exec json (set_date json (Date 2024 3 16)) started))).

(** The same application on a disk that refuses writes. *)
Definition read_only_disk : State json :=
  Eval vm_compute in
    with_world json (mkWorld json (Date 2024 3 15) None false (Some None)) one_task.

(** The application left running over midnight. *)
Definition next_morning : State json :=
  Eval vm_compute in
    with_world json (mkWorld json (Date 2024 3 16) None false None) one_task.

(** The calendar showing January of year 1. *)
Definition january_year_1 : State json :=
  Eval vm_compute in
    exec json (reload_month json)
      (upd_calendar json (λ c, with_month 1 (with_year 1 c)) started).


Lemma tick_day_change_witness :
  system_date json (world json next_morning) = Date 2024 3 16
  ∧ _last_date json next_morning = Date 2024 3 15
  ∧ _last_date json (exec json (_tick_day_change json) next_morning) = Date 2024 3 16
  ∧ current_date (todo json (exec json (_tick_day_change json) next_morning)) = Date 2024 3 16
  ∧ run json (_tick_day_change json) (exec json (_tick_day_change json) next_morning)
    = (Ok tt, exec json (_tick_day_change json) next_morning).
Proof.
  pose proof (tick_day_change json next_morning) as Hthm.
  cbv zeta in Hthm. destruct Hthm as (_ & Hchanged & Hagain).
  assert (system_date json (world json next_morning) ≠ _last_date json next_morning) as Hne
    by (vm_compute; discriminate).
  destruct (Hchanged Hne) as (_ & _ & Hl & _ & _ & Hc & _).
  split; [by vm_compute|]. split; [by vm_compute|].
  split; [exact Hl|]. split; [exact Hc|exact Hagain].
Defined.

Lemma task_order_preserved_witness :
  text <$> bucket_of (Date 2024 3 15) (_tasks_by_date json two_days)
  = [JStr "a"; JStr "b"; JStr "c"]
  ∧ text <$> bucket_of (Date 2024 3 15)
               (_tasks_by_date json
                  (run_ops json document_dumps
                     [OpToggle; OpHighlight 0; OpDelete; OpAdd "d"]%string two_days))
    = [JStr "b"; JStr "c"; JStr "d"]
  ∧ (text <$> bucket_of (Date 2024 3 15)
                (_tasks_by_date json
                   (run_ops json document_dumps
                      [OpToggle; OpHighlight 0; OpDelete; OpAdd "d"]%string two_days)))
      `sublist_of` [JStr "a"; JStr "b"; JStr "c"; JStr "d"].
Proof.
  pose proof (task_order_preserved json document_dumps two_days
                [OpToggle; OpHighlight 0; OpDelete; OpAdd "d"]%string) as Hthm.
  cbv zeta in Hthm. destruct Hthm as (_ & _ & _ & Hs & _).
  split; [by vm_compute|]. split; [by vm_compute|]. exact Hs.
Defined.

Lemma toggle_twice_restores_witness :
  _tasks_by_date json one_task !! "2024-03-15"%string
  = Some [mkTask (JStr "buy milk") false]
  ∧ _tasks_by_date json (exec json (action_toggle_task json document_dumps) one_task)
    !! "2024-03-15"%string
    = Some [mkTask (JStr "buy milk") true]
  ∧ _tasks_by_date json
      (exec json (action_toggle_task json document_dumps)
         (exec json (action_toggle_task json document_dumps) one_task))
    = _tasks_by_date json one_task.
Proof.
  assert (_tasks_by_date json one_task !! _key_for_date (current_date (todo json one_task))
          = Some [mkTask (JStr "buy milk") false]) as Hm by (by vm_compute).
  assert ([mkTask (JStr "buy milk") false] ≠ []) as Hb by discriminate.
  pose proof (toggle_twice_restores json document_dumps one_task _ Hm Hb) as Hthm.
  cbv zeta in Hthm. destruct Hthm as (_ & _ & _ & _ & H2 & _).
  split; [by vm_compute|]. split; [by vm_compute|]. exact H2.
Defined.

(** 16 March selected and its only task deleted: the key stays in the
    mapping with an empty bucket, next to the three tasks of 15 March. *)
Definition with_empty_bucket : State json :=
  Eval vm_compute in
    exec json (action_delete_task json document_dumps)
      (exec json (set_date json (Date 2024 3 16)) two_days).

(** A hand-edited file: entries without [done], without [text], without
    both. *)
Definition edited_document : json :=
  JObj {[ "2024-03-15"%string :=
            JArr [JObj {[ "text"%string := JStr "a" ]};
                  JObj {[ "done"%string := JInt 1 ]};
                  JObj ∅] ]}.

Lemma save_load_round_trip_witness :
  (∀ j, document_loads (document_dumps j) = Ok j)
  ∧ write_fault json (world json with_empty_bucket) = None
  ∧ read_fault json (world json with_empty_bucket) = false
  ∧ _tasks_by_date json with_empty_bucket !! "2024-03-16"%string = Some []
  ∧ _tasks_by_date json
      (exec json (save_all_tasks json document_dumps;; _load_all_tasks json document_loads)
         with_empty_bucket) !! "2024-03-16"%string = None
  ∧ _tasks_by_date json
      (exec json (save_all_tasks json document_dumps;; _load_all_tasks json document_loads)
         with_empty_bucket) !! "2024-03-15"%string
    = Some [mkTask (JStr "a") false; mkTask (JStr "b") false; mkTask (JStr "c") false].
Proof.
  assert (∀ j, document_loads (document_dumps j) = Ok j) as Hc by done.
  assert (write_fault json (world json with_empty_bucket) = None) as Hw by (by vm_compute).
  assert (read_fault json (world json with_empty_bucket) = false) as Hr by (by vm_compute).
  assert (_tasks_by_date json with_empty_bucket !! "2024-03-16"%string = Some []) as He
    by (by vm_compute).
  pose proof (save_load_round_trip json document_dumps document_loads with_empty_bucket
                Hc Hw Hr) as Hthm.
  cbv zeta in Hthm. destruct Hthm as (_ & _ & Hkeep & Hdrop & _).
  split; [exact Hc|]. split; [exact Hw|]. split; [exact Hr|]. split; [exact He|].
  split; [exact (Hdrop _ He)|].
  apply Hkeep; [by vm_compute|discriminate].
Defined.

Lemma write_failure_is_swallowed_witness :
  write_fault json (world json read_only_disk) = Some None
  ∧ outcome json (add_task_for_date json document_dumps (Date 2024 3 15) "eggs")
      read_only_disk = Ok tt
  ∧ persist_file json
      (world json (exec json (add_task_for_date json document_dumps (Date 2024 3 15) "eggs")
                     read_only_disk)) = None
  ∧ _tasks_by_date json
      (exec json (add_task_for_date json document_dumps (Date 2024 3 15) "eggs")
         read_only_disk) !! "2024-03-15"%string
    = Some [mkTask (JStr "buy milk") false; mkTask (JStr "eggs") false].
Proof.
  assert (write_fault json (world json read_only_disk) = Some None) as Hw by (by vm_compute).
  pose proof (write_failure_is_swallowed json document_dumps read_only_disk None
                (Date 2024 3 15) "eggs" Hw) as Hthm.
  cbv zeta in Hthm. destruct Hthm as (_ & _ & (Hout & _ & Hfile) & _).
  split; [exact Hw|]. split; [exact Hout|]. split; [exact Hfile|]. by vm_compute.
Defined.

Lemma add_task_effect_witness :
  PyStr.strip "   " = ""%string
  ∧ _tasks_by_date json (exec json (on_input_submitted json document_dumps "   ") one_task)
    = _tasks_by_date json one_task
  ∧ bucket_of (Date 2024 3 15)
      (_tasks_by_date json
         (exec json (add_task_for_date json document_dumps (Date 2024 3 15) "eggs") one_task))
    = bucket_of (Date 2024 3 15) (_tasks_by_date json one_task)
      ++ [mkTask (JStr "eggs") false].
Proof.
  assert (PyStr.strip "   " = ""%string) as Hs by (by vm_compute).
  pose proof (add_task_effect json document_dumps one_task (Date 2024 3 15) "eggs" "   ") as Hthm.
  cbv zeta in Hthm. destruct Hthm as ((Ha & _) & Hblank & _).
  split; [exact Hs|]. split; [exact (Hblank Hs)|exact Ha].
Defined.

Lemma highlight_index_clamping_witness :
  _highlight_index (todo json two_days) = 2
  ∧ bucket_of (current_date (todo json two_days)) (_tasks_by_date json two_days)
    = [mkTask (JStr "a") false; mkTask (JStr "b") false; mkTask (JStr "c") false]
  ∧ _highlight_index (todo json (exec json (action_delete_task json document_dumps) two_days))
    = 1
  ∧ _highlight_index (todo json (exec json (action_toggle_task json document_dumps) two_days))
    = 2
  ∧ bucket_of
      (current_date (todo json (exec json (action_toggle_task json document_dumps) two_days)))
      (_tasks_by_date json (exec json (action_toggle_task json document_dumps) two_days))
    !! 2%nat
    = Some (mkTask (JStr "c") true)
  ∧ bucket_of
      (current_date (todo json (exec json (action_delete_task json document_dumps) two_days)))
      (_tasks_by_date json (exec json (action_delete_task json document_dumps) two_days))
    = [mkTask (JStr "a") false; mkTask (JStr "b") false].
Proof.
  pose proof (highlight_index_clamping json document_dumps two_days (Date 2024 3 16)) as Hthm.
  cbv zeta in Hthm. destruct Hthm as (_ & Hd & _ & Ht & _ & _ & (_ & Hflip & _) & Hdel).
  split; [by vm_compute|]. split; [by vm_compute|]. split; [|split; [|split]].
  - rewrite Hd. vm_compute. reflexivity.
  - rewrite Ht. vm_compute. reflexivity.
  - etrans; [|etrans; [exact Hflip|]]; by vm_compute.
  - rewrite Hdel. by vm_compute.
Defined.

Lemma month_grid_witness :
  1 ≤ year (calendar json started) ≤ 9999
  ∧ 1 ≤ month (calendar json started) ≤ 12
  ∧ outcome json (reload_month json) started = Ok tt
  ∧ length (rows (calendar json (exec json (reload_month json) started))) = 5%nat
  ∧ PyDict.get (2%nat, 4%nat)
      (_cell_to_date (calendar json (exec json (reload_month json) started)))
    = Some (Some (Date 2024 3 15)).
Proof.
  assert (1 ≤ year (calendar json started) ≤ 9999) as Hy by (vm_compute; split; discriminate).
  assert (1 ≤ month (calendar json started) ≤ 12) as Hm by (vm_compute; split; discriminate).
  pose proof (month_grid json started Hy Hm) as Hthm.
  cbv zeta in Hthm. destruct Hthm as (Hout & _ & Hlen & _ & Hget & _).
  split; [exact Hy|]. split; [exact Hm|]. split; [exact Hout|]. split.
  - rewrite Hlen. vm_compute. reflexivity.
  - rewrite (Hget 2%nat 4%nat). vm_compute. reflexivity.
Defined.

Lemma tolerant_loading_witness :
  _tasks_by_date json
    (exec json (app_init json document_loads)
       (initial_state json (mkWorld json (Date 2024 3 15) (Some edited_document) false None)))
    !! "2024-03-15"%string
  = Some [mkTask (JStr "a") false; mkTask (JStr "") true; mkTask (JStr "") false]
  ∧ tasks_of_document (JArr []) = Raise AttributeError
  ∧ _tasks_by_date json
      (exec json (app_init json document_loads)
         (initial_state json (mkWorld json (Date 2024 3 15) (Some (JArr [])) false None)))
    = ∅
  ∧ _tasks_by_date json
      (exec json (app_init json document_loads) (initial_state json world_15_march))
    = ∅.
Proof.
  pose proof (tolerant_loading json document_loads) as Hthm.
  cbv zeta in Hthm. destruct Hthm as (_ & _ & _ & _ & _ & Hmissing & Hbad & Hgood).
  split; [|split; [done|split]].
  - assert (tasks_of_document edited_document
            = Ok {[ "2024-03-15"%string :=
                      [mkTask (JStr "a") false; mkTask (JStr "") true; mkTask (JStr "") false] ]})
      as Hdoc by (vm_compute; reflexivity).
    rewrite (Hgood (mkWorld json (Date 2024 3 15) (Some edited_document) false None)
               edited_document edited_document _ eq_refl eq_refl eq_refl Hdoc).
    vm_compute. reflexivity.
  - apply (Hbad (mkWorld json (Date 2024 3 15) (Some (JArr [])) false None) (JArr []) eq_refl).
    right. vm_compute. reflexivity.
  - apply Hmissing. reflexivity.
Defined.

(** C2, counterexample. With the highlight on the third of three tasks,
    switching to a date that has one task leaves the stored highlight at 2,
    past the end of the list now shown; and a highlight of 7 survives a
    toggle on three tasks. *)
Lemma set_date_keeps_highlight :
  _highlight_index (todo json two_days) = 2
  ∧ _highlight_index (todo json (exec json (set_date json (Date 2024 3 16)) two_days)) = 2
  ∧ bucket_of (Date 2024 3 16)
      (_tasks_by_date json (exec json (set_date json (Date 2024 3 16)) two_days))
    = [mkTask (JStr "x") false]
  ∧ _highlight_index
      (todo json
         (exec json (action_toggle_task json document_dumps)
            (exec json (on_list_view_highlighted json (Some 7)) two_days))) = 7
  ∧ length (bucket_of (Date 2024 3 15) (_tasks_by_date json two_days)) = 3%nat.
Proof. by vm_compute. Qed.

(** C3, counterexample. The store-level add called with blank text is not a
    no-op: it appends a task whose text is the blank string. *)
Lemma add_task_for_date_blank_text :
  PyStr.strip "   " = ""%string
  ∧ _tasks_by_date json started !! "2024-03-15"%string = Some []
  ∧ _tasks_by_date json
      (exec json (add_task_for_date json document_dumps (Date 2024 3 15) "   ") started)
    !! "2024-03-15"%string
    = Some [mkTask (JStr "   ") false].
Proof. by vm_compute. Qed.

(** C4, counterexample. One step back from January of year 1 shows December
    of year 0: the date constructor refuses year 0, [reload_month] raises
    and no week row is built, though that month has 31 days. *)
Lemma reload_month_year_zero :
  year_month json january_year_1 = (1, 1)
  ∧ year_month json (exec json (action_prev_month json) january_year_1) = (0, 12)
  ∧ outcome json (action_prev_month json) january_year_1 = Raise ValueError
  ∧ rows (calendar json (exec json (action_prev_month json) january_year_1)) = []
  ∧ PyCalendar.monthrange 0 12 = Ok (4, 31).
Proof. by vm_compute. Qed.

(** ** Concrete runs of the further properties *)

(** The calendar nine months on, showing December 2024. *)
Definition december_2024 : State json :=
  Eval vm_compute in press_all json (replicate 9 NextMonth) started.

Lemma next_prev_month_inverse_witness :
  1 ≤ month (calendar json december_2024) ≤ 12
  ∧ year_month json december_2024 = (2024, 12)
  ∧ year_month json (exec json (action_next_month json) december_2024) = (2025, 1)
  ∧ year_month json
      (exec json (action_prev_month json)
         (exec json (action_next_month json) december_2024))
    = (2024, 12).
Proof.
  assert (1 ≤ month (calendar json december_2024) ≤ 12) as H
    by (vm_compute; split; discriminate).
  pose proof (next_prev_month_inverse json december_2024 H) as [Hthm _].
  split; [exact H|]. split; [by vm_compute|]. split; [by vm_compute|].
  rewrite Hthm. by vm_compute.
Defined.

(** The calendar set to December of the last year that is a C [int]. *)
Definition december_of_year_2147483647 : State json :=
  Eval vm_compute in
    upd_calendar json (λ c, with_month 12 (with_year 2147483647 c)) started.

Lemma navigation_outcome_witness :
  (1 ≤ month (calendar json january_year_1) ≤ 12
   ∧ 1 ≤ month (calendar json december_of_year_2147483647) ≤ 12)
  ∧ year_month json january_year_1 = (1, 1)
  ∧ outcome json (nav_action json PrevMonth) january_year_1 = Raise ValueError
  ∧ outcome json (nav_action json NextMonth) january_year_1 = Ok tt
  ∧ year_month json december_of_year_2147483647 = (2147483647, 12)
  ∧ outcome json (nav_action json NextMonth) december_of_year_2147483647
    = Raise OverflowError
  ∧ outcome json (nav_action json PrevMonth) december_of_year_2147483647
    = Raise ValueError.
Proof.
  assert (1 ≤ month (calendar json january_year_1) ≤ 12) as H
    by (vm_compute; split; discriminate).
  assert (1 ≤ month (calendar json december_of_year_2147483647) ≤ 12) as H'
    by (vm_compute; split; discriminate).
  pose proof (navigation_outcome json january_year_1 PrevMonth H) as Hprev.
  pose proof (navigation_outcome json january_year_1 NextMonth H) as Hnext.
  pose proof (navigation_outcome json december_of_year_2147483647 NextMonth H') as Hover.
  pose proof (navigation_outcome json december_of_year_2147483647 PrevMonth H') as Hlow.
  split; [exact (conj H H')|]. split; [by vm_compute|]. split; [|split; [|split; [|split]]].
  - rewrite Hprev. by vm_compute.
  - rewrite Hnext. by vm_compute.
  - by vm_compute.
  - rewrite Hover. by vm_compute.
  - rewrite Hlow. by vm_compute.
Defined.

(** The calendar of the running application moved on to April 2024. *)
Definition april_2024 : State json :=
  Eval vm_compute in exec json (action_next_month json) started.

Lemma cursor_after_reload_witness :
  (1 ≤ year (calendar json started) ≤ 9999
   ∧ 1 ≤ month (calendar json started) ≤ 12
   ∧ valid_date (system_date json (world json started)))
  ∧ cursor (calendar json (exec json (reload_month json) started)) = (2%nat, 4%nat)
  ∧ PyDict.get (2%nat, 4%nat)
      (_cell_to_date (calendar json (exec json (reload_month json) started)))
    = Some (Some (Date 2024 3 15))
  ∧ cursor (calendar json (exec json (reload_month json) april_2024)) = (0%nat, 0%nat).
Proof.
  assert (1 ≤ year (calendar json started) ≤ 9999) as Hy
    by (vm_compute; split; discriminate).
  assert (1 ≤ month (calendar json started) ≤ 12) as Hm
    by (vm_compute; split; discriminate).
  assert (valid_date (system_date json (world json started))) as Hv by (by vm_compute).
  assert (1 ≤ year (calendar json april_2024) ≤ 9999) as Hy'
    by (vm_compute; split; discriminate).
  assert (1 ≤ month (calendar json april_2024) ≤ 12) as Hm'
    by (vm_compute; split; discriminate).
  assert (valid_date (system_date json (world json april_2024))) as Hv' by (by vm_compute).
  pose proof (cursor_after_reload json started Hy Hm Hv) as Hthm.
  pose proof (cursor_after_reload json april_2024 Hy' Hm' Hv') as Hthm'.
  cbv zeta in Hthm, Hthm'. destruct Hthm as [Hc Hg]. destruct Hthm' as [Hc' _].
  assert (cursor (calendar json (exec json (reload_month json) started)) = (2%nat, 4%nat))
    as Hc2 by (rewrite Hc; by vm_compute).
  split; [exact (conj Hy (conj Hm Hv))|]. split; [exact Hc2|split].
  - rewrite <- Hc2, Hg. by vm_compute.
  - rewrite Hc'. by vm_compute.
Defined.

Lemma cell_selection_witness :
  (1 ≤ year (calendar json started) ≤ 9999 ∧ 1 ≤ month (calendar json started) ≤ 12)
  ∧ outcome json (on_data_table_cell_selected json 2 4)
      (exec json (reload_month json) started) = Ok tt
  ∧ posted json
      (exec json (on_data_table_cell_selected json 2 4)
         (exec json (reload_month json) started))
    = posted json (exec json (reload_month json) started)
      ++ [DateSelected (Date 2024 3 15)]
  ∧ exec json (on_data_table_cell_selected json 0 0)
      (exec json (reload_month json) started)
    = exec json (reload_month json) started.
Proof.
  assert (1 ≤ year (calendar json started) ≤ 9999) as Hy
    by (vm_compute; split; discriminate).
  assert (1 ≤ month (calendar json started) ≤ 12) as Hm
    by (vm_compute; split; discriminate).
  pose proof (cell_selection json started 2 4 Hy Hm) as Hday.
  pose proof (cell_selection json started 0 0 Hy Hm) as Hpad.
  cbv zeta in Hday, Hpad.
  split; [exact (conj Hy Hm)|]. split; [|split].
  - rewrite outcome_run, Hday. reflexivity.
  - rewrite exec_run, Hday. by vm_compute.
  - rewrite exec_run, Hpad. by vm_compute.
Defined.

Lemma title_and_label_witness :
  (1 ≤ year (calendar json started) ≤ 9999 ∧ 1 ≤ month (calendar json started) ≤ 12)
  ∧ title (calendar json (exec json (reload_month json) started)) = "March 2024"%string
  ∧ calendar_title json
      (exec json (dispatch json (MonthChanged 2024 3))
         (exec json (reload_month json) started))
    = "March 2024"%string.
Proof.
  assert (1 ≤ year (calendar json started) ≤ 9999) as Hy
    by (vm_compute; split; discriminate).
  assert (1 ≤ month (calendar json started) ≤ 12) as Hm
    by (vm_compute; split; discriminate).
  pose proof (title_and_label json started Hy Hm) as Hthm.
  cbv zeta in Hthm. destruct Hthm as (Ht & _ & Hd & _).
  split; [exact (conj Hy Hm)|]. split.
  - rewrite Ht. by vm_compute.
  - change (MonthChanged 2024 3)
      with (MonthChanged (year (calendar json started)) (month (calendar json started))).
    rewrite exec_run, Hd. cbn [snd]. unfold with_calendar_title. cbn [calendar_title].
    rewrite Ht. by vm_compute.
Defined.

Lemma changes_reach_the_file_witness :
  write_fault json (world json started) = None
  ∧ persist_file json (world json started) = None
  ∧ persist_file json
      (world json
         (exec json (panel_step json document_dumps (OpSubmit "  buy milk ")) started))
    = Some (serializable (_tasks_by_date json one_task))
  ∧ persist_file json
      (world json (exec json (panel_step json document_dumps (OpSubmit "   ")) started))
    = None.
Proof.
  assert (write_fault json (world json started) = None) as Hw by (by vm_compute).
  pose proof (changes_reach_the_file json document_dumps started
                (OpSubmit "  buy milk ") Hw) as Hadd.
  pose proof (changes_reach_the_file json document_dumps started (OpSubmit "   ") Hw)
    as Hblank.
  cbv zeta in Hadd, Hblank.
  split; [exact Hw|]. split; [by vm_compute|]. split.
  - rewrite Hadd. by vm_compute.
  - rewrite Hblank. by vm_compute.
Defined.

Lemma restart_after_change_witness :
  ((∀ j, document_loads (document_dumps j) = Ok j)
   ∧ write_fault json (world json with_empty_bucket) = None
   ∧ read_fault json (world json with_empty_bucket) = false
   ∧ saves json OpToggle with_empty_bucket = false
   ∧ saves json (OpAdd "d") with_empty_bucket = true)
  ∧ _tasks_by_date json
      (exec json (app_init json document_loads)
         (initial_state json
            (world json
               (exec json (panel_step json document_dumps (OpAdd "d")) with_empty_bucket))))
    = filter (λ kv, nonempty kv.2 = true)
        (_tasks_by_date json
           (exec json (panel_step json document_dumps (OpAdd "d")) with_empty_bucket)).
Proof.
  assert (∀ j, document_loads (document_dumps j) = Ok j) as Hc by done.
  assert (write_fault json (world json with_empty_bucket) = None) as Hw by (by vm_compute).
  assert (read_fault json (world json with_empty_bucket) = false) as Hr by (by vm_compute).
  assert (saves json (OpAdd "d") with_empty_bucket = true) as Hs by (by vm_compute).
  pose proof (restart_after_change json document_dumps document_loads with_empty_bucket
                (OpAdd "d") Hc Hw Hr Hs) as Hthm.
  cbv zeta in Hthm. destruct Hthm as [_ Hthm].
  split; [|exact Hthm]. split_and!; [exact Hc|exact Hw|exact Hr|by vm_compute|exact Hs].
Defined.

Lemma delete_moves_highlight_witness :
  bucket_of (Date 2024 3 15) (_tasks_by_date json two_days)
  = [mkTask (JStr "a") false; mkTask (JStr "b") false; mkTask (JStr "c") false]
  ∧ _highlight_index (todo json two_days) = 2
  ∧ bucket_of (Date 2024 3 15)
      (_tasks_by_date json (exec json (action_delete_task json document_dumps) two_days))
    = [mkTask (JStr "a") false; mkTask (JStr "b") false]
  ∧ Z.to_nat
      (clamp_index
         (_highlight_index
            (todo json (exec json (action_delete_task json document_dumps) two_days)))
         (length
            (bucket_of (current_date (todo json two_days))
               (_tasks_by_date json
                  (exec json (action_delete_task json document_dumps) two_days)))))
    = 1%nat.
Proof.
  assert (bucket_of (current_date (todo json two_days)) (_tasks_by_date json two_days) ≠ [])
    as Hb by (vm_compute; discriminate).
  pose proof (delete_moves_highlight json document_dumps two_days Hb) as Hthm.
  cbv zeta in Hthm. destruct Hthm as (Hdel & _ & Hlast & _).
  split; [by vm_compute|]. split; [by vm_compute|]. split.
  - change (Date 2024 3 15) with (current_date (todo json two_days)).
    rewrite Hdel. by vm_compute.
  - destruct Hlast as [-> _]; [by vm_compute|vm_compute; lia|by vm_compute].
Defined.

Lemma date_keys_distinct_witness :
  (valid_date (Date 2024 3 15) ∧ valid_date (Date 2024 3 16)
   ∧ Date 2024 3 15 ≠ Date 2024 3 16)
  ∧ bucket_of (Date 2024 3 16)
      (_tasks_by_date json
         (exec json (add_task_for_date json document_dumps (Date 2024 3 15) "z") two_days))
    = [mkTask (JStr "x") false].
Proof.
  assert (valid_date (Date 2024 3 15)) as H1 by (by vm_compute).
  assert (valid_date (Date 2024 3 16)) as H2 by (by vm_compute).
  assert (Date 2024 3 15 ≠ Date 2024 3 16) as Hne by discriminate.
  pose proof (date_keys_distinct json document_dumps two_days _ _ "z" H1 H2) as [_ Hthm].
  split; [exact (conj H1 (conj H2 Hne))|]. rewrite (Hthm Hne). by vm_compute.
Defined.

Lemma jump_to_today_witness :
  valid_date (system_date json (world json next_morning))
  ∧ current_date (todo json next_morning) = Date 2024 3 15
  ∧ current_date (todo json (exec json (action_today json) next_morning)) = Date 2024 3 16
  ∧ PyDict.get (cursor (calendar json (exec json (action_today json) next_morning)))
      (_cell_to_date (calendar json (exec json (action_today json) next_morning)))
    = Some (Some (Date 2024 3 16)).
Proof.
  assert (valid_date (system_date json (world json next_morning))) as Hv by (by vm_compute).
  pose proof (jump_to_today json next_morning Hv) as Hthm.
  cbv zeta in Hthm. destruct Hthm as (_ & _ & Hcur & Hd & _).
  split; [exact Hv|]. split; [by vm_compute|]. split.
  - rewrite Hd. by vm_compute.
  - rewrite Hcur. by vm_compute.
Defined.

